(** * CloudMouse runtime core: gestures, coordinator, device identity

    A shallow embedding of
    - [lib/hardware/EncoderManager.cpp]  (module [EncoderManager]),
    - [lib/core/Core.cpp]                (module [Core]),
    - [lib/utils/DeviceID.h]             (module [DeviceID]),
    followed by the properties established about them.

    Conventions.  A C++ [int] is a [Z] kept in range by [wrap32s], an
    [unsigned long] / [uint32_t] a [Z] kept in range by [wrap32u] (the
    ESP32 is an ILP32 target).  Digital levels are booleans, [HIGH] being
    [true].  Every method of a class becomes a function from the object's
    fields to the new fields (and a result, when the method has one). *)

From Stdlib Require Import ZArith List Bool Lia String Ascii.
Import ListNotations.
Local Open Scope Z_scope.

(** ** Machine integers *)

Module Machine.

Definition wrap32u (z : Z) : Z := z mod 2 ^ 32.

Definition wrap32s (z : Z) : Z := (z + 2 ^ 31) mod 2 ^ 32 - 2 ^ 31.

Definition wrap64u (z : Z) : Z := z mod 2 ^ 64.

End Machine.

(** Arduino digital levels. *)
Abbreviation LOW := false.
Abbreviation HIGH := true.

(** ** EncoderManager.cpp *)

Module EncoderManager.
Import Machine.

(** The four thresholds are macros of [EncoderManager.h], which is not part
    of the sources at hand; the functions below take them as a value. *)
Record Timing : Set := mkTiming {
  CLICK_TIMEOUT : Z;
  LONG_PRESS_DURATION : Z;
  ULTRA_LONG_PRESS_DURATION : Z;
  DOUBLE_CLICK_WINDOW : Z
}.

(** What the hardware shows during one call of [update()]: the PCNT
    counter behind [encoder.position()], the level of the switch pin
    behind [digitalRead(ENCODER_SW_PIN)], and the time in milliseconds
    since power-up behind [millis()].  Every read made by one call sees
    the same sample. *)
Record Hw : Set := mkHw {
  position : Z;
  pin : bool;
  clock : Z
}.

(** [millis()] returns an [unsigned long]: the clock modulo 2^32. *)
Definition millis (hw : Hw) : Z := wrap32u (clock hw).

Definition digitalRead (hw : Hw) : bool := pin hw.

(** The data members of the class. *)
Record State : Set := mkState {
  lastValue : Z;
  movement : Z;
  movementPending : bool;
  lastButtonState : bool;
  pressStartTime : Z;
  lastPressDuration : Z;
  lastClickTime : Z;
  pressAndRotateActive : bool;
  waitingForDoubleClick : bool;
  clickPending : bool;
  doubleClickPending : bool;
  longPressPending : bool;
  ultraLongPressPending : bool;
  pressAndRotatePending : bool;
  longPressBuzzed : bool;
  ultraLongPressNotified : bool
}.

(** Assignments to a single member. *)
Definition set_lastValue (v : Z) (s : State) : State :=
  mkState v (movement s) (movementPending s) (lastButtonState s)
    (pressStartTime s) (lastPressDuration s) (lastClickTime s)
    (pressAndRotateActive s) (waitingForDoubleClick s) (clickPending s)
    (doubleClickPending s) (longPressPending s) (ultraLongPressPending s)
    (pressAndRotatePending s) (longPressBuzzed s) (ultraLongPressNotified s).

Definition set_movement (v : Z) (s : State) : State :=
  mkState (lastValue s) v (movementPending s) (lastButtonState s)
    (pressStartTime s) (lastPressDuration s) (lastClickTime s)
    (pressAndRotateActive s) (waitingForDoubleClick s) (clickPending s)
    (doubleClickPending s) (longPressPending s) (ultraLongPressPending s)
    (pressAndRotatePending s) (longPressBuzzed s) (ultraLongPressNotified s).

Definition set_movementPending (v : bool) (s : State) : State :=
  mkState (lastValue s) (movement s) v (lastButtonState s)
    (pressStartTime s) (lastPressDuration s) (lastClickTime s)
    (pressAndRotateActive s) (waitingForDoubleClick s) (clickPending s)
    (doubleClickPending s) (longPressPending s) (ultraLongPressPending s)
    (pressAndRotatePending s) (longPressBuzzed s) (ultraLongPressNotified s).

Definition set_lastButtonState (v : bool) (s : State) : State :=
  mkState (lastValue s) (movement s) (movementPending s) v
    (pressStartTime s) (lastPressDuration s) (lastClickTime s)
    (pressAndRotateActive s) (waitingForDoubleClick s) (clickPending s)
    (doubleClickPending s) (longPressPending s) (ultraLongPressPending s)
    (pressAndRotatePending s) (longPressBuzzed s) (ultraLongPressNotified s).

Definition set_pressStartTime (v : Z) (s : State) : State :=
  mkState (lastValue s) (movement s) (movementPending s) (lastButtonState s)
    v (lastPressDuration s) (lastClickTime s)
    (pressAndRotateActive s) (waitingForDoubleClick s) (clickPending s)
    (doubleClickPending s) (longPressPending s) (ultraLongPressPending s)
    (pressAndRotatePending s) (longPressBuzzed s) (ultraLongPressNotified s).

Definition set_lastPressDuration (v : Z) (s : State) : State :=
  mkState (lastValue s) (movement s) (movementPending s) (lastButtonState s)
    (pressStartTime s) v (lastClickTime s)
    (pressAndRotateActive s) (waitingForDoubleClick s) (clickPending s)
    (doubleClickPending s) (longPressPending s) (ultraLongPressPending s)
    (pressAndRotatePending s) (longPressBuzzed s) (ultraLongPressNotified s).

Definition set_lastClickTime (v : Z) (s : State) : State :=
  mkState (lastValue s) (movement s) (movementPending s) (lastButtonState s)
    (pressStartTime s) (lastPressDuration s) v
    (pressAndRotateActive s) (waitingForDoubleClick s) (clickPending s)
    (doubleClickPending s) (longPressPending s) (ultraLongPressPending s)
    (pressAndRotatePending s) (longPressBuzzed s) (ultraLongPressNotified s).

Definition set_pressAndRotateActive (v : bool) (s : State) : State :=
  mkState (lastValue s) (movement s) (movementPending s) (lastButtonState s)
    (pressStartTime s) (lastPressDuration s) (lastClickTime s)
    v (waitingForDoubleClick s) (clickPending s)
    (doubleClickPending s) (longPressPending s) (ultraLongPressPending s)
    (pressAndRotatePending s) (longPressBuzzed s) (ultraLongPressNotified s).

Definition set_waitingForDoubleClick (v : bool) (s : State) : State :=
  mkState (lastValue s) (movement s) (movementPending s) (lastButtonState s)
    (pressStartTime s) (lastPressDuration s) (lastClickTime s)
    (pressAndRotateActive s) v (clickPending s)
    (doubleClickPending s) (longPressPending s) (ultraLongPressPending s)
    (pressAndRotatePending s) (longPressBuzzed s) (ultraLongPressNotified s).

Definition set_clickPending (v : bool) (s : State) : State :=
  mkState (lastValue s) (movement s) (movementPending s) (lastButtonState s)
    (pressStartTime s) (lastPressDuration s) (lastClickTime s)
    (pressAndRotateActive s) (waitingForDoubleClick s) v
    (doubleClickPending s) (longPressPending s) (ultraLongPressPending s)
    (pressAndRotatePending s) (longPressBuzzed s) (ultraLongPressNotified s).

Definition set_doubleClickPending (v : bool) (s : State) : State :=
  mkState (lastValue s) (movement s) (movementPending s) (lastButtonState s)
    (pressStartTime s) (lastPressDuration s) (lastClickTime s)
    (pressAndRotateActive s) (waitingForDoubleClick s) (clickPending s)
    v (longPressPending s) (ultraLongPressPending s)
    (pressAndRotatePending s) (longPressBuzzed s) (ultraLongPressNotified s).

Definition set_longPressPending (v : bool) (s : State) : State :=
  mkState (lastValue s) (movement s) (movementPending s) (lastButtonState s)
    (pressStartTime s) (lastPressDuration s) (lastClickTime s)
    (pressAndRotateActive s) (waitingForDoubleClick s) (clickPending s)
    (doubleClickPending s) v (ultraLongPressPending s)
    (pressAndRotatePending s) (longPressBuzzed s) (ultraLongPressNotified s).

Definition set_ultraLongPressPending (v : bool) (s : State) : State :=
  mkState (lastValue s) (movement s) (movementPending s) (lastButtonState s)
    (pressStartTime s) (lastPressDuration s) (lastClickTime s)
    (pressAndRotateActive s) (waitingForDoubleClick s) (clickPending s)
    (doubleClickPending s) (longPressPending s) v
    (pressAndRotatePending s) (longPressBuzzed s) (ultraLongPressNotified s).

Definition set_pressAndRotatePending (v : bool) (s : State) : State :=
  mkState (lastValue s) (movement s) (movementPending s) (lastButtonState s)
    (pressStartTime s) (lastPressDuration s) (lastClickTime s)
    (pressAndRotateActive s) (waitingForDoubleClick s) (clickPending s)
    (doubleClickPending s) (longPressPending s) (ultraLongPressPending s)
    v (longPressBuzzed s) (ultraLongPressNotified s).

Definition set_longPressBuzzed (v : bool) (s : State) : State :=
  mkState (lastValue s) (movement s) (movementPending s) (lastButtonState s)
    (pressStartTime s) (lastPressDuration s) (lastClickTime s)
    (pressAndRotateActive s) (waitingForDoubleClick s) (clickPending s)
    (doubleClickPending s) (longPressPending s) (ultraLongPressPending s)
    (pressAndRotatePending s) v (ultraLongPressNotified s).

Definition set_ultraLongPressNotified (v : bool) (s : State) : State :=
  mkState (lastValue s) (movement s) (movementPending s) (lastButtonState s)
    (pressStartTime s) (lastPressDuration s) (lastClickTime s)
    (pressAndRotateActive s) (waitingForDoubleClick s) (clickPending s)
    (doubleClickPending s) (longPressPending s) (ultraLongPressPending s)
    (pressAndRotatePending s) (longPressBuzzed s) v.

(** Statements in sequence: [s |> f |> g] runs [f], then [g]. *)
Notation "s |> f" := (f s) (at level 45, left associativity, only parsing).

(** *** State queries *)

Definition isButtonDown (hw : Hw) : bool :=
  Bool.eqb (digitalRead hw) LOW.

Definition getCurrentPressTime (hw : Hw) (s : State) : Z :=
  if Bool.eqb (digitalRead hw) LOW
  then wrap32u (millis hw - pressStartTime s)
  else 0.

Definition getPressTime (hw : Hw) (s : State) : Z :=
  wrap32s (getCurrentPressTime hw s).

Definition getLastPressDuration (s : State) : Z :=
  wrap32s (lastPressDuration s).

Definition resetLastPressDuration (s : State) : bool * State :=
  if 0 <? lastPressDuration s
  then (true, s |> set_lastPressDuration 0)
  else (false, s).

(** *** Initialisation *)

(** Modelled from the spec: the member initialisers of the class are in
    [EncoderManager.h], which is missing; a recogniser is constructed with
    nothing accumulated, nothing pending and the switch released. *)
Definition fresh : State :=
  mkState 0 0 false HIGH 0 0 0 false false false false false false false
    false false.

Definition init (hw : Hw) (s : State) : State :=
  s |> set_lastValue (Z.quot (position hw) 4)
    |> set_lastButtonState (digitalRead hw).

(** *** Rotation *)

Definition processEncoder (hw : Hw) (s : State) : State :=
  let newValue := Z.quot (position hw) 4 in
  if negb (newValue =? lastValue s) then
    let delta := wrap32s (newValue - lastValue s) in
    let s := s |> set_movement (wrap32s (movement s + delta))
               |> set_lastValue newValue
               |> set_movementPending true in
    if isButtonDown hw && negb (pressAndRotateActive s) then
      s |> set_pressAndRotatePending true
        |> set_pressAndRotateActive true
        |> set_clickPending false
        |> set_longPressPending false
        |> set_ultraLongPressPending false
        |> set_waitingForDoubleClick false
        |> set_longPressBuzzed false
        |> set_ultraLongPressNotified false
    else s
  else s.

(** *** Button *)

Section WithTiming.
Variable cfg : Timing.

(** The classification made on a release that is not part of a
    press-and-rotate gesture. *)
Definition classifyRelease (currentTime pressDuration : Z) (s : State)
  : State :=
  if ULTRA_LONG_PRESS_DURATION cfg <=? pressDuration then
    if negb (ultraLongPressNotified s) then
      s |> set_ultraLongPressPending true
        |> set_ultraLongPressNotified true
    else s
  else if LONG_PRESS_DURATION cfg <=? pressDuration then
    s |> set_longPressPending true
  else if pressDuration <? CLICK_TIMEOUT cfg then
    if waitingForDoubleClick s then
      s |> set_doubleClickPending true
        |> set_waitingForDoubleClick false
        |> set_clickPending false
    else
      s |> set_waitingForDoubleClick true
        |> set_lastClickTime currentTime
  else s.

(** The four blocks of [processButton], in the order the function runs
    them.  [lastButtonState] is only assigned after the last one, so each
    block compares the sampled level with the level of the previous call. *)

(* PRESS DETECTION *)
Definition pressDetection (hw : Hw) (s : State) : State :=
  let currentButtonState := digitalRead hw in
  let currentTime := millis hw in
  if negb (Bool.eqb currentButtonState (lastButtonState s))
     && Bool.eqb currentButtonState LOW
  then s |> set_pressStartTime currentTime
         |> set_longPressBuzzed false
         |> set_ultraLongPressNotified false
         |> set_pressAndRotateActive false
  else s.

(* RELEASE DETECTION *)
Definition releaseDetection (hw : Hw) (s : State) : State :=
  let currentButtonState := digitalRead hw in
  let currentTime := millis hw in
  if negb (Bool.eqb currentButtonState (lastButtonState s))
     && Bool.eqb currentButtonState HIGH
  then
    let pressDuration := wrap32u (currentTime - pressStartTime s) in
    let s := s |> set_lastPressDuration pressDuration in
    if pressAndRotateActive s
    then s |> set_pressAndRotateActive false
    else classifyRelease currentTime pressDuration s
  else s.

(* ONGOING PRESS FEEDBACK *)
Definition ongoingPress (hw : Hw) (s : State) : State :=
  let currentButtonState := digitalRead hw in
  if Bool.eqb currentButtonState LOW && negb (pressAndRotateActive s)
  then
    let pressTime := getCurrentPressTime hw s in
    let s :=
      if (LONG_PRESS_DURATION cfg <=? pressTime)
         && negb (longPressBuzzed s)
      then s |> set_longPressBuzzed true
      else s in
    if (ULTRA_LONG_PRESS_DURATION cfg <=? pressTime)
       && negb (ultraLongPressNotified s)
    then s |> set_ultraLongPressPending true
           |> set_ultraLongPressNotified true
    else s
  else
    if ultraLongPressNotified s
       && (lastPressDuration s <? ULTRA_LONG_PRESS_DURATION cfg)
    then s |> set_ultraLongPressNotified false
    else s.

(* Check double click timeout *)
Definition doubleClickTimeout (hw : Hw) (s : State) : State :=
  let currentTime := millis hw in
  if waitingForDoubleClick s
     && (DOUBLE_CLICK_WINDOW cfg <? wrap32u (currentTime - lastClickTime s))
  then s |> set_clickPending true
         |> set_waitingForDoubleClick false
  else s.

Definition processButton (hw : Hw) (s : State) : State :=
  let currentButtonState := digitalRead hw in
  s |> pressDetection hw
    |> releaseDetection hw
    |> ongoingPress hw
    |> doubleClickTimeout hw
    |> set_lastButtonState currentButtonState.

Definition update (hw : Hw) (s : State) : State :=
  s |> processEncoder hw |> processButton hw.

End WithTiming.

(** *** Consumption *)

Definition getMovement (hw : Hw) (s : State) : Z * State :=
  if isButtonDown hw || pressAndRotateActive s then (0, s)
  else if movementPending s then
    (movement s, s |> set_movement 0 |> set_movementPending false)
  else (0, s).

Definition getClicked (s : State) : bool * State :=
  if clickPending s then (true, s |> set_clickPending false)
  else (false, s).

Definition getLongPressed (s : State) : bool * State :=
  if longPressPending s then (true, s |> set_longPressPending false)
  else (false, s).

Definition getUltraLongPressed (s : State) : bool * State :=
  if ultraLongPressPending s
  then (true, s |> set_ultraLongPressPending false)
  else (false, s).

Definition getDoubleClicked (s : State) : bool * State :=
  if doubleClickPending s then (true, s |> set_doubleClickPending false)
  else (false, s).

Definition getPressAndRotate (s : State) : bool * State :=
  if pressAndRotatePending s
  then (true, s |> set_pressAndRotatePending false)
  else (false, s).

Definition getPressAndRotateMovement (s : State) : Z * State :=
  if pressAndRotateActive s && movementPending s then
    (movement s, s |> set_movement 0 |> set_movementPending false)
  else (0, s).

End EncoderManager.

(** ** Arduino strings *)

Module Arduino.

(** [isspace] and [tolower] of the C library, in the "C" locale. *)
Definition isspace (c : ascii) : bool :=
  let n := nat_of_ascii c in
  ((n =? 32) || ((9 <=? n) && (n <=? 13)))%nat.

Definition tolower (c : ascii) : ascii :=
  let n := nat_of_ascii c in
  if ((65 <=? n) && (n <=? 90))%nat then ascii_of_nat (n + 32) else c.

Fixpoint skipSpaces (l : list ascii) : list ascii :=
  match l with
  | [] => []
  | c :: rest => if isspace c then skipSpaces rest else l
  end.

(** A [String] holds [length()] characters, a NUL byte possibly among
    them; the C functions it is handed to, and [c_str()] as they read it,
    see the characters before the first NUL. *)
Fixpoint c_str (s : string) : string :=
  match s with
  | EmptyString => EmptyString
  | String c rest =>
      if Ascii.eqb c zero then EmptyString else String c (c_str rest)
  end.

(** [String::trim()]: white space is removed at both ends. *)
Definition trim (s : string) : string :=
  string_of_list_ascii
    (rev (skipSpaces (rev (skipSpaces (list_ascii_of_string s))))).

(** [String::toLowerCase()]: the loop runs to the first NUL. *)
Fixpoint lowerToNul (l : list ascii) : list ascii :=
  match l with
  | [] => []
  | c :: rest =>
      if Ascii.eqb c zero then l else tolower c :: lowerToNul rest
  end.

Definition toLowerCase (s : string) : string :=
  string_of_list_ascii (lowerToNul (list_ascii_of_string s)).

(** [String::equals] with a C string, which is behind [==]: a [strcmp]
    of the two as C strings. *)
Definition equals (s cstr : string) : bool :=
  String.eqb (c_str s) (c_str cstr).

End Arduino.

(** ** Core.cpp *)

Module Core.
Import Machine Arduino.

Inductive SystemState : Set :=
| BOOTING | INITIALIZING | WIFI_CONNECTING | WIFI_AP_MODE | READY | RUNNING
| ERROR.

Definition SystemState_eqb (a b : SystemState) : bool :=
  match a, b with
  | BOOTING, BOOTING | INITIALIZING, INITIALIZING
  | WIFI_CONNECTING, WIFI_CONNECTING | WIFI_AP_MODE, WIFI_AP_MODE
  | READY, READY | RUNNING, RUNNING | ERROR, ERROR => true
  | _, _ => false
  end.

(** [WiFiManager::WiFiState], as used by [handleWiFiConnection]. *)
Inductive WiFiState : Set :=
| WS_DISCONNECTED | WS_CONNECTING | WS_CONNECTED | WS_CREDENTIAL_NOT_FOUND
| WS_TIMEOUT | WS_ERROR | WS_AP_MODE.

Definition WiFiState_eqb (a b : WiFiState) : bool :=
  match a, b with
  | WS_DISCONNECTED, WS_DISCONNECTED | WS_CONNECTING, WS_CONNECTING
  | WS_CONNECTED, WS_CONNECTED
  | WS_CREDENTIAL_NOT_FOUND, WS_CREDENTIAL_NOT_FOUND
  | WS_TIMEOUT, WS_TIMEOUT | WS_ERROR, WS_ERROR | WS_AP_MODE, WS_AP_MODE =>
      true
  | _, _ => false
  end.

(** The event kinds [Core.cpp] constructs, and the three further encoder
    kinds the specification names ([Events.h] is not among the sources). *)
Inductive EventType : Set :=
| ENCODER_ROTATION | ENCODER_CLICK | ENCODER_LONG_PRESS | ENCODER_PRESS_TIME
| ENCODER_BUTTON_RELEASED
| ENCODER_DOUBLE_CLICK | ENCODER_ULTRA_LONG_PRESS | ENCODER_PRESS_AND_ROTATE
| WIFI_CONNECTING_EVT | WIFI_CONNECTED | WIFI_DISCONNECTED
| DISPLAY_WIFI_CONNECTING | DISPLAY_WIFI_AP_MODE | DISPLAY_WIFI_SETUP_URL
| DISPLAY_WAKE_UP | BOOTING_COMPLETE.

Definition EventType_eqb (a b : EventType) : bool :=
  match a, b with
  | ENCODER_ROTATION, ENCODER_ROTATION | ENCODER_CLICK, ENCODER_CLICK
  | ENCODER_LONG_PRESS, ENCODER_LONG_PRESS
  | ENCODER_PRESS_TIME, ENCODER_PRESS_TIME
  | ENCODER_BUTTON_RELEASED, ENCODER_BUTTON_RELEASED
  | ENCODER_DOUBLE_CLICK, ENCODER_DOUBLE_CLICK
  | ENCODER_ULTRA_LONG_PRESS, ENCODER_ULTRA_LONG_PRESS
  | ENCODER_PRESS_AND_ROTATE, ENCODER_PRESS_AND_ROTATE
  | WIFI_CONNECTING_EVT, WIFI_CONNECTING_EVT
  | WIFI_CONNECTED, WIFI_CONNECTED | WIFI_DISCONNECTED, WIFI_DISCONNECTED
  | DISPLAY_WIFI_CONNECTING, DISPLAY_WIFI_CONNECTING
  | DISPLAY_WIFI_AP_MODE, DISPLAY_WIFI_AP_MODE
  | DISPLAY_WIFI_SETUP_URL, DISPLAY_WIFI_SETUP_URL
  | DISPLAY_WAKE_UP, DISPLAY_WAKE_UP | BOOTING_COMPLETE, BOOTING_COMPLETE =>
      true
  | _, _ => false
  end.

(** [Event(type)], [Event(type, value)] and [setStringData]. *)
Record Event : Set := mkEvent {
  type : EventType;
  value : Z;
  stringData : string
}.

Definition Event1 (t : EventType) : Event := mkEvent t 0 EmptyString.
Definition Event2 (t : EventType) (v : Z) : Event := mkEvent t v EmptyString.
Definition setStringData (d : string) (e : Event) : Event :=
  mkEvent (type e) (value e) d.

(** Calls that leave the class: the two directions of the event bus and the
    collaborators.  A run of the coordinator is observed through the
    sequence of these calls, oldest first. *)
Inductive Effect : Set :=
| SendToUI (e : Event)
| SendToMain (e : Event)
| ProcessSDKEvent (e : Event)
| AppUpdate
| WifiInit | WifiUpdate | WifiSetupAP
| WebInit | WebUpdate
| LedRainbow (on : bool) (speed : Z)
| LedLoading (on : bool)
| LedFlash (r g b brightness duration : Z)
| LedActivate
| Buzz | BuzzError
| DisplayUpdate
| CheckHealth.

(** The data members of [Core] read or written by the functions below,
    the two function-local statics of [handleWiFiConnection], the
    collaborator pointers (attached or null; the encoder with its fields),
    and the calls made so far. *)
Record State : Set := mkState {
  currentState : SystemState;
  stateStartTime : Z;
  coordinationCycles : Z;
  eventsProcessed : Z;
  lastHealthCheck : Z;
  lastWiFiState : WiFiState;
  clientWasConnected : bool;
  encoder : option EncoderManager.State;
  wifi : bool;
  webServer : bool;
  ledManager : bool;
  appOrchestrator : bool;
  display : bool;
  effects : list Effect
}.

Definition set_currentState (v : SystemState) (c : State) : State :=
  mkState v (stateStartTime c) (coordinationCycles c) (eventsProcessed c)
    (lastHealthCheck c) (lastWiFiState c) (clientWasConnected c) (encoder c)
    (wifi c) (webServer c) (ledManager c) (appOrchestrator c) (display c)
    (effects c).

Definition set_stateStartTime (v : Z) (c : State) : State :=
  mkState (currentState c) v (coordinationCycles c) (eventsProcessed c)
    (lastHealthCheck c) (lastWiFiState c) (clientWasConnected c) (encoder c)
    (wifi c) (webServer c) (ledManager c) (appOrchestrator c) (display c)
    (effects c).

Definition set_coordinationCycles (v : Z) (c : State) : State :=
  mkState (currentState c) (stateStartTime c) v (eventsProcessed c)
    (lastHealthCheck c) (lastWiFiState c) (clientWasConnected c) (encoder c)
    (wifi c) (webServer c) (ledManager c) (appOrchestrator c) (display c)
    (effects c).

Definition set_eventsProcessed (v : Z) (c : State) : State :=
  mkState (currentState c) (stateStartTime c) (coordinationCycles c) v
    (lastHealthCheck c) (lastWiFiState c) (clientWasConnected c) (encoder c)
    (wifi c) (webServer c) (ledManager c) (appOrchestrator c) (display c)
    (effects c).

Definition set_lastHealthCheck (v : Z) (c : State) : State :=
  mkState (currentState c) (stateStartTime c) (coordinationCycles c)
    (eventsProcessed c) v (lastWiFiState c) (clientWasConnected c)
    (encoder c) (wifi c) (webServer c) (ledManager c) (appOrchestrator c)
    (display c) (effects c).

Definition set_lastWiFiState (v : WiFiState) (c : State) : State :=
  mkState (currentState c) (stateStartTime c) (coordinationCycles c)
    (eventsProcessed c) (lastHealthCheck c) v (clientWasConnected c)
    (encoder c) (wifi c) (webServer c) (ledManager c) (appOrchestrator c)
    (display c) (effects c).

Definition set_clientWasConnected (v : bool) (c : State) : State :=
  mkState (currentState c) (stateStartTime c) (coordinationCycles c)
    (eventsProcessed c) (lastHealthCheck c) (lastWiFiState c) v
    (encoder c) (wifi c) (webServer c) (ledManager c) (appOrchestrator c)
    (display c) (effects c).

Definition set_encoder (v : option EncoderManager.State) (c : State)
  : State :=
  mkState (currentState c) (stateStartTime c) (coordinationCycles c)
    (eventsProcessed c) (lastHealthCheck c) (lastWiFiState c)
    (clientWasConnected c) v (wifi c) (webServer c) (ledManager c)
    (appOrchestrator c) (display c) (effects c).

Definition set_effects (v : list Effect) (c : State) : State :=
  mkState (currentState c) (stateStartTime c) (coordinationCycles c)
    (eventsProcessed c) (lastHealthCheck c) (lastWiFiState c)
    (clientWasConnected c) (encoder c) (wifi c) (webServer c) (ledManager c)
    (appOrchestrator c) (display c) v.

Notation "c |> f" := (f c) (at level 45, left associativity, only parsing).

(** One call leaving the class. *)
Definition call (e : Effect) (c : State) : State :=
  c |> set_effects (effects c ++ [e]).

(** A call through a collaborator pointer the source guards with
    [if (ptr)]. *)
Definition guarded (attached : bool) (e : Effect) (c : State) : State :=
  if attached then call e c else c.

(** What one pass of [coordinationLoop] reads from outside the class: the
    clock, the network manager's answers after its [update()], and the
    events waiting on the UI-to-main queue.  [wifiStateAfter] is the answer
    to the second [getState()] of the pass, made after the handler ran. *)
Record Env : Set := mkEnv {
  clock : Z;
  wifiState : WiFiState;
  wifiStateAfter : WiFiState;
  ssid : string;
  localIP : string;
  apIP : string;
  hasAPClient : bool;
  inbound : list Event
}.

Definition millis (env : Env) : Z := wrap32u (clock env).

(** *** State management *)

Definition setState (env : Env) (state : SystemState) (c : State) : State :=
  if negb (SystemState_eqb (currentState c) state) then
    c |> set_currentState state
      |> set_stateStartTime (millis env)
  else c.

(** [start()] calls [ledManager->setRainbowState] without a null check:
    with no LED manager attached the call has no defined result. *)
Definition start (env : Env) (c : State) : option State :=
  if negb (SystemState_eqb (currentState c) READY) then Some c
  else if ledManager c then
    Some (c |> call (LedRainbow true 2) |> setState env RUNNING)
  else None.

Section WithBuild.
(** The compile-time switch [WIFI_REQUIRED]. *)
Variable WIFI_REQUIRED : bool.

(** *** Boot sequence *)

Definition handleBootingState (env : Env) (c : State) : State :=
  if 4000 <=? millis env then
    let c := c |> setState env INITIALIZING in
    let c :=
      if WIFI_REQUIRED then
        if wifi c then
          c |> call (SendToUI (Event1 DISPLAY_WIFI_CONNECTING))
            |> call WifiInit
        else c
      else
        c |> call (SendToUI (Event1 DISPLAY_WAKE_UP))
          |> setState env READY in
    c |> guarded (appOrchestrator c) (ProcessSDKEvent (Event1 BOOTING_COMPLETE))
  else c.

(** *** WiFi connection handler (entered only with [wifi] attached) *)

(* Process WiFi state changes: the [switch] *)
Definition onWiFiChange (env : Env) (c : State) : State :=
  match wifiState env with
  | WS_CONNECTING =>
      c |> setState env WIFI_CONNECTING
        |> guarded (ledManager c) (LedLoading true)
        |> guarded (appOrchestrator c)
             (ProcessSDKEvent (Event1 WIFI_CONNECTING_EVT))
  | WS_CONNECTED =>
      c |> guarded (ledManager c) (LedLoading false)
        |> guarded (ledManager c) (LedFlash 0 255 0 255 500)
        |> call (SendToUI (Event2 ENCODER_ROTATION 0))
        |> guarded (appOrchestrator c)
             (ProcessSDKEvent (Event1 WIFI_CONNECTED))
        |> setState env READY
  | WS_CREDENTIAL_NOT_FOUND | WS_TIMEOUT | WS_ERROR =>
      c |> guarded (appOrchestrator c)
             (ProcessSDKEvent (Event1 WIFI_DISCONNECTED))
        |> guarded (wifi c) WifiSetupAP
  | WS_AP_MODE =>
      let c := c |> setState env WIFI_AP_MODE in
      if webServer c then
        c |> call WebInit
          |> call (SendToUI
                     (setStringData (ssid env ++ "|" ++ apIP env)
                        (Event1 DISPLAY_WIFI_AP_MODE)))
          |> guarded (ledManager c) (LedFlash 0 100 255 255 1000)
      else c
  | WS_DISCONNECTED => c
  end.

(* Monitor for clients connecting to our AP *)
Definition monitorAPClients (env : Env) (c : State) : State :=
  if WiFiState_eqb (wifiState env) WS_AP_MODE && wifi c then
    let clientIsConnected := hasAPClient env in
    let c :=
      if clientIsConnected && negb (clientWasConnected c) then
        c |> call (SendToUI
                     (setStringData ("http://" ++ apIP env ++ "/setup")
                        (Event1 DISPLAY_WIFI_SETUP_URL)))
          |> guarded (ledManager c) (LedFlash 0 255 0 255 300)
      else c in
    c |> set_clientWasConnected clientIsConnected
  else c.

Definition handleWiFiConnection (env : Env) (c : State) : State :=
  let currentWiFiState := wifiState env in
  let c :=
    if negb (WiFiState_eqb currentWiFiState (lastWiFiState c)) then
      c |> set_lastWiFiState currentWiFiState |> onWiFiChange env
    else c in
  c |> monitorAPClients env.

(** *** Event processing *)

Definition handleEncoderRotation (event : Event) (c : State) : State :=
  c |> guarded (ledManager c) LedActivate |> call (SendToUI event).

Definition handleEncoderClick (event : Event) (c : State) : State :=
  c |> guarded (ledManager c) (LedFlash 0 255 0 255 200)
    |> call Buzz
    |> call (SendToUI event).

Definition handleEncoderLongPress (event : Event) (c : State) : State :=
  c |> guarded (ledManager c) (LedFlash 255 165 0 255 500)
    |> call BuzzError
    |> call (SendToUI event).

Definition dispatch (event : Event) (c : State) : State :=
  let c := c |> set_eventsProcessed (wrap32u (eventsProcessed c + 1)) in
  let c := c |> guarded (appOrchestrator c) (ProcessSDKEvent event) in
  match type event with
  | ENCODER_ROTATION => handleEncoderRotation event c
  | ENCODER_CLICK => handleEncoderClick event c
  | ENCODER_LONG_PRESS => handleEncoderLongPress event c
  | _ => c
  end.

(** The [while (receiveFromUI(event, 0))] loop, over the events the queue
    holds when the pass reaches it. *)
Definition processEvents (env : Env) (c : State) : State :=
  fold_left (fun c event => dispatch event c) (inbound env) c.

(** *** Coordination loop

    One pass, block by block.  The serial console
    ([processSerialCommands]) reads and writes none of the members above
    and is left out: the passes modelled are those on which no [reboot] or
    [hard reset] command arrives. *)

(* Handle boot sequence timing *)
Definition bootSequence (env : Env) (c : State) : State :=
  if SystemState_eqb (currentState c) BOOTING
  then handleBootingState env c else c.

(* WiFi management and state handling *)
Definition wifiManagement (env : Env) (c : State) : State :=
  if wifi c then c |> call WifiUpdate |> handleWiFiConnection env
  else c.

(* Web server updates when in AP mode *)
Definition webServerUpdates (env : Env) (c : State) : State :=
  if wifi c && WiFiState_eqb (wifiStateAfter env) WS_AP_MODE
     && webServer c
  then c |> call WebUpdate else c.

(* Auto-transition to running state when ready *)
Definition autoTransition (env : Env) (c : State) : option State :=
  if SystemState_eqb (currentState c) READY then start env c else Some c.

(* update loop for app orchestrator; process system events; cycle count;
   system health monitoring (every 5 seconds) *)
Definition housekeeping (env : Env) (c : State) : State :=
  let c := c |> guarded (appOrchestrator c) AppUpdate in
  let c := c |> processEvents env in
  let c :=
    c |> set_coordinationCycles (wrap32u (coordinationCycles c + 1)) in
  if 5000 <? wrap32u (millis env - lastHealthCheck c)
  then c |> call CheckHealth |> set_lastHealthCheck (millis env)
  else c.

Definition coordinationLoop (env : Env) (c : State) : option State :=
  match
    c |> bootSequence env |> wifiManagement env |> webServerUpdates env
      |> autoTransition env
  with
  | None => None
  | Some c => Some (housekeeping env c)
  end.

(** Consecutive passes of the coordination task. *)
Fixpoint coordinate (envs : list Env) (c : State) : option State :=
  match envs with
  | [] => Some c
  | env :: rest =>
      match coordinationLoop env c with
      | None => None
      | Some c => coordinate rest c
      end
  end.

(** *** UI task: one iteration of the [while (true)] body

    [update()] works on one sample.  The getters called after it read the
    hardware again: [getMovement()] the switch, in [isButtonDown()], and
    [getPressTime()] the switch and the clock, in
    [getCurrentPressTime()]; the switch may have moved and the clock may
    have advanced in between. *)

Record Reads : Set := mkReads {
  atUpdate : EncoderManager.Hw;
  atGetMovement : EncoderManager.Hw;
  atGetPressTime : EncoderManager.Hw
}.

(** An iteration whose getters read what its [update()] read. *)
Definition steady (hw : EncoderManager.Hw) : Reads := mkReads hw hw hw.

Definition pollEncoder (cfg : EncoderManager.Timing) (reads : Reads)
    (enc : EncoderManager.State) (c : State) : State :=
  let enc := EncoderManager.update cfg (atUpdate reads) enc in
  let '(movement, enc) :=
    EncoderManager.getMovement (atGetMovement reads) enc in
  let c :=
    if negb (movement =? 0)
    then c |> call (SendToMain (Event2 ENCODER_ROTATION movement)) else c in
  let '(clicked, enc) := EncoderManager.getClicked enc in
  let c :=
    if clicked then c |> call (SendToMain (Event1 ENCODER_CLICK)) else c in
  let '(longPressed, enc) := EncoderManager.getLongPressed enc in
  let c :=
    if longPressed
    then c |> call (SendToMain (Event1 ENCODER_LONG_PRESS)) else c in
  let pressTime := EncoderManager.getPressTime (atGetPressTime reads) enc in
  let c :=
    if negb (pressTime =? 0)
    then c |> call (SendToMain (Event2 ENCODER_PRESS_TIME pressTime))
    else c in
  let pressDuration := EncoderManager.getLastPressDuration enc in
  let '(enc, c) :=
    if negb (pressDuration =? 0) then
      (snd (EncoderManager.resetLastPressDuration enc),
       c |> call (SendToMain (Event2 ENCODER_BUTTON_RELEASED pressDuration)))
    else (enc, c) in
  c |> set_encoder (Some enc).

Definition uiIteration (cfg : EncoderManager.Timing)
    (reads : Reads) (c : State) : State :=
  let c :=
    match encoder c with
    | Some enc => pollEncoder cfg reads enc c
    | None => c
    end in
  c |> guarded (display c) DisplayUpdate.

End WithBuild.

(** *** Observations on the calls made *)

Definition isRainbow (e : Effect) : bool :=
  match e with LedRainbow _ _ => true | _ => false end.

Definition isBootingComplete (e : Effect) : bool :=
  match e with
  | ProcessSDKEvent ev => EventType_eqb (type ev) BOOTING_COMPLETE
  | _ => false
  end.

Definition occurrences (p : Effect -> bool) (c : State) : nat :=
  List.length (filter p (effects c)).

(** How often [start()] has gone through: its call of [setRainbowState] is
    the only one in the class. *)
Definition starts (c : State) : nat := occurrences isRainbow c.

(** How many booting-complete events the application was handed. *)
Definition bootingCompletes (c : State) : nat :=
  occurrences isBootingComplete c.

(** The kinds of event the UI task puts on the queue to the main task. *)
Definition fromUITask (e : Event) : bool :=
  match type e with
  | ENCODER_ROTATION | ENCODER_CLICK | ENCODER_LONG_PRESS
  | ENCODER_PRESS_TIME | ENCODER_BUTTON_RELEASED => true
  | _ => false
  end.

(** The events sent to the main task, oldest first. *)
Definition sentToMain (es : list Effect) : list Event :=
  flat_map (fun e => match e with SendToMain ev => [ev] | _ => [] end) es.

(** What a step leaves alone: the collaborators attached. *)
Definition sameAttached (c c' : State) : Prop :=
  wifi c' = wifi c /\ webServer c' = webServer c /\
  ledManager c' = ledManager c /\ appOrchestrator c' = appOrchestrator c.

(** The queue to the main task holds only what the UI task puts there. *)
Definition inboundFromUI (env : Env) : Prop :=
  Forall (fun e => fromUITask e = true) (inbound env).

(** A pass at clock [t] on which the network manager reports [ws] and
    [events] wait on the queue. *)
Definition pass (t : Z) (ws : WiFiState) (events : list Event) : Env :=
  mkEnv t ws ws EmptyString EmptyString EmptyString false events.

(** Modelled from the spec: the member initialisers of [Core] are in
    [Core.h], which is missing; this is a coordinator as [initialize()]
    leaves it, in BOOTING, with every collaborator attached, the encoder
    just initialised at rest, and no call made yet. *)
Definition initial : State :=
  mkState BOOTING 0 0 0 0 WS_DISCONNECTED false
    (Some (EncoderManager.init (EncoderManager.mkHw 0 HIGH 0)
             EncoderManager.fresh))
    true true true true true [].

(** Consecutive iterations of the UI task. *)
Definition uiTask (cfg : EncoderManager.Timing)
    (iterations : list Reads) (c : State) : State :=
  fold_left (fun c reads => uiIteration cfg reads c) iterations c.


(** *** Further observations on the calls made *)

(** Calls made by the UI task only. *)
Definition uiSide (e : Effect) : bool :=
  match e with SendToMain _ | DisplayUpdate => true | _ => false end.

Definition uiCalls (c : State) : list Effect := filter uiSide (effects c).

Definition mainCalls (c : State) : list Effect :=
  filter (fun e => negb (uiSide e)) (effects c).

Definition isCheckHealth (e : Effect) : bool :=
  match e with CheckHealth => true | _ => false end.

Definition healthChecks (c : State) : nat := occurrences isCheckHealth c.

Definition isSetupURL (e : Effect) : bool :=
  match e with
  | SendToUI ev => EventType_eqb (type ev) DISPLAY_WIFI_SETUP_URL
  | _ => false
  end.

(** How many setup-URL events the UI task was sent. *)
Definition setupURLs (c : State) : nat := occurrences isSetupURL c.

Definition isWifiConnected (e : Effect) : bool :=
  match e with
  | ProcessSDKEvent ev => EventType_eqb (type ev) WIFI_CONNECTED
  | _ => false
  end.

(** How many wifi-connected events the application was handed. *)
Definition wifiConnecteds (c : State) : nat := occurrences isWifiConnected c.

(** The events sent to the UI task and those handed to the application,
    oldest first. *)
Definition sentToUI (es : list Effect) : list Event :=
  flat_map (fun e => match e with SendToUI ev => [ev] | _ => [] end) es.

Definition handedToApp (es : list Effect) : list Event :=
  flat_map (fun e => match e with ProcessSDKEvent ev => [ev] | _ => [] end)
    es.

(** The kinds of event [processEvents] passes on to the UI task. *)
Definition forwarded (e : Event) : bool :=
  match type e with
  | ENCODER_ROTATION | ENCODER_CLICK | ENCODER_LONG_PRESS => true
  | _ => false
  end.

(** How often a line goes from [false] to [true] over consecutive
    readings, [was] being the reading before the first. *)
Fixpoint risingEdges (was : bool) (readings : list bool) : nat :=
  match readings with
  | [] => 0
  | now :: rest => (Nat.b2n (now && negb was) + risingEdges now rest)%nat
  end.

(** What the blocks of a pass before the housekeeping leave alone: the
    encoder and the display, which belong to the UI task, and the
    counters. *)
Definition untouched (c c' : State) : Prop :=
  encoder c' = encoder c /\ display c' = display c /\
  coordinationCycles c' = coordinationCycles c /\
  eventsProcessed c' = eventsProcessed c /\
  lastHealthCheck c' = lastHealthCheck c /\
  uiCalls c' = uiCalls c /\ healthChecks c' = healthChecks c.

(** The values carried by the events of kind [t] sent to the main task,
    oldest first. *)
Definition sentValues (t : EventType) (es : list Effect) : list Z :=
  flat_map
    (fun e =>
       match e with
       | SendToMain ev => if EventType_eqb (type ev) t then [value ev] else []
       | _ => []
       end) es.

(** The held times reported by button-released events, and the times
    reported by press-time events. *)
Definition releases (c : State) : list Z :=
  sentValues ENCODER_BUTTON_RELEASED (effects c).

Definition pressTimes (c : State) : list Z :=
  sentValues ENCODER_PRESS_TIME (effects c).

(** What an iteration of the UI task leaves alone. *)
Definition mainSide (c c' : State) : Prop :=
  currentState c' = currentState c /\
  stateStartTime c' = stateStartTime c /\
  coordinationCycles c' = coordinationCycles c /\
  eventsProcessed c' = eventsProcessed c /\
  lastHealthCheck c' = lastHealthCheck c /\
  lastWiFiState c' = lastWiFiState c /\
  clientWasConnected c' = clientWasConnected c /\
  sameAttached c c' /\ display c' = display c /\
  mainCalls c' = mainCalls c.

(** The recogniser of the coordinator shows the switch at [level], its
    last press begun at [t0], and no held time latched. *)
Definition Settled (level : bool) (t0 : Z) (c : State) : Prop :=
  exists enc, encoder c = Some enc /\
    EncoderManager.lastButtonState enc = level /\
    EncoderManager.pressStartTime enc = wrap32u t0 /\
    EncoderManager.lastPressDuration enc = 0.

(** What [getPressTime()] returns in an iteration, for a press begun at
    [t0]: the time to its own reading of the clock when its own reading of
    the switch shows it down, and 0 otherwise. *)
Definition reportedPressTime (t0 : Z) (reads : Reads) : Z :=
  if EncoderManager.pin (atGetPressTime reads) then 0
  else EncoderManager.clock (atGetPressTime reads) - t0.

(** *** Serial command interface *)

(** The branches of the command chain; the last one with the text it
    prints. *)
Inductive Command : Set :=
| GetUUID | Reboot | HardReset | Help | Status
| Unknown (printed : string).

Definition parseCommand (commandBuffer : string) : Command :=
  if equals commandBuffer "get uuid" then GetUUID
  else if equals commandBuffer "reboot" then Reboot
  else if equals commandBuffer "hard reset" then HardReset
  else if equals commandBuffer "help" then Help
  else if equals commandBuffer "status" then Status
  else Unknown (c_str commandBuffer).

(** The branches that end in [ESP.restart()], which does not return. *)
Definition restarts (command : Command) : bool :=
  match command with Reboot | HardReset => true | _ => false end.

Definition isLineEnd (c : ascii) : bool :=
  Ascii.eqb c "010" || Ascii.eqb c "013".

(** One call, with the characters [Serial] has available and the static
    [commandBuffer]: the branches run, oldest first, and the buffer
    afterwards; [None] when the device restarted, the characters behind
    the command unread. *)
Fixpoint processSerialCommands (available : list ascii)
    (commandBuffer : string) : list Command * option string :=
  match available with
  | [] => ([], Some commandBuffer)
  | c :: rest =>
      if isLineEnd c then
        if (0 <? String.length commandBuffer)%nat then
          let command := parseCommand (toLowerCase (trim commandBuffer)) in
          if restarts command then ([command], None)
          else
            let '(commands, buffer) :=
              processSerialCommands rest EmptyString in
            (command :: commands, buffer)
        else processSerialCommands rest commandBuffer
      else
        processSerialCommands rest
          (String.append commandBuffer (String c EmptyString))
  end.

(** Consecutive calls, one per pass of the coordination loop, each with
    what has arrived since the one before. *)
Fixpoint serialPasses (arrivals : list (list ascii)) (commandBuffer : string)
  : list Command * option string :=
  match arrivals with
  | [] => ([], Some commandBuffer)
  | available :: later =>
      match processSerialCommands available commandBuffer with
      | (commands, Some buffer) =>
          let '(more, final) := serialPasses later buffer in
          (commands ++ more, final)
      | (commands, None) => (commands, None)
      end
  end.

End Core.

(** ** DeviceID.h *)

Module DeviceID.
Import Machine.

(** One digit of [printf]'s [%x] conversion. *)
Definition hexDigit (d : Z) : ascii :=
  match d with
  | 0 => "0" | 1 => "1" | 2 => "2" | 3 => "3" | 4 => "4" | 5 => "5"
  | 6 => "6" | 7 => "7" | 8 => "8" | 9 => "9" | 10 => "a" | 11 => "b"
  | 12 => "c" | 13 => "d" | 14 => "e" | _ => "f"
  end%char.

(** Number of digits [%x] prints for [n]: one for zero, and one per started
    group of four bits otherwise. *)
Definition hexWidth (n : Z) : nat := Z.to_nat (Z.log2 n / 4 + 1).

(** [%x]: the digits of [n], most significant first. *)
Definition hexDigits (n : Z) : list ascii :=
  map (fun i => hexDigit ((n / 16 ^ Z.of_nat i) mod 16))
    (rev (seq 0 (hexWidth n))).

(** [%08x]: zero-padded on the left to at least eight characters. *)
Definition format_08x (n : Z) : list ascii :=
  repeat "0"%char (8 - List.length (hexDigits n)) ++ hexDigits n.

(** [snprintf(buf, size, ...)] stores at most [size - 1] characters. *)
Definition snprintf (size : nat) (formatted : list ascii) : string :=
  string_of_list_ascii (firstn (size - 1) formatted).

(** Arduino's [String::substring(left, right)]: the bounds are swapped when
    out of order, an empty string is returned when [left] is past the end,
    and [right] is clipped to the length. *)
Definition substring (left right : nat) (s : string) : string :=
  let lo := Nat.min left right in
  let hi := Nat.max left right in
  if (String.length s <=? lo)%nat then EmptyString
  else String.substring lo (Nat.min hi (String.length s) - lo) s.

(** The functions take what [ESP.getEfuseMac()] returns, a [uint64_t]. *)
Definition getDeviceID (efuseMac : Z) : string :=
  let chipid := wrap64u efuseMac in
  let low := wrap32u chipid in
  snprintf 9 (format_08x low).

Definition getMDNSHostname (efuseMac : Z) : string :=
  String.append "cm-" (getDeviceID efuseMac).

Definition getAPSSID (efuseMac : Z) : string :=
  String.append "CloudMouse-" (getDeviceID efuseMac).

Definition getAPPassword (efuseMac : Z) : string :=
  let id := getDeviceID efuseMac in
  substring 0 8 id.

(** A character [%x] can print. *)
Definition isHexChar (c : ascii) : bool :=
  existsb (Ascii.eqb c) (list_ascii_of_string "0123456789abcdef").


(** *** The further identifiers *)

(** One digit of [printf]'s [%X] conversion. *)
Definition hexDigitUpper (d : Z) : ascii :=
  match d with
  | 0 => "0" | 1 => "1" | 2 => "2" | 3 => "3" | 4 => "4" | 5 => "5"
  | 6 => "6" | 7 => "7" | 8 => "8" | 9 => "9" | 10 => "A" | 11 => "B"
  | 12 => "C" | 13 => "D" | 14 => "E" | _ => "F"
  end%char.

(** [%X]: the digits of [n], most significant first. *)
Definition hexDigitsUpper (n : Z) : list ascii :=
  map (fun i => hexDigitUpper ((n / 16 ^ Z.of_nat i) mod 16))
    (rev (seq 0 (hexWidth n))).

(** [%02x] and [%02X]: zero-padded on the left to at least two
    characters. *)
Definition format_02x (n : Z) : list ascii :=
  repeat "0"%char (2 - List.length (hexDigits n)) ++ hexDigits n.

Definition format_02X (n : Z) : list ascii :=
  repeat "0"%char (2 - List.length (hexDigitsUpper n)) ++ hexDigitsUpper n.

(** [((uint8_t * )&mac)[i]]: the bytes of a [uint64_t] as they lie in
    memory.  The ESP32 is little-endian: byte [i] holds bits [8i] to
    [8i + 7]. *)
Definition macBytes (mac : Z) (i : Z) : Z :=
  Z.land (Z.shiftr mac (8 * i)) 255.

Definition getAPPasswordSecure (efuseMac : Z) : string :=
  let mac := wrap64u efuseMac in
  snprintf 11
    (format_02x (Z.lxor (macBytes mac 0) (macBytes mac 3))
     ++ format_02x (Z.lxor (macBytes mac 1) (macBytes mac 4))
     ++ format_02x (Z.lxor (macBytes mac 2) (macBytes mac 5))
     ++ format_02x (Z.lxor (macBytes mac 3) (macBytes mac 0))
     ++ format_02x (Z.lxor (macBytes mac 4) (macBytes mac 1))).

Definition getMACAddress (efuseMac : Z) : string :=
  let mac := wrap64u efuseMac in
  snprintf 18
    (format_02X (macBytes mac 0) ++ ":"%char
     :: format_02X (macBytes mac 1) ++ ":"%char
     :: format_02X (macBytes mac 2) ++ ":"%char
     :: format_02X (macBytes mac 3) ++ ":"%char
     :: format_02X (macBytes mac 4) ++ ":"%char
     :: format_02X (macBytes mac 5)).

Definition getNamespace : list Z :=
  [0x6b; 0xa7; 0xb8; 0x10; 0x9d; 0xad; 0x11; 0xd1;
   0x80; 0xb4; 0x00; 0xc0; 0x4f; 0xd4; 0x30; 0xc8].

Section WithSHA1.
(** [mbedtls_sha1(input, ilen, output)] belongs to the mbed TLS library:
    here any function from the input bytes to the bytes written to
    [output]. *)
Variable mbedtls_sha1 : list Z -> list Z.

(** [hash] is an array of [uint8_t]: an element read is a value below
    256. *)
Definition getDeviceUUID (efuseMac : Z) : string :=
  let mac := wrap64u efuseMac in
  let data := getNamespace ++ map (macBytes mac) [0; 1; 2; 3; 4; 5] in
  let output := mbedtls_sha1 data in
  let hash (i : nat) := nth i output 0 mod 256 in
  let hash6 := Z.lor (Z.land (hash 6%nat) 0x0F) 0x50 in
  let hash8 := Z.lor (Z.land (hash 8%nat) 0x3F) 0x80 in
  snprintf 37
    (format_02x (hash 0%nat) ++ format_02x (hash 1%nat)
     ++ format_02x (hash 2%nat) ++ format_02x (hash 3%nat) ++ "-"%char
     :: format_02x (hash 4%nat) ++ format_02x (hash 5%nat) ++ "-"%char
     :: format_02x hash6 ++ format_02x (hash 7%nat) ++ "-"%char
     :: format_02x hash8 ++ format_02x (hash 9%nat) ++ "-"%char
     :: format_02x (hash 10%nat) ++ format_02x (hash 11%nat)
     ++ format_02x (hash 12%nat) ++ format_02x (hash 13%nat)
     ++ format_02x (hash 14%nat) ++ format_02x (hash 15%nat)).

End WithSHA1.

(** A character [%X] can print. *)
Definition isUpperHexChar (c : ascii) : bool :=
  existsb (Ascii.eqb c) (list_ascii_of_string "0123456789ABCDEF").

(** Reading a digit back. *)
Definition digitValue (c : ascii) : Z :=
  let n := Z.of_nat (nat_of_ascii c) in
  if n <? 58 then n - 48 else n - 87.

End DeviceID.

(** ** A polling client of the gesture recogniser

    The class is used by calling [update()] and then its consumption
    methods.  The definitions of this module describe such callers and the
    sample sequences the properties are about; they are not part of the
    sources. *)

Module Client.
Import Machine EncoderManager.

Inductive Gesture : Set :=
| Click | DoubleClick | LongPress | UltraLongPress | PressAndRotate.

Definition Gesture_eqb (a b : Gesture) : bool :=
  match a, b with
  | Click, Click | DoubleClick, DoubleClick | LongPress, LongPress
  | UltraLongPress, UltraLongPress | PressAndRotate, PressAndRotate => true
  | _, _ => false
  end.

(** [update()] once per sample, nothing consumed. *)
Definition run (cfg : Timing) (samples : list Hw) (s : State) : State :=
  fold_left (fun s hw => update cfg hw s) samples s.

(** How many of the five gesture flags are pending. *)
Definition pendingCount (s : State) : nat :=
  (Nat.b2n (clickPending s) + Nat.b2n (doubleClickPending s)
   + Nat.b2n (longPressPending s) + Nat.b2n (ultraLongPressPending s)
   + Nat.b2n (pressAndRotatePending s))%nat.

(** The pending flag behind a gesture. *)
Definition pendingOf (g : Gesture) (s : State) : bool :=
  match g with
  | Click => clickPending s
  | DoubleClick => doubleClickPending s
  | LongPress => longPressPending s
  | UltraLongPress => ultraLongPressPending s
  | PressAndRotate => pressAndRotatePending s
  end.

Definition flag (b : bool) (g : Gesture) : list Gesture :=
  if b then [g] else [].

(** Calls each of the five gesture getters once and reports those that
    returned [true]. *)
Definition drain (s : State) : list Gesture * State :=
  let '(c, s) := getClicked s in
  let '(d, s) := getDoubleClicked s in
  let '(l, s) := getLongPressed s in
  let '(u, s) := getUltraLongPressed s in
  let '(p, s) := getPressAndRotate s in
  (flag c Click ++ flag d DoubleClick ++ flag l LongPress
   ++ flag u UltraLongPress ++ flag p PressAndRotate, s).

(** One iteration of a caller that drains after every [update()]. *)
Definition tick (cfg : Timing) (hw : Hw) (s : State) : list Gesture * State :=
  drain (update cfg hw s).

(** The gestures such a caller is handed, sample by sample. *)
Fixpoint observe (cfg : Timing) (samples : list Hw) (s : State)
  : list (list Gesture) :=
  match samples with
  | [] => []
  | hw :: rest =>
      let '(gs, s) := tick cfg hw s in gs :: observe cfg rest s
  end.

(** The recogniser after those iterations. *)
Fixpoint after (cfg : Timing) (samples : list Hw) (s : State) : State :=
  match samples with
  | [] => s
  | hw :: rest => after cfg rest (snd (tick cfg hw s))
  end.

Definition delivered (g : Gesture) (gs : list Gesture) : bool :=
  existsb (Gesture_eqb g) gs.

(** Number of deliveries of [g] over a whole observation. *)
Definition deliveries (g : Gesture) (out : list (list Gesture)) : nat :=
  List.length (filter (Gesture_eqb g) (List.concat out)).

(** Sample sequences. *)

(** The clock never runs backwards; [prev] is the time of the sample
    before the sequence. *)
Fixpoint ascending (prev : Z) (samples : list Hw) : Prop :=
  match samples with
  | [] => True
  | hw :: rest => prev <= clock hw /\ ascending (clock hw) rest
  end.

(** Every sample is taken at or after [t0] and less than 2^32 ms later, so
    that the difference of the two [millis()] readings is the time that
    passed. *)
Definition noLap (t0 : Z) (samples : list Hw) : Prop :=
  Forall (fun hw => 0 <= clock hw - t0 < 2 ^ 32) samples.

(** The shaft is at rest: every sample shows the detent [d]. *)
Definition atRest (d : Z) (samples : list Hw) : Prop :=
  Forall (fun hw => Z.quot (position hw) 4 = d) samples.

Definition allLevel (level : bool) (samples : list Hw) : Prop :=
  Forall (fun hw => pin hw = level) samples.

(** For a press that began at [t0]: at which sample of the sequence the
    held time first reaches [threshold] (at most one [true]). *)
Fixpoint firstCrossing (threshold t0 : Z) (samples : list Hw) : list bool :=
  match samples with
  | [] => []
  | hw :: rest =>
      if threshold <=? clock hw - t0
      then true :: map (fun _ => false) rest
      else false :: firstCrossing threshold t0 rest
  end.

(** A press shorter than the click threshold: the sample [p] that shows
    the switch down, those that still show it down, and the sample [r]
    that shows it up again. *)
Definition shortPress (cfg : Timing) (p : Hw) (holds : list Hw) (r : Hw)
  : Prop :=
  pin p = LOW /\ allLevel LOW holds /\ pin r = HIGH /\
  clock r - clock p < CLICK_TIMEOUT cfg.

(** Invariants of a press in progress. *)

(** The switch was sampled down, the press began at [t0], the shaft is at
    detent [d] and no press-and-rotate gesture is under way. *)
Definition Held (t0 d : Z) (s : State) : Prop :=
  lastButtonState s = LOW /\ pressStartTime s = wrap32u t0 /\
  pressAndRotateActive s = false /\ lastValue s = d.

(** Between the press at [t0] and the release of a cycle that began with
    nothing pending; [prev] is the time of the latest sample.  Either the
    press turned into a press-and-rotate gesture, or at most the
    ultra-long press is pending, announced and past its threshold. *)
Definition HoldInv (cfg : Timing) (t0 prev : Z) (s : State) : Prop :=
  lastButtonState s = LOW /\ pressStartTime s = wrap32u t0 /\
  clickPending s = false /\ doubleClickPending s = false /\
  longPressPending s = false /\ waitingForDoubleClick s = false /\
  ((pressAndRotateActive s = true /\ ultraLongPressPending s = false) \/
   (pressAndRotateActive s = false /\ pressAndRotatePending s = false /\
    (ultraLongPressPending s = true ->
     ultraLongPressNotified s = true /\
     ULTRA_LONG_PRESS_DURATION cfg <= prev - t0))).

(** What the click path of a drained recogniser remembers: whether a press
    is in progress and when it began ([down]), and whether a first click
    waits for its pair and when it was released ([wait]). *)
Definition ClickInv (down wait : option Z) (d : Z) (s : State) : Prop :=
  lastValue s = d /\ clickPending s = false /\
  doubleClickPending s = false /\
  match down with
  | Some t0 =>
      lastButtonState s = LOW /\ pressStartTime s = wrap32u t0 /\
      pressAndRotateActive s = false
  | None => lastButtonState s = HIGH
  end /\
  match wait with
  | Some tc =>
      waitingForDoubleClick s = true /\ lastClickTime s = wrap32u tc
  | None => waitingForDoubleClick s = false
  end.

(** A run of samples without a release: once the switch is down it stays
    down. *)
Fixpoint noRelease (down : bool) (samples : list Hw) : Prop :=
  match samples with
  | [] => True
  | hw :: rest =>
      (down = true -> pin hw = LOW) /\
      noRelease (down || negb (pin hw)) rest
  end.

(** The press in progress after such a run. *)
Fixpoint downAfter (down : option Z) (samples : list Hw) : option Z :=
  match samples with
  | [] => down
  | hw :: rest =>
      downAfter
        (match down with
         | Some t0 => Some t0
         | None => if pin hw then None else Some (clock hw)
         end) rest
  end.

(** Whether some sample of the run is taken more than [window] after the
    release [wait] of a waiting first click. *)
Definition expires (window : Z) (wait : option Z) (samples : list Hw)
  : bool :=
  match wait with
  | Some tc => existsb (fun hw => window <? clock hw - tc) samples
  | None => false
  end.

Definition isSome {A : Type} (o : option A) : bool :=
  match o with Some _ => true | None => false end.

(** A press-and-rotate gesture is under way and has cancelled the click,
    long-press and ultra-long-press flags and the double-click wait;
    [dc] is the double-click flag, which it leaves alone. *)
Definition Gesturing (dc : bool) (s : State) : Prop :=
  lastButtonState s = LOW /\ pressAndRotateActive s = true /\
  clickPending s = false /\ longPressPending s = false /\
  ultraLongPressPending s = false /\ waitingForDoubleClick s = false /\
  doubleClickPending s = dc.

(** The recognisers a program can hold: constructed, then driven through
    the public methods. *)
Inductive Reachable (cfg : Timing) : State -> Prop :=
| R_fresh : Reachable cfg fresh
| R_init hw s : Reachable cfg s -> Reachable cfg (init hw s)
| R_update hw s : Reachable cfg s -> Reachable cfg (update cfg hw s)
| R_getMovement hw s :
    Reachable cfg s -> Reachable cfg (snd (getMovement hw s))
| R_getClicked s : Reachable cfg s -> Reachable cfg (snd (getClicked s))
| R_getLongPressed s :
    Reachable cfg s -> Reachable cfg (snd (getLongPressed s))
| R_getUltraLongPressed s :
    Reachable cfg s -> Reachable cfg (snd (getUltraLongPressed s))
| R_getDoubleClicked s :
    Reachable cfg s -> Reachable cfg (snd (getDoubleClicked s))
| R_getPressAndRotate s :
    Reachable cfg s -> Reachable cfg (snd (getPressAndRotate s))
| R_getPressAndRotateMovement s :
    Reachable cfg s -> Reachable cfg (snd (getPressAndRotateMovement s))
| R_resetLastPressDuration s :
    Reachable cfg s -> Reachable cfg (snd (resetLastPressDuration s)).

(** A recogniser just initialised with the shaft at rest and the switch
    released. *)
Definition booted : State := init (mkHw 0 HIGH 0) fresh.

(** The thresholds the header comment of [EncoderManager.cpp] documents
    (click below 500 ms, long press from 1000 ms, ultra-long press from
    3000 ms); the pairing window, which that comment does not give, is
    taken as 400 ms.  Used for the worked examples only. *)
Definition documented : Timing := mkTiming 500 1000 3000 400.


(** Further invariants and measures. *)

(** Between the press at [t0] and its release, with the shaft at rest at
    detent [d], in a cycle that began with nothing pending; [prev] is the
    time of the latest sample.  Nothing but the ultra-long press has been
    raised, and that exactly when the held time has reached its
    threshold. *)
Definition RestInv (cfg : Timing) (t0 prev d : Z) (s : State) : Prop :=
  Held t0 d s /\ clickPending s = false /\ doubleClickPending s = false /\
  longPressPending s = false /\ pressAndRotatePending s = false /\
  waitingForDoubleClick s = false /\
  ultraLongPressPending s = (ULTRA_LONG_PRESS_DURATION cfg <=? prev - t0) /\
  ultraLongPressNotified s = (ULTRA_LONG_PRESS_DURATION cfg <=? prev - t0).

(** The switch is up, no gesture flag is pending and no first click waits
    for its pair. *)
Definition Idle (s : State) : Prop :=
  lastButtonState s = HIGH /\ pendingCount s = 0%nat /\
  waitingForDoubleClick s = false.

(** The detent position at which the accumulator was last empty, modulo
    2^32. *)
Definition origin (s : State) : Z := (lastValue s - movement s) mod 2 ^ 32.

(** The getter behind a gesture. *)
Definition getterOf (g : Gesture) : State -> bool * State :=
  match g with
  | Click => getClicked
  | DoubleClick => getDoubleClicked
  | LongPress => getLongPressed
  | UltraLongPress => getUltraLongPressed
  | PressAndRotate => getPressAndRotate
  end.

(** A press in progress that has become a press-and-rotate gesture, the
    flag of which has been consumed. *)
Definition Turning (s : State) : Prop :=
  lastButtonState s = LOW /\ pressAndRotateActive s = true /\
  pressAndRotatePending s = false.

End Client.

(** * Proof automation

    The tactics evaluate one call of a method on an object given by its
    fields: they unfold the listed definitions only, and split on each
    comparison and flag the source tests, one block of the method at a
    time. *)

Module Tactics.
Import Machine EncoderManager Client.

(** Field accesses, assignments and boolean tests of the recogniser. *)
Ltac enc_red :=
  cbv beta iota zeta delta
    [lastValue movement movementPending lastButtonState pressStartTime
     lastPressDuration lastClickTime pressAndRotateActive
     waitingForDoubleClick clickPending doubleClickPending longPressPending
     ultraLongPressPending pressAndRotatePending longPressBuzzed
     ultraLongPressNotified position pin clock
     set_lastValue set_movement set_movementPending set_lastButtonState
     set_pressStartTime set_lastPressDuration set_lastClickTime
     set_pressAndRotateActive set_waitingForDoubleClick set_clickPending
     set_doubleClickPending set_longPressPending set_ultraLongPressPending
     set_pressAndRotatePending set_longPressBuzzed
     set_ultraLongPressNotified
     digitalRead isButtonDown millis getCurrentPressTime classifyRelease
     getClicked getDoubleClicked getLongPressed getUltraLongPressed
     getPressAndRotate flag pendingOf pendingCount Nat.b2n
     negb andb orb Bool.eqb fst snd] in *.

(** Differences of clock readings, once known, are put in place. *)
Ltac enc_clock :=
  repeat match goal with
         | E : wrap32u (?a - ?b) = _ |- context [wrap32u (?a - ?b)] =>
             rewrite E
         end.

(** One test of the source: a comparison or a flag. *)
Ltac enc_split :=
  match goal with
  | |- context [Z.eqb ?a ?b] => destruct (Z.eqb_spec a b)
  | |- context [Z.leb ?a ?b] => destruct (Z.leb_spec a b)
  | |- context [Z.ltb ?a ?b] => destruct (Z.ltb_spec a b)
  | |- context [if ?b then _ else _] => is_var b; destruct b
  end.

Ltac enc_decide :=
  enc_red; enc_clock;
  repeat (enc_split; enc_red; enc_clock; try lia; try congruence).

(** [update()] on a recogniser given by its fields: [processEncoder], then
    the four blocks of [processButton], each decided before the next is
    unfolded. *)
Ltac enc_update :=
  unfold tick, update, processButton;
  unfold processEncoder; enc_decide;
  unfold pressDetection; enc_decide;
  unfold releaseDetection; enc_decide;
  unfold ongoingPress; enc_decide;
  unfold doubleClickTimeout; enc_decide.

Ltac enc_fields s hw :=
  destruct s as [lv mv mp lb pst lpd lct act wt cp dp lp up pp lbz un];
  destruct hw as [pos lvl clk]; enc_red; subst.

(** Membership in a sequence of samples built with [++] and [::]. *)
Ltac in_samples :=
  repeat (progress (rewrite ?in_app_iff in *; cbn [In] in *));
  intuition (subst; auto 12).

Import Core.

(** Field accesses, assignments, calls and tests of the coordinator. *)
Ltac core_red :=
  cbv beta iota zeta delta
    [currentState stateStartTime coordinationCycles eventsProcessed
     lastHealthCheck lastWiFiState clientWasConnected encoder wifi webServer
     ledManager appOrchestrator display effects
     set_currentState set_stateStartTime set_coordinationCycles
     set_eventsProcessed set_lastHealthCheck set_lastWiFiState
     set_clientWasConnected set_encoder set_effects
     call guarded setState
     SystemState_eqb WiFiState_eqb EventType_eqb
     Event1 Event2 setStringData type value stringData
     isRainbow isBootingComplete fromUITask
     negb andb orb] in *.

Ltac core_split :=
  match goal with
  | |- context [Z.eqb ?a ?b] => destruct (Z.eqb_spec a b)
  | |- context [Z.leb ?a ?b] => destruct (Z.leb_spec a b)
  | |- context [Z.ltb ?a ?b] => destruct (Z.ltb_spec a b)
  | |- context [if ?b then _ else _] => is_var b; destruct b
  | |- context [match ?x with BOOTING => _ | _ => _ end] =>
      is_var x; destruct x
  | |- context [match ?x with WS_DISCONNECTED => _ | _ => _ end] =>
      is_var x; destruct x
  end.

(** Counts over the calls made, which are kept as appended lists. *)
Ltac core_count :=
  unfold starts, bootingCompletes, occurrences in *; core_red;
  rewrite ?filter_app, ?length_app; cbn [filter List.length]; core_red;
  cbn [List.length Nat.b2n Nat.add].

Ltac core_cases :=
  core_red; repeat (core_split; core_red; try congruence).

Ltac core_done := repeat split; auto; try lia; try congruence.

Ltac core_fields c :=
  destruct c as [cs sst cyc evp lhc lws cwc enc wf web led orch dsp eff];
  core_red; subst.




(** The further observations on the calls made. *)
Ltac core_tally :=
  unfold untouched, uiCalls, mainCalls, healthChecks, setupURLs,
    wifiConnecteds, occurrences in *;
  core_red; rewrite ?filter_app, ?length_app; cbn [filter];
  cbv beta iota zeta delta
    [uiSide isCheckHealth isSetupURL isWifiConnected EventType_eqb type
     negb];
  cbn [List.length Nat.b2n Nat.add app]; rewrite ?app_nil_r.

(** As [core_red], with the comparison of [setState] left folded. *)
Ltac core_still :=
  cbv beta iota zeta delta
    [currentState stateStartTime coordinationCycles eventsProcessed
     lastHealthCheck lastWiFiState clientWasConnected encoder wifi webServer
     ledManager appOrchestrator display effects
     set_currentState set_stateStartTime set_coordinationCycles
     set_eventsProcessed set_lastHealthCheck set_lastWiFiState
     set_clientWasConnected set_encoder set_effects
     call guarded setState WiFiState_eqb
     Event1 Event2 setStringData type value stringData] in *.

(** The test of [setState]: is the target the current state? *)
Ltac core_state :=
  repeat match goal with
         | |- context [SystemState_eqb ?a ?b] =>
             destruct (SystemState_eqb a b); cbn [negb]
         end.

(** The collaborator pointers a block tests. *)
Ltac core_flags :=
  repeat (match goal with
          | |- context [if ?b then _ else _] => is_var b; destruct b
          end; core_still).

End Tactics.

(** * Properties *)

(** ** Clock arithmetic *)

Module MachineFacts.
Import Machine.

Lemma wrap32u_range z : 0 <= wrap32u z < 2 ^ 32.
Proof. unfold wrap32u. apply Z.mod_pos_bound. lia. Qed.

Lemma elapsed_exact a b :
  0 <= b - a < 2 ^ 32 -> wrap32u (wrap32u b - wrap32u a) = b - a.
Proof.
  intros H. unfold wrap32u.
  rewrite <- Zminus_mod. apply Z.mod_small. exact H.
Qed.

Lemma elapsed_self a : wrap32u (wrap32u a - wrap32u a) = 0.
Proof. rewrite elapsed_exact; lia. Qed.

End MachineFacts.

(** ** The gesture recogniser *)

Module GestureFacts.
Import Machine EncoderManager Client Tactics MachineFacts.

(** *** The draining caller *)

Lemma drain_delivered g s : delivered g (fst (drain s)) = pendingOf g s.
Proof.
  destruct s, g; unfold drain, delivered; enc_decide; reflexivity.
Qed.

Lemma drain_filter g s :
  filter (Gesture_eqb g) (fst (drain s)) = flag (pendingOf g s) g.
Proof.
  destruct s, g; unfold drain, delivered; enc_decide; reflexivity.
Qed.

Lemma drain_state s :
  snd (drain s) =
  mkState (lastValue s) (movement s) (movementPending s) (lastButtonState s)
    (pressStartTime s) (lastPressDuration s) (lastClickTime s)
    (pressAndRotateActive s) (waitingForDoubleClick s) false false false
    false false (longPressBuzzed s) (ultraLongPressNotified s).
Proof.
  destruct s; unfold drain; enc_decide; reflexivity.
Qed.

Lemma observe_cons cfg hw rest s :
  observe cfg (hw :: rest) s =
  fst (drain (update cfg hw s))
    :: observe cfg rest (snd (drain (update cfg hw s))).
Proof. cbn [observe]. unfold tick. destruct (drain _). reflexivity. Qed.

Lemma deliveries_cons g gs out :
  deliveries g (gs :: out) =
  (List.length (filter (Gesture_eqb g) gs) + deliveries g out)%nat.
Proof.
  unfold deliveries. cbn [List.concat].
  rewrite filter_app, length_app. reflexivity.
Qed.

Lemma deliveries_observe cfg g samples : forall s,
  deliveries g (observe cfg samples s) =
  List.length (filter (fun b : bool => b)
                 (map (delivered g) (observe cfg samples s))).
Proof.
  induction samples as [|hw rest IH]; intros s; [reflexivity|].
  rewrite observe_cons, deliveries_cons, IH. cbn [map filter].
  rewrite drain_filter, drain_delivered.
  destruct (pendingOf g (update cfg hw s)); reflexivity.
Qed.

(** *** Ultra-long press *)

Section UltraLongPress.
Variable cfg : Timing.

Lemma press_tick_ultra s p :
  lastButtonState s = HIGH -> ultraLongPressPending s = false ->
  pin p = LOW -> Z.quot (position p) 4 = lastValue s ->
  let s' := update cfg p s in
  ultraLongPressPending s' =
    (ULTRA_LONG_PRESS_DURATION cfg <=? clock p - clock p) /\
  ultraLongPressNotified s' =
    (ULTRA_LONG_PRESS_DURATION cfg <=? clock p - clock p) /\
  Held (clock p) (lastValue s) s'.
Proof.
  intros Hb Hu Hpin Hrot.
  pose proof (elapsed_self (clock p)) as E. rewrite Z.sub_diag.
  unfold Held. enc_fields s p. enc_update; auto.
Qed.

Lemma hold_tick_ultra t0 d hw s crossed :
  Held t0 d s -> ultraLongPressPending s = false ->
  ultraLongPressNotified s = crossed ->
  pin hw = LOW -> Z.quot (position hw) 4 = d ->
  0 <= clock hw - t0 < 2 ^ 32 ->
  let s' := update cfg hw s in
  ultraLongPressPending s' =
    negb crossed && (ULTRA_LONG_PRESS_DURATION cfg <=? clock hw - t0) /\
  ultraLongPressNotified s' =
    crossed || (ULTRA_LONG_PRESS_DURATION cfg <=? clock hw - t0) /\
  Held t0 d s'.
Proof.
  intros (Hb & Hp & Ha & Hv) Hu Hn Hpin Hrot Hlap.
  pose proof (elapsed_exact _ _ Hlap) as E.
  unfold Held. enc_fields s hw. enc_update; auto.
Qed.

Lemma release_tick_ultra t0 d hw s crossed :
  Held t0 d s -> ultraLongPressPending s = false ->
  ultraLongPressNotified s = crossed ->
  pin hw = HIGH -> Z.quot (position hw) 4 = d ->
  0 <= clock hw - t0 < 2 ^ 32 ->
  ultraLongPressPending (update cfg hw s) =
    negb crossed && (ULTRA_LONG_PRESS_DURATION cfg <=? clock hw - t0).
Proof.
  intros (Hb & Hp & Ha & Hv) Hu Hn Hpin Hrot Hlap.
  pose proof (elapsed_exact _ _ Hlap) as E.
  enc_fields s hw. enc_update; auto.
Qed.

Lemma Held_drain t0 d s : Held t0 d s -> Held t0 d (snd (drain s)).
Proof. rewrite drain_state. unfold Held. cbn. auto. Qed.

Lemma observe_hold t0 d r holds : forall s crossed,
  Held t0 d s -> ultraLongPressPending s = false ->
  ultraLongPressNotified s = crossed ->
  allLevel LOW holds -> pin r = HIGH ->
  atRest d (holds ++ [r]) -> noLap t0 (holds ++ [r]) ->
  map (delivered UltraLongPress) (observe cfg (holds ++ [r]) s) =
  if crossed then map (fun _ => false) (holds ++ [r])
  else firstCrossing (ULTRA_LONG_PRESS_DURATION cfg) t0 (holds ++ [r]).
Proof.
  induction holds as [|h holds IH];
    intros s crossed HH Hu Hn Hlow Hr Hrest Hlap.
  - cbn [app] in *. rewrite observe_cons. cbn [observe map firstCrossing].
    rewrite drain_delivered. cbn [pendingOf].
    apply Forall_inv in Hrest, Hlap.
    rewrite (release_tick_ultra t0 d r s crossed) by assumption.
    destruct crossed; cbn; [reflexivity|].
    destruct (ULTRA_LONG_PRESS_DURATION cfg <=? clock r - t0); reflexivity.
  - cbn [app] in *. rewrite observe_cons. cbn [map firstCrossing].
    rewrite drain_delivered. cbn [pendingOf].
    pose proof (Forall_inv Hrest) as Hrh. pose proof (Forall_inv Hlap) as Hlh.
    pose proof (Forall_inv Hlow) as Hph.
    apply Forall_inv_tail in Hrest, Hlap, Hlow.
    destruct (hold_tick_ultra t0 d h s crossed HH Hu Hn Hph Hrh Hlh)
      as (Ep & En & HH').
    rewrite Ep.
    rewrite (IH (snd (drain (update cfg h s)))
               (crossed || (ULTRA_LONG_PRESS_DURATION cfg <=? clock h - t0)));
      try assumption.
    + destruct crossed; cbn; [reflexivity|].
      destruct (ULTRA_LONG_PRESS_DURATION cfg <=? clock h - t0); reflexivity.
    + apply Held_drain, HH'.
    + rewrite drain_state. reflexivity.
    + rewrite drain_state. cbn. exact En.
Qed.

End UltraLongPress.

Lemma firstCrossing_once threshold t0 samples :
  Exists (fun hw => threshold <= clock hw - t0) samples ->
  List.length (filter (fun b : bool => b) (firstCrossing threshold t0 samples))
  = 1%nat.
Proof.
  induction samples as [|hw rest IH]; intros H.
  - inversion H.
  - cbn [firstCrossing]. destruct (Z.leb_spec threshold (clock hw - t0)).
    + cbn. f_equal. clear. induction rest; cbn; auto.
    + cbn. apply IH. inversion H; subst; [lia|assumption].
Qed.

(** C2.  A press held for at least the ultra-long threshold, with the shaft
    at rest, hands a caller that drains after every [update()] exactly one
    ultra-long-press event: at the first sample whose held time reaches the
    threshold, be it a sample that still shows the switch down or the one
    that shows the release, and at no other sample of the hold. *)
Theorem ultra_long_press_exactly_once cfg s p holds r :
  lastButtonState s = HIGH ->
  ultraLongPressPending s = false ->
  pin p = LOW -> allLevel LOW holds -> pin r = HIGH ->
  atRest (lastValue s) (p :: holds ++ [r]) ->
  noLap (clock p) (holds ++ [r]) ->
  let cycle := p :: holds ++ [r] in
  let out := observe cfg cycle s in
  map (delivered UltraLongPress) out =
    firstCrossing (ULTRA_LONG_PRESS_DURATION cfg) (clock p) cycle /\
  (ULTRA_LONG_PRESS_DURATION cfg <= clock r - clock p ->
   deliveries UltraLongPress out = 1%nat).
Proof.
  intros Hb Hu Hp Hlow Hr Hrest Hlap cycle out.
  assert (E : map (delivered UltraLongPress) out =
    firstCrossing (ULTRA_LONG_PRESS_DURATION cfg) (clock p) cycle).
  { subst out cycle. rewrite observe_cons. cbn [map firstCrossing].
    rewrite drain_delivered. cbn [pendingOf].
    pose proof (Forall_inv Hrest) as Hrp. apply Forall_inv_tail in Hrest.
    destruct (press_tick_ultra cfg s p Hb Hu Hp Hrp) as (Ep & En & HH).
    rewrite Ep.
    rewrite (observe_hold cfg (clock p) (lastValue s) r holds _
               (ULTRA_LONG_PRESS_DURATION cfg <=? clock p - clock p));
      try assumption.
    - destruct (ULTRA_LONG_PRESS_DURATION cfg <=? clock p - clock p);
        reflexivity.
    - apply Held_drain, HH.
    - rewrite drain_state. reflexivity.
    - rewrite drain_state. cbn. exact En. }
  split; [exact E|].
  intros Hlong. subst out. rewrite deliveries_observe, E.
  apply firstCrossing_once. subst cycle.
  apply Exists_cons_tl, Exists_app. right. constructor. exact Hlong.
Qed.

(** C2 at a hold of 3900 ms, sampled at 1900, 3100 and 3400 ms. *)
Lemma ultra_long_press_exactly_once_witness :
  deliveries UltraLongPress
    (observe documented
       (mkHw 0 LOW 100
        :: [mkHw 0 LOW 2000; mkHw 0 LOW 3200; mkHw 0 LOW 3500]
           ++ [mkHw 0 HIGH 4000]) booted) = 1%nat.
Proof.
  apply (ultra_long_press_exactly_once documented booted (mkHw 0 LOW 100)
           [mkHw 0 LOW 2000; mkHw 0 LOW 3200; mkHw 0 LOW 3500]
           (mkHw 0 HIGH 4000)).
  - reflexivity.
  - reflexivity.
  - reflexivity.
  - repeat constructor.
  - reflexivity.
  - repeat constructor.
  - repeat constructor; cbn; lia.
  - cbn. lia.
Defined.

(** *** One press/release cycle from a drained recogniser *)

Section OneCycle.
Variable cfg : Timing.
Variable t0 : Z.

Lemma press_tick_inv s p :
  pendingCount s = 0%nat -> waitingForDoubleClick s = false ->
  lastButtonState s = HIGH -> pin p = LOW ->
  Z.quot (position p) 4 = lastValue s -> clock p = t0 ->
  HoldInv cfg t0 t0 (update cfg p s).
Proof.
  intros Hc Hw Hb Hpin Hrot Ht.
  pose proof (elapsed_self (clock p)) as E.
  unfold HoldInv. enc_fields s p.
  destruct cp, dp, lp, up, pp; try discriminate.
  enc_update; intuition (try lia; try congruence).
Qed.

Lemma hold_tick_inv prev s h :
  HoldInv cfg t0 prev s -> pin h = LOW -> prev <= clock h ->
  0 <= clock h - t0 < 2 ^ 32 ->
  HoldInv cfg t0 (clock h) (update cfg h s).
Proof.
  intros (Hb & Hp & Hc & Hd & Hl & Hw & Hcase) Hpin Hle Hlap.
  pose proof (elapsed_exact _ _ Hlap) as E.
  unfold HoldInv. enc_fields s h.
  destruct Hcase as [(Ha & Hu) | (Ha & Hr & Hu)]; subst;
    enc_update; intuition (try lia; try congruence).
Qed.

Lemma release_tick_count prev s r :
  HoldInv cfg t0 prev s -> pin r = HIGH -> prev <= clock r ->
  0 <= clock r - t0 < 2 ^ 32 -> 0 <= DOUBLE_CLICK_WINDOW cfg ->
  (pendingCount (update cfg r s) <= 1)%nat.
Proof.
  intros (Hb & Hp & Hc & Hd & Hl & Hw & Hcase) Hpin Hle Hlap HW.
  pose proof (elapsed_exact _ _ Hlap) as E.
  pose proof (elapsed_self (clock r)) as E0.
  enc_fields s r.
  destruct Hcase as [(Ha & Hu) | (Ha & Hr & Hu)]; subst;
    enc_update; intuition (try lia; try congruence).
Qed.

Lemma run_holds holds : forall prev s,
  HoldInv cfg t0 prev s -> allLevel LOW holds -> ascending prev holds ->
  noLap t0 holds ->
  exists prev', HoldInv cfg t0 prev' (run cfg holds s) /\ prev <= prev' /\
    forall tl, ascending prev (holds ++ tl) -> ascending prev' tl.
Proof.
  induction holds as [|h holds IH]; intros prev s HI Hlow Hasc Hlap.
  - exists prev. cbn. auto with zarith.
  - cbn [ascending] in Hasc. destruct Hasc as [Hle Hasc].
    pose proof (Forall_inv Hlow) as Hph. pose proof (Forall_inv Hlap) as Hlh.
    apply Forall_inv_tail in Hlow, Hlap.
    destruct (IH (clock h) (update cfg h s)) as (prev' & HI' & Hle' & Htl);
      try assumption.
    { apply (hold_tick_inv prev); assumption. }
    exists prev'. split; [exact HI'|]. split; [lia|].
    intros tl [_ Htl']. apply Htl. exact Htl'.
Qed.

End OneCycle.

(** C1, as amended.  From a recogniser with no gesture flag pending and no
    double-click wait open, one press/release cycle whose press is sampled
    with the shaft at rest, on a clock that neither runs backwards nor
    laps, leaves at most one of the five gesture flags pending once the
    release has been processed. *)
Theorem one_cycle_at_most_one_pending cfg s p holds r :
  pendingCount s = 0%nat -> waitingForDoubleClick s = false ->
  lastButtonState s = HIGH ->
  0 <= DOUBLE_CLICK_WINDOW cfg ->
  pin p = LOW -> Z.quot (position p) 4 = lastValue s ->
  allLevel LOW holds -> pin r = HIGH ->
  ascending (clock p) (holds ++ [r]) -> noLap (clock p) (holds ++ [r]) ->
  (pendingCount (run cfg (p :: holds ++ [r]) s) <= 1)%nat.
Proof.
  intros Hc Hw Hb HW Hp Hrot Hlow Hr Hasc Hlap.
  unfold run. cbn [fold_left]. rewrite fold_left_app. cbn [fold_left].
  apply Forall_app in Hlap. destruct Hlap as [Hlap Hlapr].
  apply Forall_inv in Hlapr.
  destruct (run_holds cfg (clock p) holds (clock p) (update cfg p s))
    as (prev' & HI & _ & Htl); try assumption.
  - apply press_tick_inv; auto.
  - clear - Hasc. revert Hasc. generalize (clock p).
    induction holds; cbn; intuition.
  - specialize (Htl [r] Hasc). cbn in Htl.
    apply (release_tick_count cfg (clock p) prev'); try assumption; tauto.
Qed.

(** C1, as stated, fails: a click left unconsumed is still pending when the
    next cycle, a long press, completes. *)
Lemma stale_click_joins_long_press :
  let samples := [mkHw 0 LOW 100; mkHw 0 HIGH 200; mkHw 0 HIGH 700;
                  mkHw 0 LOW 1000; mkHw 0 HIGH 2500] in
  let s := run documented samples booted in
  clickPending s = true /\ longPressPending s = true /\
  ~ (pendingCount s <= 1)%nat.
Proof. vm_compute. repeat split. intros H. lia. Qed.

(** C1 at a long press of 1400 ms from the initialised recogniser. *)
Lemma one_cycle_at_most_one_pending_witness :
  (pendingCount
     (run documented
        (mkHw 0 LOW 100 :: [mkHw 0 LOW 600] ++ [mkHw 0 HIGH 1500]) booted)
   <= 1)%nat.
Proof.
  apply (one_cycle_at_most_one_pending documented booted (mkHw 0 LOW 100)
           [mkHw 0 LOW 600] (mkHw 0 HIGH 1500)).
  - reflexivity.
  - reflexivity.
  - reflexivity.
  - cbn. lia.
  - reflexivity.
  - reflexivity.
  - repeat constructor.
  - reflexivity.
  - cbn. lia.
  - repeat constructor; cbn; lia.
Defined.

(** A rotation on the very sample that shows the press is taken for a
    press-and-rotate gesture by [processEncoder] and the gesture is reset by
    the press detection of the same call: the flag stays pending, the press
    goes on as an ordinary one and raises its own event. *)
Example rotation_on_the_press_sample :
  let s := run documented
             [mkHw 4 LOW 100; mkHw 4 LOW 3200; mkHw 4 HIGH 3300] booted in
  pressAndRotatePending s = true /\ ultraLongPressPending s = true.
Proof. vm_compute. split; reflexivity. Qed.

(** *** Click pairing *)

Lemma observe_app cfg l1 : forall l2 s,
  observe cfg (l1 ++ l2) s =
  observe cfg l1 s ++ observe cfg l2 (after cfg l1 s).
Proof.
  induction l1 as [|hw l1 IH]; intros l2 s; [reflexivity|].
  cbn [app observe after]. destruct (tick cfg hw s) as [gs s'].
  cbn [snd app]. rewrite IH. reflexivity.
Qed.

Lemma after_app cfg l1 : forall l2 s,
  after cfg (l1 ++ l2) s = after cfg l2 (after cfg l1 s).
Proof.
  induction l1 as [|hw l1 IH]; intros l2 s; [reflexivity|].
  cbn [app after]. apply IH.
Qed.

Lemma deliveries_app g o1 o2 :
  deliveries g (o1 ++ o2) = (deliveries g o1 + deliveries g o2)%nat.
Proof.
  unfold deliveries. rewrite concat_app, filter_app, length_app. reflexivity.
Qed.

Lemma deliveries_one cfg g hw s :
  deliveries g (observe cfg [hw] s) = Nat.b2n (pendingOf g (update cfg hw s)).
Proof.
  rewrite observe_cons, deliveries_cons, drain_filter. cbn [observe].
  unfold deliveries. cbn. destruct (pendingOf g (update cfg hw s)); reflexivity.
Qed.

Section ClickPairing.
Variable cfg : Timing.
Variable d : Z.
Hypothesis window_nonneg : 0 <= DOUBLE_CLICK_WINDOW cfg.
Hypothesis click_below_long : CLICK_TIMEOUT cfg <= LONG_PRESS_DURATION cfg.
Hypothesis click_below_ultra :
  CLICK_TIMEOUT cfg <= ULTRA_LONG_PRESS_DURATION cfg.

Lemma tick_no_release down wait hw s :
  ClickInv down wait d s -> Z.quot (position hw) 4 = d ->
  (isSome down = true -> pin hw = LOW) ->
  (forall tc, wait = Some tc -> 0 <= clock hw - tc < 2 ^ 32) ->
  let fired := expires (DOUBLE_CLICK_WINDOW cfg) wait [hw] in
  let s' := update cfg hw s in
  clickPending s' = fired /\ doubleClickPending s' = false /\
  ClickInv (downAfter down [hw]) (if fired then None else wait) d
    (snd (drain s')).
Proof.
  intros (Hv & Hc & Hd & Hdown & Hwait) Hrot Hlow Hlap.
  cbv zeta. rewrite drain_state.
  unfold ClickInv, expires, existsb, downAfter.
  destruct wait as [tc|], down as [t0|];
    try (specialize (Hlow eq_refl));
    try (pose proof (elapsed_exact _ _ (Hlap tc eq_refl)) as E);
    clear Hlap; enc_fields s hw;
    repeat match goal with H : _ /\ _ |- _ => destruct H end; subst;
    enc_update; intuition (try lia; try congruence).
Qed.

Lemma tick_release t0 wait hw s :
  ClickInv (Some t0) wait d s -> Z.quot (position hw) 4 = d ->
  pin hw = HIGH -> 0 <= clock hw - t0 < 2 ^ 32 ->
  clock hw - t0 < CLICK_TIMEOUT cfg ->
  let s' := update cfg hw s in
  clickPending s' = false /\ doubleClickPending s' = isSome wait /\
  ClickInv None (if isSome wait then None else Some (clock hw)) d
    (snd (drain s')).
Proof.
  intros (Hv & Hc & Hd & Hdown & Hwait) Hrot Hhigh Hlap Hshort.
  cbv zeta. rewrite drain_state.
  pose proof (elapsed_exact _ _ Hlap) as E.
  pose proof (elapsed_self (clock hw)) as E0.
  unfold ClickInv, isSome.
  destruct wait as [tc|]; enc_fields s hw;
    repeat match goal with H : _ /\ _ |- _ => destruct H end; subst;
    enc_update; intuition (try lia; try congruence).
Qed.

Lemma isSome_downAfter down hw :
  isSome (downAfter down [hw]) = isSome down || negb (pin hw).
Proof. destruct down, hw as [? [] ?]; reflexivity. Qed.

Lemma expires_cons wait hw rest :
  expires (DOUBLE_CLICK_WINDOW cfg) wait (hw :: rest) =
  expires (DOUBLE_CLICK_WINDOW cfg) wait [hw]
  || expires (DOUBLE_CLICK_WINDOW cfg) wait rest.
Proof.
  destruct wait; cbn; [|reflexivity]. rewrite orb_false_r. reflexivity.
Qed.

(** A run of samples without a release delivers no double click, and one
    click exactly when a first click is waiting and its window is seen to
    have run out. *)
Lemma segment_no_release samples : forall down wait s,
  ClickInv down wait d s -> atRest d samples ->
  noRelease (isSome down) samples ->
  (forall tc, wait = Some tc -> noLap tc samples) ->
  let fired := expires (DOUBLE_CLICK_WINDOW cfg) wait samples in
  deliveries Click (observe cfg samples s) = Nat.b2n fired /\
  deliveries DoubleClick (observe cfg samples s) = 0%nat /\
  ClickInv (downAfter down samples) (if fired then None else wait) d
    (after cfg samples s).
Proof.
  induction samples as [|hw rest IH]; intros down wait s HI Hrest Hnr Hlap.
  - cbn. destruct wait; cbn; auto.
  - cbv zeta. destruct Hnr as [Hlow Hnr].
    pose proof (Forall_inv Hrest) as Hrot. apply Forall_inv_tail in Hrest.
    destruct (tick_no_release down wait hw s HI Hrot Hlow) as (Ec & Ed & HI').
    { intros tc Etc. exact (Forall_inv (Hlap tc Etc)). }
    rewrite <- isSome_downAfter in Hnr.
    destruct (IH _ _ _ HI' Hrest Hnr) as (Ec' & Ed' & HI'').
    { intros tc. destruct (expires _ wait [hw]); [discriminate|].
      intros Etc. exact (Forall_inv_tail (Hlap tc Etc)). }
    rewrite observe_cons, !deliveries_cons, !drain_filter.
    cbn [pendingOf after]. unfold tick. rewrite Ec, Ed, Ec', Ed'.
    rewrite (expires_cons wait hw rest).
    change (downAfter down (hw :: rest))
      with (downAfter (downAfter down [hw]) rest).
    destruct (expires _ wait [hw]);
      cbn [orb flag List.length Nat.b2n expires Nat.add] in *; auto.
Qed.

End ClickPairing.

Lemma ascending_weaken samples : forall prev prev',
  ascending prev samples -> prev' <= prev -> ascending prev' samples.
Proof.
  destruct samples as [|hw rest]; cbn; intros prev prev' H Hle; [exact I|].
  split; [lia|tauto].
Qed.

Lemma ascending_lower samples : forall prev,
  ascending prev samples -> Forall (fun hw => prev <= clock hw) samples.
Proof.
  induction samples as [|hw rest IH]; intros prev H; constructor.
  - apply H.
  - destruct H as [Hle H]. apply IH. apply (ascending_weaken _ _ _ H Hle).
Qed.

Lemma ascending_app l1 : forall prev l2,
  ascending prev (l1 ++ l2) ->
  ascending prev l1 /\ ascending prev l2 /\
  forall x y, In x l1 -> In y l2 -> clock x <= clock y.
Proof.
  induction l1 as [|hw l1 IH]; intros prev l2 H.
  - cbn in *. repeat split; [exact H|]. intros x y [].
  - destruct H as [Hle H]. destruct (IH _ _ H) as (H1 & H2 & Hx).
    repeat split; auto.
    + apply (ascending_weaken _ _ _ H2 Hle).
    + intros x y [->|Hin] Hy; [|auto].
      pose proof (ascending_lower _ _ H2) as Hl.
      rewrite Forall_forall in Hl. auto.
Qed.

Lemma ascending_split l1 x l2 prev :
  ascending prev (l1 ++ x :: l2) ->
  prev <= clock x /\ (forall hw, In hw l1 -> clock hw <= clock x) /\
  (forall hw, In hw l2 -> clock x <= clock hw).
Proof.
  intros H. apply ascending_app in H. destruct H as (_ & [Hx H2] & Hc).
  split; [exact Hx|]. split.
  - intros hw Hin. apply Hc; [exact Hin|left; reflexivity].
  - apply Forall_forall, ascending_lower, H2.
Qed.

Lemma noRelease_down samples :
  allLevel LOW samples -> noRelease true samples.
Proof.
  induction 1 as [|hw rest Hp _ IH]; cbn; [exact I|]. split; auto.
Qed.

Lemma noRelease_up samples :
  allLevel HIGH samples -> noRelease false samples.
Proof.
  induction 1 as [|hw rest Hp _ IH]; cbn; [exact I|].
  split; [discriminate|]. rewrite Hp. exact IH.
Qed.

Lemma noRelease_press gap p holds :
  allLevel HIGH gap -> pin p = LOW -> allLevel LOW holds ->
  noRelease false (gap ++ p :: holds).
Proof.
  intros Hgap Hp Hholds. induction Hgap as [|hw rest Hh _ IH]; cbn.
  - split; [discriminate|]. rewrite Hp. apply noRelease_down, Hholds.
  - split; [discriminate|]. rewrite Hh. exact IH.
Qed.

Lemma downAfter_down t samples : downAfter (Some t) samples = Some t.
Proof. induction samples; cbn; auto. Qed.

Lemma downAfter_up samples :
  allLevel HIGH samples -> downAfter None samples = None.
Proof. induction 1 as [|hw rest Hp _ IH]; cbn; [|rewrite Hp]; auto. Qed.

Lemma downAfter_press gap p holds :
  allLevel HIGH gap -> pin p = LOW ->
  downAfter None (gap ++ p :: holds) = Some (clock p).
Proof.
  intros Hgap Hp. induction Hgap as [|hw rest Hh _ IH]; cbn.
  - rewrite Hp. apply downAfter_down.
  - rewrite Hh. exact IH.
Qed.

Lemma after_one cfg hw s :
  after cfg [hw] s = snd (drain (update cfg hw s)).
Proof. reflexivity. Qed.

Section TwoPresses.
Variable cfg : Timing.
Hypothesis window_nonneg : 0 <= DOUBLE_CLICK_WINDOW cfg.
Hypothesis click_below_long : CLICK_TIMEOUT cfg <= LONG_PRESS_DURATION cfg.
Hypothesis click_below_ultra :
  CLICK_TIMEOUT cfg <= ULTRA_LONG_PRESS_DURATION cfg.

(** The clicks and double clicks delivered over two short presses, by
    whether the window of the first is seen to have run out before the
    sample that shows the second release. *)
Lemma two_presses_outcome d s p1 holds1 r1 gap p2 holds2 r2 tail :
  ClickInv None None d s ->
  shortPress cfg p1 holds1 r1 -> allLevel HIGH gap ->
  shortPress cfg p2 holds2 r2 -> allLevel HIGH tail ->
  let samples :=
    (p1 :: holds1) ++ [r1] ++ (gap ++ p2 :: holds2) ++ [r2] ++ tail in
  atRest d samples -> ascending (clock p1) samples ->
  noLap (clock p1) samples ->
  let e :=
    expires (DOUBLE_CLICK_WINDOW cfg) (Some (clock r1))
      (gap ++ p2 :: holds2) in
  let out := observe cfg samples s in
  deliveries Click out =
    (Nat.b2n e
     + Nat.b2n
         (e && expires (DOUBLE_CLICK_WINDOW cfg) (Some (clock r2)) tail))%nat
  /\ deliveries DoubleClick out = Nat.b2n (negb e).
Proof.
  intros HI (Hp1 & Hh1 & Hr1 & Hs1) Hgap (Hp2 & Hh2 & Hr2 & Hs2) Htail
    samples Hrest Hasc Hlap e out.
  subst out samples.
  (* the clock *)
  destruct (ascending_split _ _ _ _ Hasc) as (Ha & _ & Hb).
  apply ascending_app in Hasc. destruct Hasc as (_ & Hasc & _).
  apply ascending_app in Hasc. destruct Hasc as (_ & Hasc & _).
  destruct (ascending_split _ _ _ _ Hasc) as (_ & Hc & Hd). clear Hasc.
  unfold noLap in Hlap. rewrite Forall_forall in Hlap.
  assert (Hin2 : In p2 (gap ++ p2 :: holds2))
    by (apply in_or_app; right; left; reflexivity).
  assert (Hlap1 : 0 <= clock r1 - clock p1 < 2 ^ 32).
  { apply Hlap, in_or_app. right. left. reflexivity. }
  assert (Hlap2 : 0 <= clock r2 - clock p2 < 2 ^ 32).
  { specialize (Hc _ Hin2).
    assert (0 <= clock r2 - clock p1 < 2 ^ 32).
    { apply Hlap. in_samples. }
    assert (clock r1 <= clock p2).
    { apply Hb. in_samples. }
    lia. }
  assert (Hseg2 : noLap (clock r1) (gap ++ p2 :: holds2)).
  { apply Forall_forall. intros hw Hin.
    assert (clock r1 <= clock hw) by (apply Hb; in_samples).
    assert (0 <= clock hw - clock p1 < 2 ^ 32).
    { apply Hlap. in_samples. }
    lia. }
  assert (Htl : noLap (clock r2) tail).
  { apply Forall_forall. intros hw Hin. specialize (Hd _ Hin).
    specialize (Hc _ Hin2).
    assert (clock r1 <= clock p2).
    { apply Hb. in_samples. }
    assert (0 <= clock hw - clock p1 < 2 ^ 32).
    { apply Hlap. in_samples. }
    lia. }
  clear Hlap Ha Hb Hc Hd Hin2.
  (* the shaft *)
  apply Forall_app in Hrest. destruct Hrest as [R1 Hrest].
  apply Forall_app in Hrest. destruct Hrest as [Rr1 Hrest].
  apply Forall_inv in Rr1.
  apply Forall_app in Hrest. destruct Hrest as [R2 Hrest].
  apply Forall_app in Hrest. destruct Hrest as [Rr2 R3].
  apply Forall_inv in Rr2.
  (* first press *)
  destruct (segment_no_release cfg d (p1 :: holds1) None None s HI R1)
    as (C1 & D1 & I1).
  { cbn. split; [discriminate|]. rewrite Hp1. apply noRelease_down, Hh1. }
  { discriminate. }
  cbn [expires Nat.b2n] in C1, I1.
  assert (E1 : downAfter None (p1 :: holds1) = Some (clock p1)).
  { cbn. rewrite Hp1. apply downAfter_down. }
  rewrite E1 in I1. clear E1.
  (* first release *)
  destruct (tick_release cfg d window_nonneg click_below_long
              click_below_ultra (clock p1) None r1 _ I1 Rr1 Hr1 Hlap1 Hs1)
    as (C2 & D2 & I2).
  cbn [isSome] in D2, I2.
  (* up to the second release *)
  destruct (segment_no_release cfg d (gap ++ p2 :: holds2) None
              (Some (clock r1)) _ I2 R2)
    as (C3 & D3 & I3).
  { apply noRelease_press; assumption. }
  { intros tc [= <-]. exact Hseg2. }
  rewrite (downAfter_press gap p2 holds2 Hgap Hp2) in I3.
  fold e in C3, I3.
  (* second release *)
  destruct (tick_release cfg d window_nonneg click_below_long
              click_below_ultra (clock p2) _ r2 _ I3 Rr2 Hr2 Hlap2 Hs2)
    as (C4 & D4 & I4).
  (* afterwards *)
  destruct (segment_no_release cfg d tail None _ _ I4 R3)
    as (C5 & D5 & _).
  { apply noRelease_up, Htail. }
  { intros tc. destruct e; cbn; [|discriminate]. intros [= <-]. exact Htl. }
  (* the sums *)
  clearbody e. set (seg1 := p1 :: holds1) in *.
  set (seg2 := gap ++ p2 :: holds2) in *. clearbody seg1 seg2.
  rewrite !observe_app, !deliveries_app, !deliveries_one.
  rewrite !after_one. cbn [pendingOf].
  rewrite C1, D1, C2, D2, C3, D3, C4, D4, C5, D5.
  destruct e; cbn; auto.
Qed.

End TwoPresses.

(** C4, as amended.  Two presses, each shorter than the click threshold,
    seen by a caller that drains after every [update()]: when the second
    release is sampled within the pairing window of the first, exactly one
    double click and no click is delivered; when a sample taken before the
    one that shows the second release is already past the window, and a
    later sample is past the window of the second release, exactly two
    clicks and no double click are delivered; and when no sample before
    the one that shows the second release is past the window, the two are
    paired wherever that sample falls. *)
Theorem double_click_pairing cfg s p1 holds1 r1 gap p2 holds2 r2 tail :
  0 <= DOUBLE_CLICK_WINDOW cfg ->
  CLICK_TIMEOUT cfg <= LONG_PRESS_DURATION cfg ->
  CLICK_TIMEOUT cfg <= ULTRA_LONG_PRESS_DURATION cfg ->
  lastButtonState s = HIGH -> waitingForDoubleClick s = false ->
  clickPending s = false -> doubleClickPending s = false ->
  shortPress cfg p1 holds1 r1 -> allLevel HIGH gap ->
  shortPress cfg p2 holds2 r2 -> allLevel HIGH tail ->
  let samples :=
    (p1 :: holds1) ++ [r1] ++ (gap ++ p2 :: holds2) ++ [r2] ++ tail in
  atRest (lastValue s) samples -> ascending (clock p1) samples ->
  noLap (clock p1) samples ->
  let out := observe cfg samples s in
  (clock r2 - clock r1 <= DOUBLE_CLICK_WINDOW cfg ->
   deliveries Click out = 0%nat /\ deliveries DoubleClick out = 1%nat) /\
  (expires (DOUBLE_CLICK_WINDOW cfg) (Some (clock r1)) (gap ++ p2 :: holds2)
   = true ->
   expires (DOUBLE_CLICK_WINDOW cfg) (Some (clock r2)) tail = true ->
   deliveries Click out = 2%nat /\ deliveries DoubleClick out = 0%nat) /\
  (expires (DOUBLE_CLICK_WINDOW cfg) (Some (clock r1)) (gap ++ p2 :: holds2)
   = false ->
   deliveries Click out = 0%nat /\ deliveries DoubleClick out = 1%nat).
Proof.
  intros HW HL HU Hb Hw Hc Hd S1 Hgap S2 Htail samples Hrest Hasc Hlap out.
  destruct (two_presses_outcome cfg HW HL HU (lastValue s) s p1 holds1 r1
              gap p2 holds2 r2 tail) as [EC ED]; try assumption.
  { unfold ClickInv. auto. }
  fold samples out in EC, ED. split; [|split].
  - intros Hin.
    assert (E : expires (DOUBLE_CLICK_WINDOW cfg) (Some (clock r1))
                  (gap ++ p2 :: holds2) = false).
    { destruct (expires _ _ _) eqn:E; [|reflexivity]. exfalso.
      apply existsb_exists in E. destruct E as (hw & Hhw & Hlt).
      apply Z.ltb_lt in Hlt.
      subst samples.
      apply ascending_app in Hasc. destruct Hasc as (_ & Hasc & _).
      apply ascending_app in Hasc. destruct Hasc as (_ & Hasc & _).
      destruct (ascending_split _ _ _ _ Hasc) as (_ & Hle & _).
      specialize (Hle _ Hhw). lia. }
    rewrite EC, ED, E. split; reflexivity.
  - intros E1 E2. rewrite EC, ED, E1, E2. split; reflexivity.
  - intros E. rewrite EC, ED, E. split; reflexivity.
Qed.

(** C4, as stated, fails: the second release is sampled 413 ms after the
    first, past the window of 400 ms, and no sample before it was; the two
    presses are still paired. *)
Lemma late_second_release_still_pairs :
  let r1 := mkHw 0 HIGH 1100 in
  let r2 := mkHw 0 HIGH 1513 in
  let samples :=
    [mkHw 0 LOW 1000; r1; mkHw 0 LOW 1480; r2; mkHw 0 HIGH 2000;
     mkHw 0 HIGH 2500] in
  let out := observe documented samples booted in
  DOUBLE_CLICK_WINDOW documented < clock r2 - clock r1 /\
  deliveries Click out = 0%nat /\ deliveries DoubleClick out = 1%nat.
Proof. vm_compute. repeat split. Qed.

(** C4 at two presses of 100 ms: released 300 ms apart, and released
    900 ms apart with samples every few hundred ms. *)
Lemma double_click_pairing_witness :
  (let out :=
     observe documented
       ((mkHw 0 LOW 1000 :: []) ++ [mkHw 0 HIGH 1100]
        ++ ([mkHw 0 HIGH 1200] ++ mkHw 0 LOW 1300 :: [mkHw 0 LOW 1350])
        ++ [mkHw 0 HIGH 1400] ++ [mkHw 0 HIGH 2000]) booted in
   deliveries Click out = 0%nat /\ deliveries DoubleClick out = 1%nat) /\
  (let out :=
     observe documented
       ((mkHw 0 LOW 1000 :: []) ++ [mkHw 0 HIGH 1100]
        ++ ([mkHw 0 HIGH 1600] ++ mkHw 0 LOW 1900 :: [])
        ++ [mkHw 0 HIGH 2000] ++ [mkHw 0 HIGH 2100; mkHw 0 HIGH 2500])
       booted in
   deliveries Click out = 2%nat /\ deliveries DoubleClick out = 0%nat).
Proof.
  split.
  - apply (double_click_pairing documented booted (mkHw 0 LOW 1000) []
             (mkHw 0 HIGH 1100) [mkHw 0 HIGH 1200] (mkHw 0 LOW 1300)
             [mkHw 0 LOW 1350] (mkHw 0 HIGH 1400) [mkHw 0 HIGH 2000]);
      try reflexivity; try (cbn; lia);
      try (repeat constructor; cbn; lia).
  - apply (double_click_pairing documented booted (mkHw 0 LOW 1000) []
             (mkHw 0 HIGH 1100) [mkHw 0 HIGH 1600] (mkHw 0 LOW 1900)
             [] (mkHw 0 HIGH 2000) [mkHw 0 HIGH 2100; mkHw 0 HIGH 2500]);
      try reflexivity; try (cbn; lia);
      try (repeat constructor; cbn; lia).
Defined.

(** *** Press-and-rotate *)

Section PressAndRotate.
Variable cfg : Timing.

Lemma first_rotation s hw :
  lastButtonState s = LOW -> pressAndRotateActive s = false ->
  pin hw = LOW -> Z.quot (position hw) 4 <> lastValue s ->
  pressAndRotatePending (update cfg hw s) = true /\
  Gesturing (doubleClickPending s) (update cfg hw s).
Proof.
  intros Hb Ha Hp Hrot. unfold Gesturing. enc_fields s hw.
  enc_update; intuition (try lia; try congruence).
Qed.

Lemma gesturing_hold dc s hw :
  Gesturing dc s -> pin hw = LOW -> Gesturing dc (update cfg hw s).
Proof.
  intros (Hb & Ha & Hc & Hl & Hu & Hw & Hd) Hp. unfold Gesturing.
  enc_fields s hw. enc_update; intuition (try lia; try congruence).
Qed.

Lemma gesturing_run dc holds : forall s,
  Gesturing dc s -> allLevel LOW holds -> Gesturing dc (run cfg holds s).
Proof.
  induction holds as [|hw rest IH]; intros s HG Hlow; [exact HG|].
  cbn. apply IH.
  - apply gesturing_hold; [exact HG|exact (Forall_inv Hlow)].
  - exact (Forall_inv_tail Hlow).
Qed.

End PressAndRotate.

Lemma getMovement_blocked hw s :
  pin hw = LOW \/ pressAndRotateActive s = true -> getMovement hw s = (0, s).
Proof.
  unfold getMovement, isButtonDown, digitalRead.
  intros [H|H]; rewrite H; cbn; [reflexivity|].
  rewrite orb_true_r. reflexivity.
Qed.

(** C3, as amended.  With the switch sampled down before and still down,
    and no press-and-rotate gesture active, the first change of detent
    raises the press-and-rotate flag, marks the gesture active, and clears
    the click, long-press and ultra-long-press flags and the double-click
    wait, leaving the double-click flag as it was; for as long as the
    switch stays down the gesture stays active, those flags stay clear, and
    [getMovement()] returns 0 and changes nothing. *)
Theorem press_and_rotate_promotion cfg s hw holds :
  lastButtonState s = LOW -> pressAndRotateActive s = false ->
  pin hw = LOW -> Z.quot (position hw) 4 <> lastValue s ->
  allLevel LOW holds ->
  let s1 := update cfg hw s in
  let s2 := run cfg holds s1 in
  (pressAndRotatePending s1 = true /\ pressAndRotateActive s1 = true /\
   clickPending s1 = false /\ longPressPending s1 = false /\
   ultraLongPressPending s1 = false /\ waitingForDoubleClick s1 = false /\
   doubleClickPending s1 = doubleClickPending s) /\
  (pressAndRotateActive s2 = true /\ clickPending s2 = false /\
   longPressPending s2 = false /\ ultraLongPressPending s2 = false /\
   waitingForDoubleClick s2 = false /\
   forall hw', getMovement hw' s2 = (0, s2)).
Proof.
  intros Hb Ha Hp Hrot Hlow s1 s2.
  destruct (first_rotation cfg s hw Hb Ha Hp Hrot) as (Hpr & HG).
  pose proof (gesturing_run cfg _ holds _ HG Hlow) as HG2.
  fold s1 in Hpr, HG. fold s1 s2 in HG2.
  unfold Gesturing in HG, HG2. split; [tauto|].
  repeat split; try tauto.
  intros hw'. apply getMovement_blocked. tauto.
Qed.

(** C3, as stated, fails: a double click stays pending through the
    promotion of the next press to a press-and-rotate gesture. *)
Lemma double_click_survives_promotion :
  let s := run documented
             [mkHw 0 LOW 100; mkHw 0 HIGH 200; mkHw 0 LOW 300;
              mkHw 0 HIGH 400; mkHw 0 LOW 1000] booted in
  let s1 := update documented (mkHw 4 LOW 1100) s in
  lastButtonState s = LOW /\ pressAndRotateActive s = false /\
  pressAndRotatePending s1 = true /\ doubleClickPending s1 = true.
Proof. vm_compute. repeat split. Qed.

(** C3 at a press that is turned by one detent 100 ms in, and by another
    100 ms later. *)
Lemma press_and_rotate_promotion_witness :
  let s := run documented [mkHw 0 LOW 100] booted in
  let s1 := update documented (mkHw 4 LOW 200) s in
  let s2 := run documented [mkHw 8 LOW 300] s1 in
  pressAndRotatePending s1 = true /\ pressAndRotateActive s2 = true /\
  getMovement (mkHw 8 LOW 300) s2 = (0, s2).
Proof.
  destruct (press_and_rotate_promotion documented
              (run documented [mkHw 0 LOW 100] booted) (mkHw 4 LOW 200)
              [mkHw 8 LOW 300])
    as ((H1 & _) & (H2 & _ & _ & _ & _ & H3)).
  - reflexivity.
  - reflexivity.
  - reflexivity.
  - cbn. discriminate.
  - repeat constructor.
  - split; [exact H1|]. split; [exact H2|]. apply H3.
Defined.

(** *** Movement consumption *)

Lemma reachable_movement cfg s :
  Reachable cfg s -> movementPending s = false -> movement s = 0.
Proof.
  induction 1 as [|hw s _ IH|hw s _ IH|hw s _ IH|s _ IH|s _ IH|s _ IH
                 |s _ IH|s _ IH|s _ IH|s _ IH].
  - reflexivity.
  - exact IH.
  - revert IH. enc_fields s hw. intros IH.
    enc_update; intuition (try lia; try congruence).
  - revert IH. unfold getMovement. enc_fields s hw. intros IH.
    enc_decide; auto.
  - revert IH. destruct s. enc_decide; auto.
  - revert IH. destruct s. enc_decide; auto.
  - revert IH. destruct s. enc_decide; auto.
  - revert IH. destruct s. enc_decide; auto.
  - revert IH. destruct s. enc_decide; auto.
  - revert IH. unfold getPressAndRotateMovement. destruct s. enc_decide; auto.
  - revert IH. unfold resetLastPressDuration. destruct s. enc_decide; auto.
Qed.

(** C5.  On every recogniser a program can hold: with the switch up and no
    press-and-rotate gesture active, [getMovement()] returns the
    accumulated movement and clears the accumulator and its flag, so that a
    second call with no rotation in between returns 0; with the switch
    down or a gesture active it returns 0 and changes nothing. *)
Theorem getMovement_at_most_once cfg s :
  Reachable cfg s ->
  (forall hw1 hw2,
     pin hw1 = HIGH -> pin hw2 = HIGH -> pressAndRotateActive s = false ->
     let first := getMovement hw1 s in
     let second := getMovement hw2 (snd first) in
     fst first = movement s /\ fst second = 0 /\
     movement (snd first) = 0 /\ movementPending (snd first) = false) /\
  (forall hw,
     pin hw = LOW \/ pressAndRotateActive s = true ->
     getMovement hw s = (0, s)).
Proof.
  intros HR. split; [|intros hw H; apply getMovement_blocked; exact H].
  intros hw1 hw2 H1 H2 Ha.
  pose proof (reachable_movement cfg s HR) as Hinv.
  unfold getMovement. revert Hinv. enc_fields s hw1. destruct hw2 as [? ? ?].
  enc_red. subst. intros Hinv. enc_decide; auto.
Qed.

(** C5 at a recogniser that has seen the shaft turn by two detents. *)
Lemma getMovement_at_most_once_witness :
  let s := update documented (mkHw 8 HIGH 50) booted in
  let first := getMovement (mkHw 8 HIGH 60) s in
  let second := getMovement (mkHw 8 HIGH 70) (snd first) in
  fst first = 2 /\ fst second = 0.
Proof.
  destruct (getMovement_at_most_once documented
              (update documented (mkHw 8 HIGH 50) booted)) as [H _].
  - apply R_update, R_init, R_fresh.
  - destruct (H (mkHw 8 HIGH 60) (mkHw 8 HIGH 70) eq_refl eq_refl eq_refl)
      as (H1 & H2 & _).
    split; [exact H1|exact H2].
Defined.

End GestureFacts.

(** ** The system coordinator *)

Module CoreFacts.
Import Machine Core Tactics.

Lemma SystemState_eqb_spec a b : reflect (a = b) (SystemState_eqb a b).
Proof. destruct a, b; constructor; congruence. Qed.

Lemma WiFiState_eqb_spec a b : reflect (a = b) (WiFiState_eqb a b).
Proof. destruct a, b; constructor; congruence. Qed.

(** *** State management *)

(** C8.  [setState] with the current state as its target changes nothing,
    the entry timestamp included; with another target it changes the
    current state and the entry timestamp and nothing else. *)
Theorem setState_frame env state c :
  (currentState c = state -> setState env state c = c) /\
  (currentState c <> state ->
   setState env state c =
   mkState state (millis env) (coordinationCycles c) (eventsProcessed c)
     (lastHealthCheck c) (lastWiFiState c) (clientWasConnected c)
     (encoder c) (wifi c) (webServer c) (ledManager c) (appOrchestrator c)
     (display c) (effects c)).
Proof.
  unfold setState.
  destruct (SystemState_eqb_spec (currentState c) state) as [E|N]; cbn.
  - split; [reflexivity|]. intros N. contradiction.
  - split; [intros E; contradiction|]. reflexivity.
Qed.

(** C8 at the coordinator as initialised: BOOTING again, and INITIALIZING
    at 4000 ms. *)
Lemma setState_frame_witness :
  setState (pass 4000 WS_DISCONNECTED []) BOOTING initial = initial /\
  setState (pass 4000 WS_DISCONNECTED []) INITIALIZING initial =
  mkState INITIALIZING 4000 0 0 0 WS_DISCONNECTED false (encoder initial)
    true true true true true [].
Proof.
  split.
  - apply (proj1 (setState_frame (pass 4000 WS_DISCONNECTED []) BOOTING
                    initial)).
    reflexivity.
  - apply (proj2 (setState_frame (pass 4000 WS_DISCONNECTED [])
                    INITIALIZING initial)).
    discriminate.
Defined.

(** *** start() *)

Lemma start_not_ready env c :
  currentState c <> READY -> start env c = Some c.
Proof.
  unfold start. destruct (SystemState_eqb_spec (currentState c) READY);
    [contradiction|reflexivity].
Qed.

Lemma start_ready env c :
  currentState c = READY -> ledManager c = true ->
  start env c =
  Some (mkState RUNNING (millis env) (coordinationCycles c)
          (eventsProcessed c) (lastHealthCheck c) (lastWiFiState c)
          (clientWasConnected c) (encoder c) (wifi c) (webServer c)
          (ledManager c) (appOrchestrator c) (display c)
          (effects c ++ [LedRainbow true 2])).
Proof.
  intros E L. unfold start. core_fields c. reflexivity.
Qed.

Section Passes.
Variable WIFI_REQUIRED : bool.

Lemma handleBootingState_early env c :
  millis env < 4000 -> handleBootingState WIFI_REQUIRED env c = c.
Proof.
  intros H. unfold handleBootingState.
  destruct (Z.leb_spec 4000 (millis env)); [lia|reflexivity].
Qed.

Lemma handleBootingState_due env c :
  currentState c = BOOTING -> 4000 <= millis env ->
  let c' := handleBootingState WIFI_REQUIRED env c in
  currentState c' = (if WIFI_REQUIRED then INITIALIZING else READY) /\
  stateStartTime c' = millis env /\
  effects c' =
    effects c
    ++ (if WIFI_REQUIRED
        then if wifi c
             then [SendToUI (Event1 DISPLAY_WIFI_CONNECTING); WifiInit]
             else []
        else [SendToUI (Event1 DISPLAY_WAKE_UP)])
    ++ (if appOrchestrator c
        then [ProcessSDKEvent (Event1 BOOTING_COMPLETE)] else []) /\
  sameAttached c c' /\ lastWiFiState c' = lastWiFiState c.
Proof.
  intros E H. unfold handleBootingState, sameAttached.
  destruct (Z.leb_spec 4000 (millis env)); [|lia].
  core_fields c. destruct WIFI_REQUIRED; core_cases;
    rewrite <- ?app_assoc, ?app_nil_r; cbn [app]; auto 10.
Qed.

Lemma bootSequence_frame env c :
  let c1 := bootSequence WIFI_REQUIRED env c in
  sameAttached c c1 /\ lastWiFiState c1 = lastWiFiState c /\
  starts c1 = starts c /\
  (currentState c <> BOOTING -> c1 = c) /\
  (millis env < 4000 -> c1 = c) /\
  (currentState c = BOOTING -> 4000 <= millis env ->
   currentState c1 = (if WIFI_REQUIRED then INITIALIZING else READY) /\
   bootingCompletes c1 =
     (bootingCompletes c + Nat.b2n (appOrchestrator c))%nat).
Proof.
  cbv zeta. unfold bootSequence.
  destruct (SystemState_eqb_spec (currentState c) BOOTING) as [E|N].
  - destruct (Z.leb_spec 4000 (millis env)) as [H|H].
    + destruct (handleBootingState_due env c E H) as (Hs & _ & He & Ha & Hl).
      split; [exact Ha|]. split; [exact Hl|].
      unfold starts, bootingCompletes, occurrences. rewrite He.
      rewrite !filter_app, !length_app.
      repeat split; try (intros; congruence || lia).
      * destruct WIFI_REQUIRED, (wifi c), (appOrchestrator c); cbn; lia.
      * destruct WIFI_REQUIRED, (wifi c), (appOrchestrator c); cbn; lia.
    + rewrite (handleBootingState_early env c H). unfold sameAttached.
      repeat split; auto; intros; lia.
  - unfold sameAttached. repeat split; auto; intros; congruence.
Qed.

Lemma onWiFiChange_frame env c :
  let c' := onWiFiChange env c in
  sameAttached c c' /\ starts c' = starts c /\
  bootingCompletes c' = bootingCompletes c /\
  lastWiFiState c' = lastWiFiState c /\
  currentState c' =
    match wifiState env with
    | WS_CONNECTING => WIFI_CONNECTING
    | WS_CONNECTED => READY
    | WS_AP_MODE => WIFI_AP_MODE
    | _ => currentState c
    end.
Proof.
  cbv zeta. unfold onWiFiChange, sameAttached.
  destruct env as [clk ws wsa sid lip aip hc inb].
  unfold wifiState, apIP, ssid.
  destruct c as [cs sst cyc evp lhc lws cwc enc wf web led orch dsp eff].
  destruct ws, cs, wf, web, led, orch; core_red; core_count; core_done.
Qed.

Lemma monitorAPClients_frame env c :
  let c' := monitorAPClients env c in
  sameAttached c c' /\ starts c' = starts c /\
  bootingCompletes c' = bootingCompletes c /\
  lastWiFiState c' = lastWiFiState c /\ currentState c' = currentState c.
Proof.
  cbv zeta. unfold monitorAPClients, sameAttached.
  destruct env as [clk ws wsa sid lip aip hc inb].
  unfold wifiState, apIP, hasAPClient.
  destruct c as [cs sst cyc evp lhc lws cwc enc wf web led orch dsp eff].
  destruct ws, wf, led, hc, cwc; core_red; core_count; core_done.
Qed.

Lemma wifiManagement_frame env c :
  let c2 := wifiManagement env c in
  sameAttached c c2 /\ starts c2 = starts c /\
  bootingCompletes c2 = bootingCompletes c /\
  (currentState c <> BOOTING -> currentState c2 <> BOOTING) /\
  (wifiState env = lastWiFiState c ->
   currentState c2 = currentState c /\
   lastWiFiState c2 = lastWiFiState c) /\
  (currentState c2 = READY ->
   currentState c = READY \/
   (wifi c = true /\ wifiState env = WS_CONNECTED /\
    lastWiFiState c <> WS_CONNECTED)) /\
  (wifi c = true -> wifiState env = WS_CONNECTED ->
   lastWiFiState c <> WS_CONNECTED -> currentState c2 = READY).
Proof.
  cbv zeta. unfold wifiManagement.
  destruct (wifi c) eqn:Hw.
  2:{ unfold sameAttached. repeat split; auto; try tauto; discriminate. }
  unfold handleWiFiConnection.
  set (c0 := call WifiUpdate c).
  assert (H0 : sameAttached c c0 /\ starts c0 = starts c /\
               bootingCompletes c0 = bootingCompletes c /\
               lastWiFiState c0 = lastWiFiState c /\
               currentState c0 = currentState c).
  { subst c0. unfold sameAttached. clear. core_fields c. core_count.
    core_done. }
  destruct H0 as ((A1 & A2 & A3 & A4) & S0 & B0 & L0 & C0).
  clearbody c0. rewrite L0.
  destruct (monitorAPClients_frame env
    (if negb (WiFiState_eqb (wifiState env) (lastWiFiState c))
     then onWiFiChange env (set_lastWiFiState (wifiState env) c0)
     else c0)) as ((M1 & M2 & M3 & M4) & MS & MB & ML & MC).
  revert M1 M2 M3 M4 MS MB ML MC. cbv zeta.
  destruct (WiFiState_eqb_spec (wifiState env) (lastWiFiState c)) as [E|N];
    cbn [negb]; intros M1 M2 M3 M4 MS MB ML MC.
  - unfold sameAttached.
    repeat split; try congruence; try (intros; left; congruence).
  - destruct (onWiFiChange_frame env
                (set_lastWiFiState (wifiState env) c0))
      as ((O1 & O2 & O3 & O4) & OS & OB & OL & OC).
    assert (H1 : sameAttached c0 (set_lastWiFiState (wifiState env) c0) /\
                 starts (set_lastWiFiState (wifiState env) c0) = starts c0 /\
                 bootingCompletes (set_lastWiFiState (wifiState env) c0) =
                   bootingCompletes c0 /\
                 currentState (set_lastWiFiState (wifiState env) c0) =
                   currentState c0).
    { unfold sameAttached. clear. core_fields c0. core_count. auto 10. }
    destruct H1 as ((P1 & P2 & P3 & P4) & PS & PB & PC).
    unfold sameAttached.
    repeat split; try congruence.
    + intros HB. rewrite MC, OC. destruct (wifiState env); congruence.
    + intros HR. rewrite MC, OC, PC, C0 in HR.
      destruct (wifiState env) eqn:Ews; try discriminate;
        try (left; exact HR).
      right. repeat split; congruence.
    + intros _ HC _. rewrite MC, OC, HC. reflexivity.
Qed.

Lemma webServerUpdates_frame env c :
  let c3 := webServerUpdates env c in
  sameAttached c c3 /\ starts c3 = starts c /\
  bootingCompletes c3 = bootingCompletes c /\
  currentState c3 = currentState c /\ lastWiFiState c3 = lastWiFiState c.
Proof.
  cbv zeta. unfold webServerUpdates, sameAttached.
  destruct env as [clk ws wsa sid lip aip hc inb]. unfold wifiStateAfter.
  core_fields c. core_cases; core_count; core_done.
Qed.

Lemma autoTransition_frame env c c4 :
  autoTransition env c = Some c4 ->
  sameAttached c c4 /\ lastWiFiState c4 = lastWiFiState c /\
  bootingCompletes c4 = bootingCompletes c /\ currentState c4 <> READY /\
  ((currentState c <> READY /\ c4 = c) \/
   (currentState c = READY /\ currentState c4 = RUNNING /\
    starts c4 = (starts c + 1)%nat)).
Proof.
  unfold autoTransition, sameAttached.
  destruct (SystemState_eqb_spec (currentState c) READY) as [E|N].
  - unfold start. rewrite E. cbn [SystemState_eqb negb].
    destruct (ledManager c) eqn:L; [|discriminate]. intros [= <-].
    core_fields c. core_count. core_done.
  - intros [= <-]. repeat split; auto.
Qed.

Lemma autoTransition_total env c :
  ledManager c = true -> exists c4, autoTransition env c = Some c4.
Proof.
  intros L. unfold autoTransition, start.
  destruct (SystemState_eqb (currentState c) READY); cbn; eauto.
  rewrite L. eauto.
Qed.

Lemma dispatch_frame event c :
  let c' := dispatch event c in
  sameAttached c c' /\ currentState c' = currentState c /\
  lastWiFiState c' = lastWiFiState c /\ starts c' = starts c /\
  (fromUITask event = true -> bootingCompletes c' = bootingCompletes c).
Proof.
  cbv zeta. unfold dispatch, handleEncoderRotation, handleEncoderClick,
    handleEncoderLongPress, sameAttached.
  destruct event as [ty v sd]. core_fields c.
  destruct ty; core_cases; core_count; core_done; discriminate.
Qed.

Lemma processEvents_frame env : forall c,
  let c' := processEvents env c in
  sameAttached c c' /\ currentState c' = currentState c /\
  lastWiFiState c' = lastWiFiState c /\ starts c' = starts c /\
  (Forall (fun e => fromUITask e = true) (inbound env) ->
   bootingCompletes c' = bootingCompletes c).
Proof.
  unfold processEvents. induction (inbound env) as [|e rest IH]; intros c.
  - unfold sameAttached. cbn. auto 10.
  - cbn [fold_left]. cbv zeta in *.
    destruct (dispatch_frame e c) as ((A1 & A2 & A3 & A4) & S & W & R & B).
    destruct (IH (dispatch e c))
      as ((A1' & A2' & A3' & A4') & S' & W' & R' & B').
    unfold sameAttached. repeat split; try congruence.
    intros HF. rewrite B' by exact (Forall_inv_tail HF).
    apply B. exact (Forall_inv HF).
Qed.

Lemma housekeeping_frame env c :
  let c' := housekeeping env c in
  sameAttached c c' /\ currentState c' = currentState c /\
  lastWiFiState c' = lastWiFiState c /\ starts c' = starts c /\
  (Forall (fun e => fromUITask e = true) (inbound env) ->
   bootingCompletes c' = bootingCompletes c).
Proof.
  cbv zeta. unfold housekeeping.
  set (c1 := guarded (appOrchestrator c) AppUpdate c).
  assert (H1 : sameAttached c c1 /\ currentState c1 = currentState c /\
               lastWiFiState c1 = lastWiFiState c /\ starts c1 = starts c /\
               bootingCompletes c1 = bootingCompletes c).
  { subst c1. unfold sameAttached. core_fields c.
    core_cases; core_count; core_done. }
  destruct H1 as ((A1 & A2 & A3 & A4) & S & W & R & B).
  destruct (processEvents_frame env c1)
    as ((A1' & A2' & A3' & A4') & S' & W' & R' & B').
  set (c2 := processEvents env c1) in *. clearbody c2 c1.
  assert (H3 : forall c3,
    c3 = (if 5000 <? wrap32u (millis env - lastHealthCheck
            (set_coordinationCycles (wrap32u (coordinationCycles c2 + 1)) c2))
          then set_lastHealthCheck (millis env)
                 (call CheckHealth
                    (set_coordinationCycles
                       (wrap32u (coordinationCycles c2 + 1)) c2))
          else set_coordinationCycles
                 (wrap32u (coordinationCycles c2 + 1)) c2) ->
    sameAttached c2 c3 /\ currentState c3 = currentState c2 /\
    lastWiFiState c3 = lastWiFiState c2 /\ starts c3 = starts c2 /\
    bootingCompletes c3 = bootingCompletes c2).
  { intros c3 ->. unfold sameAttached. clear. core_fields c2.
    core_cases; core_count; core_done. }
  destruct (H3 _ eq_refl) as ((B1 & B2 & B3 & B4) & S3 & W3 & R3 & B5).
  unfold sameAttached. repeat split; try congruence.
  intros HF. rewrite B5. rewrite B' by exact HF. exact B.
Qed.

(** *** One pass of the coordination loop *)

Lemma pass_total env c :
  ledManager c = true ->
  exists c', coordinationLoop WIFI_REQUIRED env c = Some c'.
Proof.
  intros L. unfold coordinationLoop.
  destruct (bootSequence_frame env c) as ((_ & _ & L1 & _) & _).
  destruct (wifiManagement_frame env (bootSequence WIFI_REQUIRED env c))
    as ((_ & _ & L2 & _) & _).
  destruct (webServerUpdates_frame env
              (wifiManagement env (bootSequence WIFI_REQUIRED env c)))
    as ((_ & _ & L3 & _) & _).
  cbv zeta in *.
  destruct (autoTransition_total env
              (webServerUpdates env
                 (wifiManagement env (bootSequence WIFI_REQUIRED env c))))
    as (c4 & E4); [congruence|].
  rewrite E4. eauto.
Qed.

Lemma pass_frame env c c' :
  coordinationLoop WIFI_REQUIRED env c = Some c' ->
  sameAttached c c' /\ currentState c' <> READY /\
  (starts c' = starts c \/ starts c' = (starts c + 1)%nat) /\
  (currentState c <> READY -> starts c' = (starts c + 1)%nat ->
   (currentState c = BOOTING /\ WIFI_REQUIRED = false /\
    4000 <= millis env) \/
   (wifi c = true /\ wifiState env = WS_CONNECTED /\
    lastWiFiState c <> WS_CONNECTED)) /\
  (currentState c = READY -> wifiState env = lastWiFiState c ->
   currentState c' = RUNNING /\ starts c' = (starts c + 1)%nat) /\
  (wifi c = true -> wifiState env = WS_CONNECTED ->
   lastWiFiState c <> WS_CONNECTED ->
   currentState c' = RUNNING /\ starts c' = (starts c + 1)%nat) /\
  (currentState c <> BOOTING ->
   currentState c' <> BOOTING /\
   (inboundFromUI env -> bootingCompletes c' = bootingCompletes c)) /\
  (currentState c = BOOTING -> millis env < 4000 ->
   wifiState env = lastWiFiState c ->
   currentState c' = BOOTING /\ lastWiFiState c' = lastWiFiState c /\
   (inboundFromUI env -> bootingCompletes c' = bootingCompletes c)) /\
  (currentState c = BOOTING -> 4000 <= millis env ->
   currentState c' <> BOOTING /\
   (inboundFromUI env ->
    bootingCompletes c' =
      (bootingCompletes c + Nat.b2n (appOrchestrator c))%nat)).
Proof.
  unfold coordinationLoop, inboundFromUI.
  destruct (bootSequence_frame env c)
    as ((A1 & A2 & A3 & A4) & L1 & S1 & N1 & E1 & D1).
  set (c1 := bootSequence WIFI_REQUIRED env c) in *. clearbody c1.
  destruct (wifiManagement_frame env c1)
    as ((B1 & B2 & B3 & B4) & S2 & K2 & N2 & U2 & R2 & Q2).
  set (c2 := wifiManagement env c1) in *. clearbody c2.
  destruct (webServerUpdates_frame env c2)
    as ((C1 & C2 & C3 & C4) & S3 & K3 & T3 & L3).
  set (c3 := webServerUpdates env c2) in *. clearbody c3.
  destruct (autoTransition env c3) as [c4|] eqn:E4; [|discriminate].
  intros [= <-].
  destruct (autoTransition_frame env c3 c4 E4)
    as ((D1' & D2 & D3 & D4) & L4 & K4 & N4 & Hcase).
  destruct (housekeeping_frame env c4)
    as ((F1 & F2 & F3 & F4) & T5 & L5 & S5 & K5).
  set (c5 := housekeeping env c4) in *. clearbody c5.
  unfold sameAttached.
  assert (Hboot : currentState c = BOOTING -> 4000 <= millis env ->
                  currentState c1 <> BOOTING).
  { intros Hb Hd. destruct (D1 Hb Hd) as [-> _].
    destruct WIFI_REQUIRED; discriminate. }
  assert (Hstarts : (currentState c3 <> READY /\ starts c5 = starts c) \/
                    (currentState c3 = READY /\
                     starts c5 = (starts c + 1)%nat)).
  { destruct Hcase as [(Hn & Ec)|(Hr & _ & Hs)]; [subst c4; left|right];
      (split; [assumption|lia]). }
  assert (Hstate : currentState c3 = READY -> currentState c5 = RUNNING).
  { intros Hr. destruct Hcase as [(Hn & _)|(_ & Hr4 & _)]; congruence. }
  assert (Hkeep : currentState c3 <> READY ->
                  currentState c5 = currentState c3).
  { intros Hn. destruct Hcase as [(_ & Ec)|(Hr & _)]; [subst c4|];
      congruence. }
  assert (Hnb : currentState c3 <> BOOTING -> currentState c5 <> BOOTING).
  { intros Hn. destruct (SystemState_eqb_spec (currentState c3) READY)
      as [Hr|Hr]; [rewrite (Hstate Hr); discriminate|].
    rewrite (Hkeep Hr). exact Hn. }
  clear Hcase.
  repeat split; try congruence.
  - destruct Hstarts as [(_ & Hs)|(_ & Hs)]; [left|right]; exact Hs.
  - intros Hn Hs. destruct Hstarts as [(_ & Hs')|(Hr & _)]; [exfalso; lia|].
    rewrite T3 in Hr. destruct (R2 Hr) as [Hr1|(W1 & W2 & W3)].
    + left. destruct (SystemState_eqb_spec (currentState c) BOOTING)
        as [Hb|Hb]; [|rewrite (N1 Hb) in Hr1; contradiction].
      destruct (Z.leb_spec 4000 (millis env)) as [Hd|Hd];
        [|rewrite (E1 Hd) in Hr1; congruence].
      destruct (D1 Hb Hd) as [Hs1 _]. rewrite Hs1 in Hr1.
      destruct WIFI_REQUIRED; [discriminate|auto].
    + right. repeat split; congruence.
  - assert (c1 = c) by (apply N1; congruence). subst c1.
    destruct (U2 H0) as [U _]. apply Hstate. congruence.
  - assert (c1 = c) by (apply N1; congruence). subst c1.
    destruct (U2 H0) as [U _].
    destruct Hstarts as [(Hn & _)|(_ & Hs)]; [|exact Hs]. congruence.
  - apply Hstate. rewrite T3. apply Q2; congruence.
  - assert (Hr : currentState c3 = READY).
    { rewrite T3. apply Q2; congruence. }
    destruct Hstarts as [(Hn & _)|(_ & Hs)]; [|exact Hs]. congruence.
  - apply Hnb. rewrite T3. apply N2. rewrite (N1 H). exact H.
  - intros Hin. rewrite (K5 Hin), K4, K3, K2, (N1 H). reflexivity.
  - rewrite (E1 H0) in *. destruct (U2 H1) as [U _].
    rewrite Hkeep; congruence.
  - rewrite (E1 H0) in *. destruct (U2 H1) as [_ U]. congruence.
  - intros Hin. rewrite (K5 Hin), K4, K3, K2, (E1 H0). reflexivity.
  - apply Hnb. rewrite T3. apply N2. apply Hboot; assumption.
  - intros Hin. destruct (D1 H H0) as [_ K1].
    rewrite (K5 Hin), K4, K3, K2, K1. reflexivity.
Qed.

(** C9.  [start()] in any state but READY returns without a change and
    without an error.  In READY (with the LED manager attached) it moves to
    RUNNING, after which a further [start()] is a no-op.  With the LED
    manager attached every pass of the coordination loop returns.  No pass
    ends in READY, a pass fires [start()] at most once, a pass entered in
    READY with the network state unchanged fires it and ends in RUNNING,
    and a pass entered in another state fires it only if READY is entered
    during that pass: by the boot handler of a build without WiFi, or by
    the network manager newly reporting CONNECTED. *)
Theorem start_only_from_ready env c :
  let fires c' :=
    currentState c' <> READY /\
    (starts c' = starts c \/ starts c' = (starts c + 1)%nat) /\
    (currentState c = READY -> wifiState env = lastWiFiState c ->
     currentState c' = RUNNING /\ starts c' = (starts c + 1)%nat) /\
    (currentState c <> READY -> starts c' = (starts c + 1)%nat ->
     (currentState c = BOOTING /\ WIFI_REQUIRED = false /\
      4000 <= millis env) \/
     (wifi c = true /\ wifiState env = WS_CONNECTED /\
      lastWiFiState c <> WS_CONNECTED)) in
  (currentState c <> READY -> start env c = Some c) /\
  (currentState c = READY -> ledManager c = true ->
   exists c', start env c = Some c' /\ currentState c' = RUNNING /\
     stateStartTime c' = millis env /\ starts c' = (starts c + 1)%nat /\
     forall env', start env' c' = Some c') /\
  (ledManager c = true ->
   exists c', coordinationLoop WIFI_REQUIRED env c = Some c' /\ fires c') /\
  (forall c', coordinationLoop WIFI_REQUIRED env c = Some c' -> fires c').
Proof.
  cbv zeta.
  assert (Hpass : forall c',
            coordinationLoop WIFI_REQUIRED env c = Some c' ->
            currentState c' <> READY /\
            (starts c' = starts c \/ starts c' = (starts c + 1)%nat) /\
            (currentState c = READY -> wifiState env = lastWiFiState c ->
             currentState c' = RUNNING /\
             starts c' = (starts c + 1)%nat) /\
            (currentState c <> READY -> starts c' = (starts c + 1)%nat ->
             (currentState c = BOOTING /\ WIFI_REQUIRED = false /\
              4000 <= millis env) \/
             (wifi c = true /\ wifiState env = WS_CONNECTED /\
              lastWiFiState c <> WS_CONNECTED))).
  { intros c' H. pose proof (pass_frame env c c' H). tauto. }
  split; [apply start_not_ready|]. split; [|split].
  - intros E L. rewrite (start_ready env c E L). eexists. split; [reflexivity|].
    core_fields c. core_count. repeat split; try lia.
  - intros L. destruct (pass_total env c L) as (c' & H).
    exists c'. split; [exact H|]. apply Hpass. exact H.
  - exact Hpass.
Qed.

(** *** The boot sequence *)

Lemma coordinate_app l1 : forall l2 c,
  coordinate WIFI_REQUIRED (l1 ++ l2) c =
  match coordinate WIFI_REQUIRED l1 c with
  | Some c1 => coordinate WIFI_REQUIRED l2 c1
  | None => None
  end.
Proof.
  induction l1 as [|env l1 IH]; intros l2 c; [reflexivity|].
  cbn [app coordinate].
  destruct (coordinationLoop WIFI_REQUIRED env c); [apply IH|reflexivity].
Qed.

Lemma coordinate_before pre : forall c,
  currentState c = BOOTING -> ledManager c = true ->
  Forall (fun env => millis env < 4000 /\
                     wifiState env = lastWiFiState c /\
                     inboundFromUI env) pre ->
  exists c1, coordinate WIFI_REQUIRED pre c = Some c1 /\
    currentState c1 = BOOTING /\ sameAttached c c1 /\
    bootingCompletes c1 = bootingCompletes c.
Proof.
  induction pre as [|env pre IH]; intros c Hb Hl Hpre.
  - exists c. unfold sameAttached. cbn. auto 10.
  - pose proof (Forall_inv Hpre) as (Ht & Hw & Hin).
    apply Forall_inv_tail in Hpre.
    destruct (pass_total env c Hl) as (c' & E). cbn [coordinate]. rewrite E.
    pose proof (pass_frame env c c' E)
      as ((A1 & A2 & A3 & A4) & _ & _ & _ & _ & _ & _ & Hq & _).
    destruct (Hq Hb Ht Hw) as (Hb' & Hw' & Hk).
    destruct (IH c') as (c1 & E1 & Hb1 & (B1 & B2 & B3 & B4) & Hk1);
      try congruence.
    { rewrite Hw'. exact Hpre. }
    exists c1. unfold sameAttached. rewrite Hk1, (Hk Hin).
    repeat split; congruence.
Qed.

Lemma coordinate_after post : forall c,
  currentState c <> BOOTING -> ledManager c = true ->
  Forall inboundFromUI post ->
  exists c2, coordinate WIFI_REQUIRED post c = Some c2 /\
    currentState c2 <> BOOTING /\
    bootingCompletes c2 = bootingCompletes c.
Proof.
  induction post as [|env post IH]; intros c Hb Hl Hpost.
  - exists c. cbn. auto.
  - pose proof (Forall_inv Hpost) as Hin. apply Forall_inv_tail in Hpost.
    destruct (pass_total env c Hl) as (c' & E). cbn [coordinate]. rewrite E.
    pose proof (pass_frame env c c' E)
      as ((A1 & A2 & A3 & A4) & _ & _ & _ & _ & _ & Hq & _).
    destruct (Hq Hb) as (Hb' & Hk).
    destruct (IH c') as (c2 & E2 & Hb2 & Hk2); try congruence.
    exists c2. rewrite Hk2, (Hk Hin). auto.
Qed.

(** C7.  Boot from BOOTING with the application orchestrator and the LED
    manager attached (and the network manager, when WiFi is required), the
    network manager reporting DISCONNECTED until it is started, and only
    events of the UI task on the queue.  The passes before 4000 ms leave
    the state BOOTING and hand the application nothing.  On the first pass
    at or after 4000 ms the boot handler runs: with WiFi required it enters
    INITIALIZING, sends the display-wifi-connecting event and starts the
    network manager; otherwise it sends the wake-up event and enters READY;
    then it hands the application the booting-complete event.  Over the
    whole run, however long, the application is handed exactly one
    booting-complete event, and BOOTING is never entered again. *)
Theorem boot_sequence c pre env post :
  currentState c = BOOTING -> lastWiFiState c = WS_DISCONNECTED ->
  (WIFI_REQUIRED = true -> wifi c = true) ->
  appOrchestrator c = true -> ledManager c = true ->
  Forall (fun env => millis env < 4000 /\
                     wifiState env = WS_DISCONNECTED) pre ->
  4000 <= millis env ->
  Forall inboundFromUI (pre ++ env :: post) ->
  exists c1 c2,
    coordinate WIFI_REQUIRED pre c = Some c1 /\
    currentState c1 = BOOTING /\
    bootingCompletes c1 = bootingCompletes c /\
    (let b := handleBootingState WIFI_REQUIRED env c1 in
     bootSequence WIFI_REQUIRED env c1 = b /\
     stateStartTime b = millis env /\
     if WIFI_REQUIRED then
       currentState b = INITIALIZING /\
       effects b =
         effects c1
         ++ [SendToUI (Event1 DISPLAY_WIFI_CONNECTING); WifiInit;
             ProcessSDKEvent (Event1 BOOTING_COMPLETE)]
     else
       currentState b = READY /\
       effects b =
         effects c1
         ++ [SendToUI (Event1 DISPLAY_WAKE_UP);
             ProcessSDKEvent (Event1 BOOTING_COMPLETE)]) /\
    coordinate WIFI_REQUIRED (pre ++ env :: post) c = Some c2 /\
    currentState c2 <> BOOTING /\
    bootingCompletes c2 = (bootingCompletes c + 1)%nat.
Proof.
  intros Hb Hw Hwifi Happ Hled Hpre Hdue Hin.
  apply Forall_app in Hin. destruct Hin as [Hin1 Hin2].
  pose proof (Forall_inv Hin2) as Hine. apply Forall_inv_tail in Hin2.
  destruct (coordinate_before pre c Hb Hled)
    as (c1 & E1 & Hb1 & (A1 & A2 & A3 & A4) & Hk1).
  { rewrite Forall_forall in *. intros e He.
    destruct (Hpre e He) as [Ht Hd]. repeat split; auto. congruence. }
  destruct (pass_total env c1) as (c' & E'); [congruence|].
  pose proof (pass_frame env c1 c' E')
    as ((B1 & B2 & B3 & B4) & _ & _ & _ & _ & _ & _ & _ & Hq).
  destruct (Hq Hb1 Hdue) as (Hb' & Hk').
  destruct (coordinate_after post c') as (c2 & E2 & Hb2 & Hk2);
    try congruence.
  exists c1, c2. split; [exact E1|]. split; [exact Hb1|].
  split; [exact Hk1|]. split.
  - cbv zeta. split.
    { unfold bootSequence. rewrite Hb1. reflexivity. }
    destruct (handleBootingState_due env c1 Hb1 Hdue)
      as (Hs & Ht & He & _ & _).
    split; [exact Ht|]. rewrite He, A4, Happ.
    destruct WIFI_REQUIRED.
    + rewrite A1, (Hwifi eq_refl). split; [exact Hs|reflexivity].
    + split; [exact Hs|reflexivity].
  - rewrite coordinate_app, E1. cbn [coordinate]. rewrite E', E2.
    split; [reflexivity|]. split; [exact Hb2|].
    rewrite Hk2, (Hk' Hine), Hk1, A4, Happ. reflexivity.
Qed.

End Passes.

(** C9 at the coordinator as initialised, which is not READY, and at a
    pass entered in READY. *)
Lemma start_only_from_ready_witness :
  start (pass 100 WS_DISCONNECTED []) initial = Some initial /\
  exists c',
    coordinationLoop true (pass 100 WS_DISCONNECTED [])
      (set_currentState READY initial) = Some c' /\
    currentState c' = RUNNING /\ starts c' = 1%nat.
Proof.
  split.
  - apply (proj1 (start_only_from_ready true (pass 100 WS_DISCONNECTED [])
                    initial)).
    discriminate.
  - destruct (proj1 (proj2 (proj2
                (start_only_from_ready true (pass 100 WS_DISCONNECTED [])
                   (set_currentState READY initial)))) eq_refl)
      as (c' & E & _ & _ & H & _).
    destruct (H eq_refl eq_refl) as [R S].
    exists c'. split; [exact E|]. split; [exact R|].
    rewrite S. reflexivity.
Defined.

(** C7 at a build with WiFi required: passes at 50 and 3950 ms, the pass at
    4000 ms, then the network manager reporting CONNECTING and CONNECTED
    while the UI task reports a rotation. *)
Lemma boot_sequence_witness :
  exists c2,
    coordinate true
      ([pass 50 WS_DISCONNECTED []; pass 3950 WS_DISCONNECTED []]
       ++ pass 4000 WS_DISCONNECTED []
          :: [pass 4050 WS_CONNECTING [];
              pass 4100 WS_CONNECTED [Event2 ENCODER_ROTATION 1]])
      initial = Some c2 /\
    bootingCompletes c2 = 1%nat.
Proof.
  destruct (boot_sequence true initial
              [pass 50 WS_DISCONNECTED []; pass 3950 WS_DISCONNECTED []]
              (pass 4000 WS_DISCONNECTED [])
              [pass 4050 WS_CONNECTING [];
               pass 4100 WS_CONNECTED [Event2 ENCODER_ROTATION 1]])
    as (c1 & c2 & _ & _ & _ & _ & H & _ & Hn).
  - reflexivity.
  - reflexivity.
  - reflexivity.
  - reflexivity.
  - reflexivity.
  - repeat constructor; cbn; lia.
  - cbn. lia.
  - repeat constructor.
  - exists c2. split; [exact H|exact Hn].
Defined.

(** *** The UI task *)




End CoreFacts.

(** ** Device identity *)

Module DeviceIDFacts.
Import Machine DeviceID MachineFacts.

Lemma hexDigits_length n : List.length (hexDigits n) = hexWidth n.
Proof.
  unfold hexDigits. rewrite length_map, length_rev, length_seq. reflexivity.
Qed.

Lemma hexWidth_uint32 n : 0 <= n < 2 ^ 32 -> (hexWidth n <= 8)%nat.
Proof.
  intros [H0 H1]. unfold hexWidth.
  assert (Z.log2 n < 32).
  { destruct (Z.eq_dec n 0) as [->|Hn]; [cbn; lia|].
    apply Z.log2_lt_pow2; lia. }
  pose proof (Z.log2_nonneg n).
  assert (Z.log2 n / 4 + 1 <= 8).
  { assert (Z.log2 n / 4 < 8) by (apply Z.div_lt_upper_bound; lia). lia. }
  lia.
Qed.

Lemma format_08x_length n :
  0 <= n < 2 ^ 32 -> List.length (format_08x n) = 8%nat.
Proof.
  intros H. unfold format_08x.
  rewrite length_app, repeat_length, hexDigits_length.
  pose proof (hexWidth_uint32 n H). lia.
Qed.

Lemma string_of_list_length l :
  String.length (string_of_list_ascii l) = List.length l.
Proof. induction l; cbn; congruence. Qed.

Lemma substring_all s : String.substring 0 (String.length s) s = s.
Proof. induction s; cbn; congruence. Qed.

Lemma substring_suffix a b :
  String.substring (String.length a) (String.length b) (String.append a b)
  = b.
Proof. induction a; cbn; [apply substring_all|assumption]. Qed.

Lemma append_length a b :
  String.length (String.append a b) = (String.length a + String.length b)%nat.
Proof. induction a; cbn; congruence. Qed.

Lemma hexDigit_isHex d : isHexChar (hexDigit d) = true.
Proof.
  destruct d as [|p|p]; try reflexivity.
  do 4 (destruct p as [p|p|]; try reflexivity).
Qed.

Lemma getDeviceID_chars efuseMac :
  list_ascii_of_string (getDeviceID efuseMac) =
  format_08x (wrap32u (wrap64u efuseMac)).
Proof.
  unfold getDeviceID, snprintf. cbv zeta.
  rewrite list_ascii_of_string_of_list_ascii.
  apply firstn_all2. rewrite format_08x_length; [cbn; lia|].
  apply wrap32u_range.
Qed.

Lemma getDeviceID_length efuseMac :
  String.length (getDeviceID efuseMac) = 8%nat.
Proof.
  rewrite <- (string_of_list_ascii_of_string (getDeviceID efuseMac)).
  rewrite string_of_list_length, getDeviceID_chars.
  apply format_08x_length, wrap32u_range.
Qed.

(** C10.  For every value of the eFuse MAC, the access-point password is
    the device ID: the ID is exactly eight characters, each a lower-case
    hexadecimal digit, so that its [substring(0, 8)] is the whole of it;
    and the access-point SSID is "CloudMouse-" followed by the ID, which
    is read back from it at offset 11. *)
Theorem ap_password_is_device_id efuseMac :
  getAPPassword efuseMac = getDeviceID efuseMac /\
  String.length (getDeviceID efuseMac) = 8%nat /\
  forallb isHexChar (list_ascii_of_string (getDeviceID efuseMac)) = true /\
  getAPSSID efuseMac = String.append "CloudMouse-" (getDeviceID efuseMac) /\
  substring 11 19 (getAPSSID efuseMac) = getDeviceID efuseMac.
Proof.
  pose proof (getDeviceID_length efuseMac) as Hlen.
  split; [|split; [exact Hlen|split; [|split; [reflexivity|]]]].
  - unfold getAPPassword, substring. cbv zeta. rewrite Hlen.
    cbn [Nat.min Nat.max Nat.leb Nat.sub].
    rewrite <- (substring_all (getDeviceID efuseMac)) at 2.
    rewrite Hlen. reflexivity.
  - rewrite getDeviceID_chars. unfold format_08x.
    rewrite forallb_app. apply andb_true_intro. split.
    + apply forallb_forall. intros x Hx. apply repeat_spec in Hx.
      subst x. reflexivity.
    + unfold hexDigits. apply forallb_forall. intros x Hx.
      apply in_map_iff in Hx. destruct Hx as (i & <- & _).
      apply hexDigit_isHex.
  - unfold getAPSSID, substring.
    assert (E : String.length
                  (String.append "CloudMouse-" (getDeviceID efuseMac))
                = 19%nat).
    { rewrite append_length, Hlen. reflexivity. }
    rewrite E. cbn [Nat.min Nat.max Nat.leb Nat.sub].
    rewrite <- (substring_suffix "CloudMouse-" (getDeviceID efuseMac)) at 2.
    rewrite Hlen. reflexivity.
Qed.

Example device_id_example :
  getDeviceID 0xaabb12a3f4e2 = "12a3f4e2"%string /\
  getAPPassword 0xaabb12a3f4e2 = "12a3f4e2"%string /\
  getAPSSID 0xaabb12a3f4e2 = "CloudMouse-12a3f4e2"%string /\
  getDeviceID 0x2a = "0000002a"%string.
Proof. vm_compute. auto. Qed.

End DeviceIDFacts.

(** ** The gesture recogniser, further *)

Module RecogniserFacts.
Import Machine EncoderManager Client Tactics MachineFacts GestureFacts.

(** *** Rotation *)

Lemma wrap32s_range z : - 2 ^ 31 <= wrap32s z < 2 ^ 31.
Proof.
  unfold wrap32s. pose proof (Z.mod_pos_bound (z + 2 ^ 31) (2 ^ 32)). lia.
Qed.

Lemma wrap32s_small z : - 2 ^ 31 <= z < 2 ^ 31 -> wrap32s z = z.
Proof. intros H. unfold wrap32s. rewrite Z.mod_small; lia. Qed.

Lemma wrap32s_mod z : wrap32s z mod 2 ^ 32 = z mod 2 ^ 32.
Proof.
  unfold wrap32s.
  replace ((z + 2 ^ 31) mod 2 ^ 32 - 2 ^ 31)
    with (z + - ((z + 2 ^ 31) / 2 ^ 32) * 2 ^ 32).
  - apply Z.mod_add. lia.
  - pose proof (Z.div_mod (z + 2 ^ 31) (2 ^ 32)). lia.
Qed.

Lemma wrap32s_congr a b :
  a mod 2 ^ 32 = b mod 2 ^ 32 -> wrap32s a = wrap32s b.
Proof.
  intros H. unfold wrap32s.
  rewrite (Z.add_mod a), (Z.add_mod b), H by lia. reflexivity.
Qed.

Lemma last_cons_default {A} (l : list A) : forall a d,
  last (a :: l) d = last l a.
Proof.
  induction l as [|b l IH]; intros a d; [reflexivity|].
  change (last (a :: b :: l) d) with (last (b :: l) d).
  rewrite (IH b d), (IH b a). reflexivity.
Qed.

Section Rotation.
Variable cfg : Timing.

Lemma processButton_rotation hw s :
  let s' := processButton cfg hw s in
  lastValue s' = lastValue s /\ movement s' = movement s /\
  movementPending s' = movementPending s.
Proof.
  cbv zeta. enc_fields s hw. unfold processButton.
  unfold pressDetection; enc_decide;
  unfold releaseDetection; enc_decide;
  unfold ongoingPress; enc_decide;
  unfold doubleClickTimeout; enc_decide; auto.
Qed.

Lemma processEncoder_origin hw s :
  let s' := processEncoder hw s in
  lastValue s' = Z.quot (position hw) 4 /\ origin s' = origin s /\
  ((lastValue s' = lastValue s /\ movement s' = movement s /\
    movementPending s' = movementPending s) \/
   (- 2 ^ 31 <= movement s' < 2 ^ 31 /\ movementPending s' = true)).
Proof.
  cbv zeta. unfold origin.
  pose proof (wrap32s_range
                (movement s + wrap32s (Z.quot (position hw) 4 - lastValue s)))
    as R.
  pose proof (wrap32s_mod
                (movement s + wrap32s (Z.quot (position hw) 4 - lastValue s)))
    as M.
  pose proof (wrap32s_mod (Z.quot (position hw) 4 - lastValue s)) as M'.
  assert (E : (Z.quot (position hw) 4
               - wrap32s (movement s
                          + wrap32s (Z.quot (position hw) 4 - lastValue s)))
              mod 2 ^ 32 = (lastValue s - movement s) mod 2 ^ 32).
  { rewrite Zminus_mod, M, <- Zminus_mod.
    replace (Z.quot (position hw) 4
             - (movement s + wrap32s (Z.quot (position hw) 4 - lastValue s)))
      with (Z.quot (position hw) 4 - movement s
            - wrap32s (Z.quot (position hw) 4 - lastValue s)) by lia.
    rewrite Zminus_mod, M', <- Zminus_mod. f_equal. lia. }
  revert R E. clear M M'. enc_fields s hw. intros R E.
  unfold processEncoder; enc_decide; intuition (try lia; try congruence).
Qed.

Lemma update_origin hw s :
  let s' := update cfg hw s in
  lastValue s' = Z.quot (position hw) 4 /\ origin s' = origin s /\
  ((lastValue s' = lastValue s /\ movement s' = movement s /\
    movementPending s' = movementPending s) \/
   (- 2 ^ 31 <= movement s' < 2 ^ 31 /\ movementPending s' = true)).
Proof.
  cbv zeta. unfold update.
  destruct (processButton_rotation hw (processEncoder hw s)) as (A & B & C).
  destruct (processEncoder_origin hw s) as (D & E & F). cbv zeta in *.
  unfold origin in *. rewrite A, B, C. auto.
Qed.

Lemma run_origin samples : forall s,
  - 2 ^ 31 <= movement s < 2 ^ 31 ->
  let s' := run cfg samples s in
  origin s' = origin s /\ - 2 ^ 31 <= movement s' < 2 ^ 31 /\
  (movementPending s = true -> movementPending s' = true) /\
  lastValue s' = last (map (fun hw => Z.quot (position hw) 4) samples)
                   (lastValue s).
Proof.
  induction samples as [|hw rest IH]; intros s R; cbv zeta.
  - cbn. auto.
  - change (run cfg (hw :: rest) s) with (run cfg rest (update cfg hw s)).
    destruct (update_origin hw s) as (L & O & C). cbv zeta in *.
    assert (R' : - 2 ^ 31 <= movement (update cfg hw s) < 2 ^ 31).
    { destruct C as [(_ & -> & _)|(C & _)]; assumption. }
    destruct (IH _ R') as (O' & R'' & P' & L'). cbv zeta in *.
    split; [congruence|]. split; [exact R''|]. split.
    + intros P. apply P'. destruct C as [(_ & _ & ->)|(_ & C)]; assumption.
    + rewrite L', L. cbn [map]. symmetry. apply last_cons_default.
Qed.

Lemma origin_movement s d :
  - 2 ^ 31 <= movement s < 2 ^ 31 ->
  origin s = d mod 2 ^ 32 -> movement s = wrap32s (lastValue s - d).
Proof.
  unfold origin. intros R O.
  rewrite <- (wrap32s_small (movement s)) at 1 by exact R.
  apply wrap32s_congr.
  replace (movement s) with (lastValue s - (lastValue s - movement s)) by lia.
  rewrite Zminus_mod, O, <- Zminus_mod. reflexivity.
Qed.

End Rotation.

(** X1.  Whatever happens to the switch in between, after any number of
    [update()] calls without a consumption the accumulator holds the
    movement it held before plus the net displacement of the shaft in
    detents (as an [int]): turns back and forth cancel, and no detent is
    lost or counted twice. *)
Theorem movement_is_net_displacement cfg samples hw s :
  - 2 ^ 31 <= movement s < 2 ^ 31 ->
  let s' := run cfg (samples ++ [hw]) s in
  lastValue s' = Z.quot (position hw) 4 /\
  movement s' =
    wrap32s (movement s + (Z.quot (position hw) 4 - lastValue s)).
Proof.
  intros R. cbv zeta.
  destruct (run_origin cfg (samples ++ [hw]) s R) as (O & R' & _ & L).
  cbv zeta in *. rewrite map_app in L. cbn [map] in L.
  rewrite last_last in L. split; [exact L|].
  rewrite (origin_movement _ (lastValue s - movement s) R' O), L.
  f_equal. lia.
Qed.

Lemma movement_is_net_displacement_witness :
  movement (run documented
              [mkHw 8 HIGH 10; mkHw 20 LOW 20; mkHw 4 HIGH 30] booted) = 1.
Proof.
  apply (movement_is_net_displacement documented
           [mkHw 8 HIGH 10; mkHw 20 LOW 20] (mkHw 4 HIGH 30) booted).
  cbn. lia.
Defined.


(** *** The switch left alone *)

Lemma idle_tick cfg hw s :
  Idle s -> pin hw = HIGH -> Idle (update cfg hw s).
Proof.
  intros (Hb & Hc & Hw) Hp. unfold Idle. enc_fields s hw.
  destruct cp, dp, lp, up, pp; try discriminate.
  enc_update; auto.
Qed.

(** X2.  With the switch up throughout, turning the shaft raises no button
    gesture, whatever the positions and the clock readings are: from a
    recogniser with the switch up, no gesture pending and no first click
    waiting, every update leaves all five flags clear. *)
Theorem rotation_alone_raises_no_gesture cfg samples : forall s,
  Idle s -> allLevel HIGH samples ->
  let s' := run cfg samples s in
  pendingCount s' = 0%nat /\ waitingForDoubleClick s' = false /\
  lastButtonState s' = HIGH.
Proof.
  induction samples as [|hw rest IH]; intros s HI Hup; cbv zeta.
  - cbn. unfold Idle in HI. tauto.
  - change (run cfg (hw :: rest) s) with (run cfg rest (update cfg hw s)).
    apply IH; [|exact (Forall_inv_tail Hup)].
    apply idle_tick; [exact HI|exact (Forall_inv Hup)].
Qed.

Lemma rotation_alone_raises_no_gesture_witness :
  pendingCount (run documented [mkHw 40 HIGH 10; mkHw (-8) HIGH 5000] booted)
  = 0%nat.
Proof.
  apply (rotation_alone_raises_no_gesture documented
           [mkHw 40 HIGH 10; mkHw (-8) HIGH 5000] booted).
  - repeat split.
  - repeat constructor.
Defined.

(** *** A press with the shaft at rest *)

Section RestingPress.
Variable cfg : Timing.
Variable t0 d : Z.

Lemma press_tick_rest s p :
  Idle s -> pin p = LOW -> Z.quot (position p) 4 = lastValue s ->
  clock p = t0 -> lastValue s = d ->
  RestInv cfg t0 t0 d (update cfg p s).
Proof.
  intros (Hb & Hc & Hw) Hpin Hrot Ht Hd.
  pose proof (elapsed_self (clock p)) as E.
  unfold RestInv, Held. rewrite Z.sub_diag. enc_fields s p.
  destruct cp, dp, lp, up, pp; try discriminate.
  enc_update; intuition (try lia; try congruence).
Qed.

Lemma hold_tick_rest prev s h :
  RestInv cfg t0 prev d s -> pin h = LOW -> Z.quot (position h) 4 = d ->
  prev <= clock h -> 0 <= clock h - t0 < 2 ^ 32 ->
  RestInv cfg t0 (clock h) d (update cfg h s).
Proof.
  intros ((Hb & Hp & Ha & Hv) & Hc & Hd & Hl & Hr & Hw & Hu & Hn)
    Hpin Hrot Hle Hlap.
  pose proof (elapsed_exact _ _ Hlap) as E.
  unfold RestInv, Held. enc_fields s h.
  destruct (Z.leb_spec (ULTRA_LONG_PRESS_DURATION cfg) (prev - t0));
    enc_update; intuition (try lia; try congruence).
Qed.

Lemma run_holds_rest holds : forall prev s,
  RestInv cfg t0 prev d s -> allLevel LOW holds -> atRest d holds ->
  ascending prev holds -> noLap t0 holds ->
  exists prev', RestInv cfg t0 prev' d (run cfg holds s) /\ prev <= prev' /\
    forall tl, ascending prev (holds ++ tl) -> ascending prev' tl.
Proof.
  induction holds as [|h holds IH]; intros prev s HI Hlow Hrest Hasc Hlap.
  - exists prev. cbn. auto with zarith.
  - cbn [ascending] in Hasc. destruct Hasc as [Hle Hasc].
    pose proof (Forall_inv Hlow) as Hph. pose proof (Forall_inv Hlap) as Hlh.
    pose proof (Forall_inv Hrest) as Hrh.
    apply Forall_inv_tail in Hlow, Hlap, Hrest.
    destruct (IH (clock h) (update cfg h s)) as (prev' & HI' & Hle' & Htl);
      try assumption.
    { apply (hold_tick_rest prev); assumption. }
    exists prev'. split; [exact HI'|]. split; [lia|].
    intros tl [_ Htl']. apply Htl. exact Htl'.
Qed.

Lemma release_tick_rest prev s r :
  RestInv cfg t0 prev d s -> pin r = HIGH -> Z.quot (position r) 4 = d ->
  prev <= clock r -> 0 <= clock r - t0 < 2 ^ 32 ->
  0 <= DOUBLE_CLICK_WINDOW cfg ->
  let held := clock r - t0 in
  let ultra := ULTRA_LONG_PRESS_DURATION cfg <=? held in
  let long := LONG_PRESS_DURATION cfg <=? held in
  let s' := update cfg r s in
  ultraLongPressPending s' = ultra /\
  longPressPending s' = negb ultra && long /\
  waitingForDoubleClick s' =
    negb ultra && negb long && (held <? CLICK_TIMEOUT cfg) /\
  clickPending s' = false /\ doubleClickPending s' = false /\
  pressAndRotatePending s' = false /\
  lastPressDuration s' = held /\ lastButtonState s' = HIGH.
Proof.
  intros ((Hb & Hp & Ha & Hv) & Hc & Hd & Hl & Hr & Hw & Hu & Hn)
    Hpin Hrot Hle Hlap HW.
  pose proof (elapsed_exact _ _ Hlap) as E.
  pose proof (elapsed_self (clock r)) as E0.
  cbv zeta. enc_fields s r.
  destruct (Z.leb_spec (ULTRA_LONG_PRESS_DURATION cfg) (prev - t0));
    enc_update; intuition (try lia; try congruence).
Qed.

End RestingPress.

(** X3.  What a press with the shaft at rest leaves pending once its
    release has been processed is decided by the time it was held alone:
    the ultra-long press from [ULTRA_LONG_PRESS_DURATION]; below that the
    long press from [LONG_PRESS_DURATION]; below that and below
    [CLICK_TIMEOUT] nothing yet, the click waiting for its pair; and a
    press held for at least [CLICK_TIMEOUT] but less than
    [LONG_PRESS_DURATION] is dropped without any event.  The held time is
    latched in [lastPressDuration]. *)
Theorem press_classified_by_held_time cfg s p holds r :
  Idle s -> 0 <= DOUBLE_CLICK_WINDOW cfg ->
  pin p = LOW -> allLevel LOW holds -> pin r = HIGH ->
  atRest (lastValue s) (p :: holds ++ [r]) ->
  ascending (clock p) (holds ++ [r]) -> noLap (clock p) (holds ++ [r]) ->
  let held := clock r - clock p in
  let ultra := ULTRA_LONG_PRESS_DURATION cfg <=? held in
  let long := LONG_PRESS_DURATION cfg <=? held in
  let s' := run cfg (p :: holds ++ [r]) s in
  ultraLongPressPending s' = ultra /\
  longPressPending s' = negb ultra && long /\
  waitingForDoubleClick s' =
    negb ultra && negb long && (held <? CLICK_TIMEOUT cfg) /\
  clickPending s' = false /\ doubleClickPending s' = false /\
  pressAndRotatePending s' = false /\
  lastPressDuration s' = held /\ lastButtonState s' = HIGH.
Proof.
  intros HI HW Hp Hlow Hr Hrest Hasc Hlap.
  pose proof (Forall_inv Hrest) as Hrp. apply Forall_inv_tail in Hrest.
  apply Forall_app in Hrest, Hlap.
  destruct Hrest as [Hrh Hrr], Hlap as [Hlh Hlr].
  apply Forall_inv in Hrr, Hlr.
  pose proof (press_tick_rest cfg (clock p) (lastValue s) s p HI Hp Hrp
                eq_refl eq_refl) as H1.
  assert (Hasc' : ascending (clock p) holds).
  { clear -Hasc. revert Hasc. generalize (clock p).
    induction holds as [|h holds IH]; intros z; cbn; [auto|].
    intros [A B]. split; [exact A|]. apply IH. exact B. }
  destruct (run_holds_rest cfg (clock p) (lastValue s) holds (clock p) _
              H1 Hlow Hrh Hasc' Hlh) as (prev' & H2 & _ & Htl).
  destruct (Htl [r] Hasc) as [Hle _].
  unfold run. cbn [fold_left]. rewrite fold_left_app. cbn [fold_left].
  exact (release_tick_rest cfg (clock p) (lastValue s) prev' _ r H2 Hr Hrr
           Hle Hlr HW).
Qed.

Lemma press_classified_by_held_time_witness :
  let s := run documented
             [mkHw 0 LOW 100; mkHw 0 LOW 400; mkHw 0 HIGH 800] booted in
  pendingCount s = 0%nat /\ waitingForDoubleClick s = false /\
  lastPressDuration s = 700.
Proof.
  destruct (press_classified_by_held_time documented booted
              (mkHw 0 LOW 100) [mkHw 0 LOW 400] (mkHw 0 HIGH 800))
    as (Hu & Hl & Hw & Hc & Hd & Hp & Hlast & _).
  - repeat split.
  - cbn. lia.
  - reflexivity.
  - repeat constructor.
  - reflexivity.
  - repeat constructor.
  - cbn. lia.
  - repeat constructor; cbn; lia.
  - cbn [app] in *. unfold pendingCount. rewrite Hu, Hl, Hc, Hd, Hp.
    split; [reflexivity|]. split; [exact Hw|exact Hlast].
Defined.


(** *** A lone click *)

(** X4.  A single short press is reported as a click, exactly once, by the
    first [update()] that sees more than the pairing window elapsed since
    its release, and by none before: a draining caller is handed no click
    and no double click during the press, at the release, or at any sample
    taken within the window. *)
Theorem lone_click_after_window cfg d s p holds r idle :
  0 <= DOUBLE_CLICK_WINDOW cfg ->
  CLICK_TIMEOUT cfg <= LONG_PRESS_DURATION cfg ->
  CLICK_TIMEOUT cfg <= ULTRA_LONG_PRESS_DURATION cfg ->
  ClickInv None None d s -> shortPress cfg p holds r ->
  allLevel HIGH idle -> atRest d ((p :: holds) ++ [r] ++ idle) ->
  0 <= clock r - clock p < 2 ^ 32 -> noLap (clock r) idle ->
  let out := observe cfg ((p :: holds) ++ [r] ++ idle) s in
  deliveries Click out =
    Nat.b2n (existsb (fun hw => DOUBLE_CLICK_WINDOW cfg <? clock hw - clock r)
               idle) /\
  deliveries DoubleClick out = 0%nat /\
  deliveries Click (observe cfg ((p :: holds) ++ [r]) s) = 0%nat.
Proof.
  intros HW HL HU HI (Hp & Hh & Hr & Hs) Hidle Hrest Hlap1 Hlap2 out.
  subst out.
  apply Forall_app in Hrest. destruct Hrest as [R1 Hrest].
  apply Forall_app in Hrest. destruct Hrest as [Rr R2].
  apply Forall_inv in Rr.
  destruct (segment_no_release cfg d (p :: holds) None None s HI R1)
    as (C1 & D1 & I1).
  { cbn. split; [discriminate|]. rewrite Hp. apply noRelease_down, Hh. }
  { discriminate. }
  cbn [expires Nat.b2n] in C1, I1.
  assert (E1 : downAfter None (p :: holds) = Some (clock p)).
  { cbn. rewrite Hp. apply downAfter_down. }
  rewrite E1 in I1. clear E1.
  destruct (tick_release cfg d HW HL HU (clock p) None r _ I1 Rr Hr Hlap1 Hs)
    as (C2 & D2 & I2).
  cbn [isSome] in D2, I2.
  destruct (segment_no_release cfg d idle None (Some (clock r)) _ I2 R2)
    as (C3 & D3 & _).
  { apply noRelease_up, Hidle. }
  { intros tc [= <-]. exact Hlap2. }
  cbn [expires] in C3.
  set (seg := p :: holds) in *. clearbody seg.
  rewrite !observe_app, !deliveries_app, !deliveries_one.
  rewrite !after_one. cbn [pendingOf].
  rewrite C1, D1, C2, D2, C3, D3. auto.
Qed.

Lemma lone_click_after_window_witness :
  deliveries Click
    (observe documented
       [mkHw 0 LOW 100; mkHw 0 HIGH 200; mkHw 0 HIGH 600; mkHw 0 HIGH 601;
        mkHw 0 HIGH 900] booted) = 1%nat.
Proof.
  apply (lone_click_after_window documented 0 booted (mkHw 0 LOW 100) []
           (mkHw 0 HIGH 200)
           [mkHw 0 HIGH 600; mkHw 0 HIGH 601; mkHw 0 HIGH 900]).
  - cbn. lia.
  - cbn. lia.
  - cbn. lia.
  - repeat split.
  - split; [reflexivity|]. split; [constructor|].
    split; [reflexivity|]. cbn. lia.
  - repeat constructor.
  - repeat constructor.
  - cbn. lia.
  - repeat constructor; cbn; lia.
Defined.

(** *** The release of a press-and-rotate gesture *)

Lemma gesturing_release cfg dc s r :
  Gesturing dc s -> pin r = HIGH ->
  let s' := update cfg r s in
  clickPending s' = false /\ longPressPending s' = false /\
  ultraLongPressPending s' = false /\ waitingForDoubleClick s' = false /\
  doubleClickPending s' = dc /\ pressAndRotateActive s' = false /\
  lastButtonState s' = HIGH /\
  lastPressDuration s' = wrap32u (millis r - pressStartTime s).
Proof.
  intros (Hb & Ha & Hc & Hl & Hu & Hw & Hd) Hp. cbv zeta.
  enc_fields s r. enc_update; intuition (try lia; try congruence).
Qed.

(** X5.  The release that ends a press-and-rotate gesture raises no click,
    long press or ultra-long press, however long the switch was held, and
    opens no double-click wait; it ends the gesture.  The movement
    accumulated while the switch was down and not taken through
    [getPressAndRotateMovement()] is then handed out by [getMovement()]:
    the rotation made during the press is reported after the release. *)
Theorem press_and_rotate_release cfg dc s holds r :
  Gesturing dc s -> allLevel LOW holds -> pin r = HIGH ->
  - 2 ^ 31 <= movement s < 2 ^ 31 ->
  let s' := run cfg (holds ++ [r]) s in
  (clickPending s' = false /\ longPressPending s' = false /\
   ultraLongPressPending s' = false /\ waitingForDoubleClick s' = false /\
   doubleClickPending s' = dc) /\
  pressAndRotateActive s' = false /\
  (movementPending s = true ->
   forall hw, pin hw = HIGH ->
     fst (getMovement hw s') =
       wrap32s (movement s + (Z.quot (position r) 4 - lastValue s)) /\
     movement (snd (getMovement hw s')) = 0).
Proof.
  intros HG Hlow Hr R. cbv zeta.
  pose proof (gesturing_run cfg dc holds s HG Hlow) as HG'.
  destruct (gesturing_release cfg dc _ r HG' Hr)
    as (Hc & Hl & Hu & Hw & Hd & Ha & _).
  destruct (run_origin cfg (holds ++ [r]) s R) as (O & R' & P & L).
  cbv zeta in *. rewrite map_app in L. cbn [map] in L.
  rewrite last_last in L.
  pose proof (origin_movement _ (lastValue s - movement s) R' O) as M.
  rewrite L in M.
  replace (Z.quot (position r) 4 - (lastValue s - movement s))
    with (movement s + (Z.quot (position r) 4 - lastValue s)) in M by lia.
  unfold run in *. rewrite fold_left_app in *. cbn [fold_left] in *.
  split; [auto 6|]. split; [exact Ha|].
  intros Hp hw Hhw. specialize (P Hp).
  unfold getMovement, isButtonDown, digitalRead.
  rewrite Hhw, Ha, P. cbn. split; [exact M|reflexivity].
Qed.

Lemma press_and_rotate_release_witness :
  let s := run documented [mkHw 0 LOW 100; mkHw 8 LOW 200] booted in
  let s' := run documented [mkHw 12 LOW 2000; mkHw 12 HIGH 5000] s in
  pendingCount s' = 1%nat /\ pressAndRotatePending s' = true /\
  fst (getMovement (mkHw 12 HIGH 5000) s') = 3.
Proof.
  cbv zeta.
  destruct (press_and_rotate_release documented false
              (run documented [mkHw 0 LOW 100; mkHw 8 LOW 200] booted)
              [mkHw 12 LOW 2000] (mkHw 12 HIGH 5000))
    as ((Hc & Hl & Hu & _ & Hd) & _ & Hm).
  - repeat split.
  - repeat constructor.
  - reflexivity.
  - cbn. lia.
  - cbn [app] in *. unfold pendingCount. rewrite Hc, Hl, Hu, Hd.
    split; [reflexivity|]. split; [reflexivity|].
    exact (proj1 (Hm eq_refl (mkHw 12 HIGH 5000) eq_refl)).
Defined.

(** *** The two movement getters *)

(** X6.  The accumulated movement leaves the recogniser through one
    getter only: [getPressAndRotateMovement()] hands it out while a
    press-and-rotate gesture is active and is otherwise without effect;
    [getMovement()] is without effect while one is active; on no state do
    both return a movement, and what one has handed out neither returns
    again. *)
Theorem movement_through_one_getter hw s :
  let plain := getMovement hw s in
  let gesture := getPressAndRotateMovement s in
  (pressAndRotateActive s = false -> gesture = (0, s)) /\
  (pressAndRotateActive s = true -> plain = (0, s)) /\
  (pressAndRotateActive s = true -> movementPending s = true ->
   fst gesture = movement s /\ movement (snd gesture) = 0 /\
   movementPending (snd gesture) = false) /\
  (fst plain = 0 \/ fst gesture = 0) /\
  (forall hw', fst gesture <> 0 ->
     fst (getMovement hw' (snd gesture)) = 0 /\
     fst (getPressAndRotateMovement (snd gesture)) = 0) /\
  (forall hw', fst plain <> 0 ->
     fst (getMovement hw' (snd plain)) = 0 /\
     fst (getPressAndRotateMovement (snd plain)) = 0).
Proof.
  cbv zeta. unfold getMovement, getPressAndRotateMovement.
  enc_fields s hw.
  destruct act, mp, lvl; enc_red;
    (repeat split; auto; try discriminate; try congruence).
  all: try (intros [? [] ?] ?; enc_red; congruence).
  all: match goal with h : Hw |- _ => destruct h as [? [] ?] end;
    enc_red; congruence.
Qed.

(** *** The gesture getters *)

(** X7.  Each of the five gesture getters returns its flag and clears
    it, so that a second call returns [false] and changes nothing; it
    leaves the other four flags as they are; two getters can be called
    in either order with the same outcome; and a drain after it reports
    what a drain in its place would have, less this gesture. *)
Theorem gesture_getters_consume_once g g' s :
  let first := getterOf g s in
  fst first = pendingOf g s /\
  pendingOf g (snd first) = false /\
  getterOf g (snd first) = (false, snd first) /\
  (Gesture_eqb g g' = false ->
   pendingOf g' (snd first) = pendingOf g' s) /\
  snd (getterOf g' (snd first)) = snd (getterOf g (snd (getterOf g' s))) /\
  fst (drain (snd first)) = filter (fun h => negb (Gesture_eqb g h))
                              (fst (drain s)).
Proof.
  cbv zeta.
  destruct s as [lv mv mp lb pst lpd lct act wt cp dp lp up pp lbz un].
  unfold drain.
  destruct g, g'; cbn [getterOf Gesture_eqb]; enc_red;
    destruct cp, dp, lp, up, pp; enc_red; cbn;
    repeat split; auto; discriminate.
Qed.

(** *** The press-and-rotate event *)

Section Turned.
Variable cfg : Timing.

Lemma turning_tick s hw :
  Turning s -> pin hw = LOW ->
  pressAndRotatePending (update cfg hw s) = false /\
  Turning (snd (drain (update cfg hw s))).
Proof.
  intros (Hb & Ha & Hp) Hpin. rewrite drain_state. unfold Turning.
  enc_fields s hw. enc_update; auto.
Qed.

Lemma turning_run holds : forall s,
  Turning s -> allLevel LOW holds ->
  deliveries PressAndRotate (observe cfg holds s) = 0%nat.
Proof.
  induction holds as [|hw holds IH]; intros s HT Hlow; [reflexivity|].
  destruct (turning_tick s hw HT (Forall_inv Hlow)) as (Hp & HT').
  rewrite observe_cons, deliveries_cons, drain_filter. cbn [pendingOf].
  rewrite Hp, (IH _ HT' (Forall_inv_tail Hlow)). reflexivity.
Qed.

Lemma still_tick s hw :
  lastButtonState s = LOW -> pressAndRotateActive s = false ->
  pressAndRotatePending s = false ->
  pin hw = LOW -> Z.quot (position hw) 4 = lastValue s ->
  let s' := snd (drain (update cfg hw s)) in
  pressAndRotatePending (update cfg hw s) = false /\
  lastButtonState s' = LOW /\ pressAndRotateActive s' = false /\
  pressAndRotatePending s' = false /\ lastValue s' = lastValue s.
Proof.
  intros Hb Ha Hp Hpin Hrot. cbv zeta. rewrite drain_state.
  enc_fields s hw. enc_update; auto.
Qed.

End Turned.

(** X8.  Over a press, with the switch sampled down before and down on
    every sample, a caller that drains after every [update()] is handed
    the press-and-rotate event exactly once if the shaft leaves its
    detent, on the first sample that shows it, and never if it does not:
    further rotation during the same press raises no further event. *)
Theorem press_and_rotate_delivered_once cfg holds : forall s,
  lastButtonState s = LOW -> pressAndRotateActive s = false ->
  pressAndRotatePending s = false -> allLevel LOW holds ->
  deliveries PressAndRotate (observe cfg holds s) =
  Nat.b2n (existsb (fun hw => negb (Z.quot (position hw) 4 =? lastValue s))
             holds).
Proof.
  induction holds as [|hw holds IH]; intros s Hb Ha Hp Hlow; [reflexivity|].
  pose proof (Forall_inv Hlow) as Hpin. apply Forall_inv_tail in Hlow.
  rewrite observe_cons, deliveries_cons, drain_filter.
  cbn [pendingOf existsb].
  destruct (Z.eqb_spec (Z.quot (position hw) 4) (lastValue s)) as [E|N];
    cbn [negb orb].
  - destruct (still_tick cfg s hw Hb Ha Hp Hpin E)
      as (P & B' & A' & P' & V'). cbv zeta in *.
    rewrite P, (IH _ B' A' P' Hlow), V'. reflexivity.
  - destruct (first_rotation cfg s hw Hb Ha Hpin N) as (P & G).
    rewrite P, turning_run; [reflexivity| |exact Hlow].
    destruct G as (B' & A' & _). rewrite drain_state. unfold Turning.
    cbn. auto.
Qed.

Lemma press_and_rotate_delivered_once_witness :
  deliveries PressAndRotate
    (observe documented
       [mkHw 0 LOW 200; mkHw 4 LOW 300; mkHw 12 LOW 400; mkHw 4 LOW 500]
       (run documented [mkHw 0 LOW 100] booted)) = 1%nat.
Proof.
  apply (press_and_rotate_delivered_once documented
           [mkHw 0 LOW 200; mkHw 4 LOW 300; mkHw 12 LOW 400; mkHw 4 LOW 500]
           (run documented [mkHw 0 LOW 100] booted)).
  - reflexivity.
  - reflexivity.
  - reflexivity.
  - repeat constructor.
Defined.

(** *** Initialisation *)

(** X9.  [init()] takes the detent and the switch level it reads as the
    baseline: an [update()] that sees the same detent and level reports no
    movement and no press or release, leaving the press start and the last
    press duration as they were.  With the switch up, and no click waiting
    for its window, the five flags are as they were.  With the switch
    already down at [init()], no press edge is ever seen, so the hold is
    timed from the press start the recogniser already had, and the
    ultra-long press is raised as soon as the clock is the threshold past
    that. *)
Theorem init_takes_the_baseline cfg hw0 hw s :
  Z.quot (position hw) 4 = Z.quot (position hw0) 4 ->
  digitalRead hw = digitalRead hw0 ->
  let s1 := update cfg hw (init hw0 s) in
  lastValue s1 = Z.quot (position hw0) 4 /\
  movement s1 = movement s /\ movementPending s1 = movementPending s /\
  pressStartTime s1 = pressStartTime s /\
  lastPressDuration s1 = lastPressDuration s /\
  (digitalRead hw = HIGH -> waitingForDoubleClick s = false ->
   forall g, pendingOf g s1 = pendingOf g s) /\
  (digitalRead hw = LOW -> pressAndRotateActive s = false ->
   ultraLongPressNotified s = false ->
   ultraLongPressPending s1 =
     ultraLongPressPending s
     || (ULTRA_LONG_PRESS_DURATION cfg
           <=? wrap32u (millis hw - pressStartTime s))).
Proof.
  intros Hpos Hpin. cbv zeta. unfold init.
  destruct hw0 as [pos0 lvl0 clk0]. enc_fields s hw.
  destruct lvl0; repeat split; try discriminate;
    enc_update; reflexivity.
Qed.

Lemma init_takes_the_baseline_witness :
  ultraLongPressPending
    (update documented (mkHw 2 LOW 3000) (init (mkHw 1 LOW 40) fresh))
  = true.
Proof.
  destruct (init_takes_the_baseline documented (mkHw 1 LOW 40)
              (mkHw 2 LOW 3000) fresh)
    as (_ & _ & _ & _ & _ & _ & H).
  - reflexivity.
  - reflexivity.
  - rewrite H; reflexivity.
Defined.

End RecogniserFacts.

(** ** The blocks of a pass, further *)

Module PassFacts.
Import Machine Core Tactics CoreFacts.

Section Quiet.
Variable WIFI_REQUIRED : bool.

Lemma bootSequence_quiet env c :
  let c1 := bootSequence WIFI_REQUIRED env c in
  untouched c c1 /\ setupURLs c1 = setupURLs c /\
  wifiConnecteds c1 = wifiConnecteds c /\
  clientWasConnected c1 = clientWasConnected c.
Proof.
  cbv zeta. unfold bootSequence, handleBootingState.
  destruct env as [clk ws wsa sid lip aip hc inb].
  destruct c as [cs sst cyc evp lhc lws cwc enc wf web led orch dsp eff].
  destruct cs; core_red; try (core_tally; core_done; fail).
  destruct (4000 <=? _); [|core_tally; core_done].
  destruct WIFI_REQUIRED, wf, orch; core_tally; core_done.
Qed.

Lemma onWiFiChange_quiet env c :
  let c' := onWiFiChange env c in
  untouched c c' /\ setupURLs c' = setupURLs c /\
  clientWasConnected c' = clientWasConnected c /\
  wifiConnecteds c' =
    (wifiConnecteds c
     + if WiFiState_eqb (wifiState env) WS_CONNECTED
       then Nat.b2n (appOrchestrator c) else 0)%nat.
Proof.
  cbv zeta. unfold onWiFiChange.
  destruct env as [clk ws wsa sid lip aip hc inb].
  unfold wifiState, apIP, ssid.
  destruct c as [cs sst cyc evp lhc lws cwc enc wf web led orch dsp eff].
  destruct ws; core_still; core_flags; core_state; core_still; core_flags;
    core_tally; core_done.
Qed.

Lemma monitorAPClients_quiet env c :
  let c' := monitorAPClients env c in
  let inAP := WiFiState_eqb (wifiState env) WS_AP_MODE && wifi c in
  untouched c c' /\ wifiConnecteds c' = wifiConnecteds c /\
  lastWiFiState c' = lastWiFiState c /\
  setupURLs c' =
    (setupURLs c
     + if inAP then Nat.b2n (hasAPClient env && negb (clientWasConnected c))
       else 0)%nat /\
  clientWasConnected c' =
    (if inAP then hasAPClient env else clientWasConnected c).
Proof.
  cbv zeta. unfold monitorAPClients.
  destruct env as [clk ws wsa sid lip aip hc inb].
  unfold wifiState, apIP, hasAPClient.
  destruct c as [cs sst cyc evp lhc lws cwc enc wf web led orch dsp eff].
  destruct ws, wf, led, hc, cwc; core_tally; core_done.
Qed.

Lemma wifiManagement_quiet env c :
  let c2 := wifiManagement env c in
  let inAP := WiFiState_eqb (wifiState env) WS_AP_MODE && wifi c in
  untouched c c2 /\
  (wifi c = true -> lastWiFiState c2 = wifiState env) /\
  (wifi c = false -> c2 = c) /\
  setupURLs c2 =
    (setupURLs c
     + if inAP then Nat.b2n (hasAPClient env && negb (clientWasConnected c))
       else 0)%nat /\
  clientWasConnected c2 =
    (if inAP then hasAPClient env else clientWasConnected c) /\
  wifiConnecteds c2 =
    (wifiConnecteds c
     + if wifi c && negb (WiFiState_eqb (wifiState env) (lastWiFiState c))
          && WiFiState_eqb (wifiState env) WS_CONNECTED
       then Nat.b2n (appOrchestrator c) else 0)%nat.
Proof.
  cbv zeta. unfold wifiManagement.
  destruct (wifi c) eqn:Hw.
  2:{ rewrite andb_false_r. cbn [andb]. unfold untouched.
      repeat split; auto; try discriminate. }
  rewrite andb_true_r. cbn [andb].
  unfold handleWiFiConnection.
  set (c0 := call WifiUpdate c).
  assert (H0 : untouched c c0 /\ setupURLs c0 = setupURLs c /\
               clientWasConnected c0 = clientWasConnected c /\
               wifiConnecteds c0 = wifiConnecteds c /\
               lastWiFiState c0 = lastWiFiState c /\ wifi c0 = wifi c /\
               appOrchestrator c0 = appOrchestrator c).
  { subst c0. clear. core_fields c. core_tally. core_done. }
  destruct H0 as ((U1 & U2 & U3 & U4 & U5 & U6 & U7)
                  & S0 & K0 & W0 & L0 & A0 & P0).
  clearbody c0. rewrite L0.
  set (c1 := if negb (WiFiState_eqb (wifiState env) (lastWiFiState c))
             then onWiFiChange env (set_lastWiFiState (wifiState env) c0)
             else c0).
  assert (H1 : untouched c0 c1 /\ setupURLs c1 = setupURLs c0 /\
               clientWasConnected c1 = clientWasConnected c0 /\
               wifi c1 = wifi c0 /\ lastWiFiState c1 = wifiState env /\
               wifiConnecteds c1 =
                 (wifiConnecteds c0
                  + if negb (WiFiState_eqb (wifiState env) (lastWiFiState c))
                       && WiFiState_eqb (wifiState env) WS_CONNECTED
                    then Nat.b2n (appOrchestrator c) else 0)%nat).
  { subst c1.
    destruct (WiFiState_eqb_spec (wifiState env) (lastWiFiState c)) as [E|N];
      cbn [negb andb].
    - unfold untouched. repeat split; auto; congruence.
    - destruct (onWiFiChange_quiet env
                  (set_lastWiFiState (wifiState env) c0))
        as ((V1 & V2 & V3 & V4 & V5 & V6 & V7) & S1 & K1 & W1).
      destruct (onWiFiChange_frame env
                  (set_lastWiFiState (wifiState env) c0))
        as ((F1 & _) & _ & _ & FL & _).
      cbv zeta in *.
      assert (H2 : untouched c0 (set_lastWiFiState (wifiState env) c0) /\
                   setupURLs (set_lastWiFiState (wifiState env) c0)
                     = setupURLs c0 /\
                   clientWasConnected (set_lastWiFiState (wifiState env) c0)
                     = clientWasConnected c0 /\
                   wifiConnecteds (set_lastWiFiState (wifiState env) c0)
                     = wifiConnecteds c0 /\
                   wifi (set_lastWiFiState (wifiState env) c0) = wifi c0 /\
                   appOrchestrator (set_lastWiFiState (wifiState env) c0)
                     = appOrchestrator c0 /\
                   lastWiFiState (set_lastWiFiState (wifiState env) c0)
                     = wifiState env).
      { clear. core_fields c0. core_tally. core_done. }
      destruct H2 as ((X1 & X2 & X3 & X4 & X5 & X6 & X7)
                      & S2 & K2 & W2 & A2 & P2 & L2).
      unfold untouched. rewrite W1, W2, P2, P0.
      repeat split; congruence. }
  destruct H1 as ((V1 & V2 & V3 & V4 & V5 & V6 & V7)
                  & S1 & K1 & A1 & L1 & W1).
  clearbody c1.
  destruct (monitorAPClients_quiet env c1)
    as ((M1 & M2 & M3 & M4 & M5 & M6 & M7) & MW & ML & MS & MK).
  cbv zeta in *. rewrite A1, A0, Hw, andb_true_r in MS, MK.
  unfold untouched. rewrite MS, MK, MW, W1, K1, K0, S1, S0, W0.
  repeat split; try congruence.
Qed.

Lemma webServerUpdates_quiet env c :
  let c3 := webServerUpdates env c in
  untouched c c3 /\ setupURLs c3 = setupURLs c /\
  wifiConnecteds c3 = wifiConnecteds c /\
  clientWasConnected c3 = clientWasConnected c.
Proof.
  cbv zeta. unfold webServerUpdates.
  destruct env as [clk ws wsa sid lip aip hc inb]. unfold wifiStateAfter.
  core_fields c. core_cases; core_tally; core_done.
Qed.

Lemma autoTransition_quiet env c c4 :
  autoTransition env c = Some c4 ->
  untouched c c4 /\ setupURLs c4 = setupURLs c /\
  wifiConnecteds c4 = wifiConnecteds c /\
  clientWasConnected c4 = clientWasConnected c.
Proof.
  unfold autoTransition.
  destruct (SystemState_eqb_spec (currentState c) READY) as [E|N].
  - unfold start. rewrite E. cbn [SystemState_eqb negb].
    destruct (ledManager c) eqn:L; [|discriminate]. intros [= <-].
    core_fields c. core_tally. core_done.
  - intros [= <-]. unfold untouched. repeat split; auto.
Qed.

Lemma dispatch_quiet event c :
  let c' := dispatch event c in
  (encoder c' = encoder c /\ display c' = display c /\
   coordinationCycles c' = coordinationCycles c /\
   lastHealthCheck c' = lastHealthCheck c /\
   clientWasConnected c' = clientWasConnected c /\
   appOrchestrator c' = appOrchestrator c) /\
  (uiCalls c' = uiCalls c /\ healthChecks c' = healthChecks c /\
   setupURLs c' = setupURLs c) /\
  (fromUITask event = true -> wifiConnecteds c' = wifiConnecteds c) /\
  eventsProcessed c' = wrap32u (eventsProcessed c + 1) /\
  handedToApp (effects c') =
    handedToApp (effects c) ++ (if appOrchestrator c then [event] else []) /\
  sentToUI (effects c') =
    sentToUI (effects c) ++ (if forwarded event then [event] else []).
Proof.
  cbv zeta. unfold dispatch, handleEncoderRotation, handleEncoderClick,
    handleEncoderLongPress, forwarded, handedToApp, sentToUI.
  destruct event as [ty v sd]. core_fields c.
  destruct ty, led, orch; core_tally;
    rewrite ?flat_map_app; cbn [flat_map app]; rewrite ?app_nil_r;
    core_done; discriminate.
Qed.

Lemma processEvents_quiet env : forall c,
  let c' := processEvents env c in
  (encoder c' = encoder c /\ display c' = display c /\
   coordinationCycles c' = coordinationCycles c /\
   lastHealthCheck c' = lastHealthCheck c /\
   clientWasConnected c' = clientWasConnected c /\
   appOrchestrator c' = appOrchestrator c) /\
  (uiCalls c' = uiCalls c /\ healthChecks c' = healthChecks c /\
   setupURLs c' = setupURLs c) /\
  (inboundFromUI env -> wifiConnecteds c' = wifiConnecteds c) /\
  wrap32u (eventsProcessed c') =
    wrap32u (eventsProcessed c + Z.of_nat (List.length (inbound env))).
Proof.
  unfold processEvents, inboundFromUI.
  induction (inbound env) as [|e rest IH]; intros c; cbv zeta.
  - cbn [fold_left List.length Z.of_nat]. rewrite Z.add_0_r.
    repeat split; auto.
  - cbn [fold_left].
    destruct (dispatch_quiet e c)
      as ((A1 & A2 & A3 & A4 & A5 & A6) & (B1 & B2 & B3) & W & E & _).
    destruct (IH (dispatch e c))
      as ((A1' & A2' & A3' & A4' & A5' & A6') & (B1' & B2' & B3') & W' & E').
    cbv zeta in *.
    split; [repeat split; congruence|].
    split; [repeat split; congruence|]. split.
    + intros HF. rewrite W' by exact (Forall_inv_tail HF).
      apply W. exact (Forall_inv HF).
    + rewrite E', E. unfold wrap32u.
      rewrite Zplus_mod_idemp_l. f_equal.
      change (List.length (e :: rest)) with (S (List.length rest)). lia.
Qed.

End Quiet.

Section QuietPass.
Variable WIFI_REQUIRED : bool.

Lemma housekeeping_quiet env c :
  let c' := housekeeping env c in
  let due := 5000 <? wrap32u (millis env - lastHealthCheck c) in
  (encoder c' = encoder c /\ display c' = display c /\
   clientWasConnected c' = clientWasConnected c) /\
  (uiCalls c' = uiCalls c /\ setupURLs c' = setupURLs c) /\
  (inboundFromUI env -> wifiConnecteds c' = wifiConnecteds c) /\
  coordinationCycles c' = wrap32u (coordinationCycles c + 1) /\
  wrap32u (eventsProcessed c') =
    wrap32u (eventsProcessed c + Z.of_nat (List.length (inbound env))) /\
  healthChecks c' = (healthChecks c + Nat.b2n due)%nat /\
  lastHealthCheck c' = (if due then millis env else lastHealthCheck c).
Proof.
  cbv zeta. unfold housekeeping.
  set (c1 := guarded (appOrchestrator c) AppUpdate c).
  assert (H1 : (encoder c1 = encoder c /\ display c1 = display c /\
                coordinationCycles c1 = coordinationCycles c /\
                lastHealthCheck c1 = lastHealthCheck c /\
                clientWasConnected c1 = clientWasConnected c /\
                eventsProcessed c1 = eventsProcessed c) /\
               uiCalls c1 = uiCalls c /\ healthChecks c1 = healthChecks c /\
               setupURLs c1 = setupURLs c /\
               wifiConnecteds c1 = wifiConnecteds c).
  { subst c1. core_fields c. core_cases; core_tally; core_done. }
  destruct H1 as ((A1 & A2 & A3 & A4 & A5 & A6) & B1 & B2 & B3 & B4).
  destruct (processEvents_quiet env c1)
    as ((A1' & A2' & A3' & A4' & A5' & _) & (B1' & B2' & B3') & W' & E').
  set (c2 := processEvents env c1) in *. clearbody c2 c1.
  assert (H3 : forall c3,
    c3 = (if 5000 <? wrap32u (millis env - lastHealthCheck
            (set_coordinationCycles (wrap32u (coordinationCycles c2 + 1)) c2))
          then set_lastHealthCheck (millis env)
                 (call CheckHealth
                    (set_coordinationCycles
                       (wrap32u (coordinationCycles c2 + 1)) c2))
          else set_coordinationCycles
                 (wrap32u (coordinationCycles c2 + 1)) c2) ->
    (encoder c3 = encoder c2 /\ display c3 = display c2 /\
     clientWasConnected c3 = clientWasConnected c2 /\
     eventsProcessed c3 = eventsProcessed c2) /\
    (uiCalls c3 = uiCalls c2 /\ setupURLs c3 = setupURLs c2 /\
     wifiConnecteds c3 = wifiConnecteds c2) /\
    coordinationCycles c3 = wrap32u (coordinationCycles c2 + 1) /\
    healthChecks c3 =
      (healthChecks c2
       + Nat.b2n (5000 <? wrap32u (millis env - lastHealthCheck c2))%Z)%nat /\
    lastHealthCheck c3 =
      (if 5000 <? wrap32u (millis env - lastHealthCheck c2)
       then millis env else lastHealthCheck c2)).
  { intros c3 ->. clear. core_fields c2.
    destruct (5000 <? wrap32u (millis env - lhc)); core_tally; core_done. }
  destruct (H3 _ eq_refl)
    as ((C1 & C2 & C3 & C4) & (D1 & D2 & D3) & F1 & F2 & F3).
  split; [repeat split; congruence|].
  split; [repeat split; congruence|].
  split; [intros HF; rewrite D3, (W' HF), B4; reflexivity|].
  split; [congruence|]. split; [congruence|].
  rewrite F2, F3, B2', B2, A4', A4. split; reflexivity.
Qed.

(** One pass, for the observations of this section. *)
Lemma pass_quiet env c c' :
  coordinationLoop WIFI_REQUIRED env c = Some c' ->
  let due := 5000 <? wrap32u (millis env - lastHealthCheck c) in
  let inAP := WiFiState_eqb (wifiState env) WS_AP_MODE && wifi c in
  (encoder c' = encoder c /\ display c' = display c /\
   uiCalls c' = uiCalls c) /\
  (coordinationCycles c' = wrap32u (coordinationCycles c + 1) /\
   wrap32u (eventsProcessed c') =
     wrap32u (eventsProcessed c + Z.of_nat (List.length (inbound env))) /\
   healthChecks c' = (healthChecks c + Nat.b2n due)%nat /\
   lastHealthCheck c' = (if due then millis env else lastHealthCheck c)) /\
  (setupURLs c' =
     (setupURLs c
      + if inAP
        then Nat.b2n (hasAPClient env && negb (clientWasConnected c))
        else 0)%nat /\
   clientWasConnected c' =
     (if inAP then hasAPClient env else clientWasConnected c)) /\
  (wifi c = true -> lastWiFiState c' = wifiState env) /\
  (inboundFromUI env ->
   wifiConnecteds c' =
     (wifiConnecteds c
      + if wifi c && negb (WiFiState_eqb (wifiState env) (lastWiFiState c))
           && WiFiState_eqb (wifiState env) WS_CONNECTED
        then Nat.b2n (appOrchestrator c) else 0)%nat).
Proof.
  unfold coordinationLoop. cbv zeta.
  destruct (bootSequence_quiet WIFI_REQUIRED env c)
    as ((A1 & A2 & A3 & A4 & A5 & A6 & A7) & AS & AW & AK).
  destruct (bootSequence_frame WIFI_REQUIRED env c)
    as ((AA1 & AA2 & AA3 & AA4) & AL & _).
  set (c1 := bootSequence WIFI_REQUIRED env c) in *. clearbody c1.
  destruct (wifiManagement_quiet env c1)
    as ((B1 & B2 & B3 & B4 & B5 & B6 & B7) & BL & _ & BS & BK & BW).
  destruct (wifiManagement_frame env c1)
    as ((BA1 & _) & _).
  set (c2 := wifiManagement env c1) in *. clearbody c2.
  destruct (webServerUpdates_quiet env c2)
    as ((C1 & C2 & C3 & C4 & C5 & C6 & C7) & CS & CW & CK).
  destruct (webServerUpdates_frame env c2)
    as (_ & _ & _ & _ & CL).
  set (c3 := webServerUpdates env c2) in *. clearbody c3.
  destruct (autoTransition env c3) as [c4|] eqn:E4; [|discriminate].
  intros [= <-].
  destruct (autoTransition_quiet env c3 c4 E4)
    as ((D1 & D2 & D3 & D4 & D5 & D6 & D7) & DS & DW & DK).
  destruct (autoTransition_frame env c3 c4 E4)
    as (_ & DL & _).
  destruct (housekeeping_quiet env c4)
    as ((F1 & F2 & F3) & (G1 & G2) & GW & H1 & H2 & H3 & H4).
  destruct (housekeeping_frame env c4) as (_ & _ & HL & _).
  set (c5 := housekeeping env c4) in *. clearbody c5.
  cbv zeta in *.
  assert (Ecyc : coordinationCycles c4 = coordinationCycles c) by congruence.
  assert (Eevp : eventsProcessed c4 = eventsProcessed c) by congruence.
  assert (Elhc : lastHealthCheck c4 = lastHealthCheck c) by congruence.
  assert (Ehc : healthChecks c4 = healthChecks c) by congruence.
  assert (Esu : setupURLs c4 = setupURLs c2) by congruence.
  assert (Ecw : clientWasConnected c4 = clientWasConnected c2)
    by congruence.
  rewrite H1, H2, H3, H4, Ecyc, Eevp, Elhc, Ehc, G2, F3, Esu, Ecw, BS, BK.
  rewrite AS, AK, AA1.
  split; [repeat split; congruence|]. split; [repeat split|].
  split; [repeat split|]. split.
  - intros Hw. rewrite <- BL by congruence. congruence.
  - intros HF. rewrite (GW HF), DW, CW, BW, AW, AA1, AL, AA4. reflexivity.
Qed.

End QuietPass.

End PassFacts.

(** ** The UI task *)

Module UITaskFacts.
Import Machine Core Tactics MachineFacts CoreFacts PassFacts.

Lemma mainSide_trans a b c : mainSide a b -> mainSide b c -> mainSide a c.
Proof.
  unfold mainSide, sameAttached.
  intros (A1 & A2 & A3 & A4 & A5 & A6 & A7 & (A8 & A9 & A10 & A11) & A12 & A13)
    (B1 & B2 & B3 & B4 & B5 & B6 & B7 & (B8 & B9 & B10 & B11) & B12 & B13).
  repeat split; congruence.
Qed.

Lemma sendToMain_side (b : bool) ev c :
  let c' := if b then call (SendToMain ev) c else c in
  mainSide c c' /\ encoder c' = encoder c /\
  forall t,
    sentValues t (effects c') =
      sentValues t (effects c)
      ++ (if b && EventType_eqb (type ev) t then [value ev] else []).
Proof.
  cbv zeta. unfold mainSide, sameAttached, mainCalls, sentValues.
  destruct b; cbn [andb].
  2:{ repeat split; auto. intros t. rewrite app_nil_r. reflexivity. }
  destruct c. unfold call. cbn. rewrite filter_app. cbn.
  rewrite app_nil_r. repeat split; auto.
  intros t. rewrite flat_map_app. cbn. rewrite app_nil_r. reflexivity.
Qed.

Lemma set_encoder_side enc c :
  let c' := set_encoder (Some enc) c in
  mainSide c c' /\ encoder c' = Some enc /\ effects c' = effects c.
Proof. cbv zeta. unfold mainSide, sameAttached. destruct c. cbn. auto 15. Qed.

Lemma displayUpdate_side c :
  let c' := guarded (display c) DisplayUpdate c in
  mainSide c c' /\ encoder c' = encoder c /\
  forall t, sentValues t (effects c') = sentValues t (effects c).
Proof.
  cbv zeta. unfold mainSide, sameAttached, mainCalls, sentValues, guarded.
  destruct c as [cs sst cyc evp lhc lws cwc enc wf web led orch dsp eff].
  destruct dsp; cbn; [|auto 15].
  rewrite filter_app. cbn. rewrite app_nil_r. repeat split; auto.
  intros t. rewrite flat_map_app. cbn. apply app_nil_r.
Qed.

(** One iteration, in terms of what the getters return. *)
Lemma pollEncoder_side cfg reads enc c :
  let enc1 := EncoderManager.update cfg (atUpdate reads) enc in
  let enc2 := snd (EncoderManager.getMovement (atGetMovement reads) enc1) in
  let enc3 := snd (EncoderManager.getClicked enc2) in
  let enc4 := snd (EncoderManager.getLongPressed enc3) in
  let pressTime := EncoderManager.getPressTime (atGetPressTime reads) enc4 in
  let pressDuration := EncoderManager.getLastPressDuration enc4 in
  let c' := pollEncoder cfg reads enc c in
  mainSide c c' /\
  encoder c' =
    Some (if negb (pressDuration =? 0)
          then snd (EncoderManager.resetLastPressDuration enc4) else enc4) /\
  releases c' =
    releases c ++ (if negb (pressDuration =? 0) then [pressDuration] else [])
  /\
  pressTimes c' =
    pressTimes c ++ (if negb (pressTime =? 0) then [pressTime] else []).
Proof.
  cbv zeta. unfold pollEncoder, releases, pressTimes.
  destruct reads as [hw hwM hwP].
  cbn [atUpdate atGetMovement atGetPressTime].
  generalize (EncoderManager.update cfg hw enc). intros enc1.
  destruct (EncoderManager.getMovement hwM enc1) as [m enc2]. cbn [snd].
  destruct (EncoderManager.getClicked enc2) as [k enc3]. cbn [snd].
  destruct (EncoderManager.getLongPressed enc3) as [l enc4]. cbn [snd].
  cbv zeta.
  destruct (sendToMain_side (negb (m =? 0)) (Event2 ENCODER_ROTATION m) c)
    as (M1 & E1 & V1).
  set (c1 := if negb (m =? 0) then _ else c) in *. clearbody c1.
  destruct (sendToMain_side k (Event1 ENCODER_CLICK) c1) as (M2 & E2 & V2).
  set (c2 := if k then _ else c1) in *. clearbody c2.
  destruct (sendToMain_side l (Event1 ENCODER_LONG_PRESS) c2)
    as (M3 & E3 & V3).
  set (c3 := if l then _ else c2) in *. clearbody c3.
  destruct (sendToMain_side
              (negb (EncoderManager.getPressTime hwP enc4 =? 0))
              (Event2 ENCODER_PRESS_TIME
                 (EncoderManager.getPressTime hwP enc4)) c3)
    as (M4 & E4 & V4).
  set (c4 := if negb (EncoderManager.getPressTime hwP enc4 =? 0)
             then _ else c3) in *. clearbody c4.
  destruct (sendToMain_side
              (negb (EncoderManager.getLastPressDuration enc4 =? 0))
              (Event2 ENCODER_BUTTON_RELEASED
                 (EncoderManager.getLastPressDuration enc4)) c4)
    as (M5 & E5 & V5).
  cbv zeta in *.
  pose proof (V1 ENCODER_BUTTON_RELEASED) as R1.
  pose proof (V2 ENCODER_BUTTON_RELEASED) as R2.
  pose proof (V3 ENCODER_BUTTON_RELEASED) as R3.
  pose proof (V4 ENCODER_BUTTON_RELEASED) as R4.
  pose proof (V5 ENCODER_BUTTON_RELEASED) as R5.
  pose proof (V1 ENCODER_PRESS_TIME) as P1.
  pose proof (V2 ENCODER_PRESS_TIME) as P2.
  pose proof (V3 ENCODER_PRESS_TIME) as P3.
  pose proof (V4 ENCODER_PRESS_TIME) as P4.
  pose proof (V5 ENCODER_PRESS_TIME) as P5.
  clear V1 V2 V3 V4 V5.
  cbn [type value Event1 Event2 EventType_eqb andb] in *.
  rewrite ?andb_false_r, ?andb_true_r, ?app_nil_r in *.
  destruct (negb (EncoderManager.getLastPressDuration enc4 =? 0));
    match goal with
    | |- context [set_encoder (Some ?e) ?x] =>
        destruct (set_encoder_side e x) as (M6 & E6 & F6)
    end;
    cbv zeta in *; rewrite E6, F6;
    (split; [|split; [reflexivity|split; congruence]]);
    repeat (eapply mainSide_trans; [eassumption|]); exact M6.
Qed.

Lemma uiIteration_quiet cfg reads c :
  let c' := uiIteration cfg reads c in mainSide c c'.
Proof.
  cbv zeta. unfold uiIteration.
  destruct (encoder c) as [enc|].
  - destruct (pollEncoder_side cfg reads enc c) as (M & E & _).
    cbv zeta in *.
    eapply mainSide_trans; [exact M|].
    apply (displayUpdate_side (pollEncoder cfg reads enc c)).
  - apply (displayUpdate_side c).
Qed.

(** *** The press-time and button-released events *)

Section Released.
Import EncoderManager Client.
Variable cfg : Timing.

Lemma getters_keep_press hw s :
  let s' :=
    snd (getLongPressed (snd (getClicked (snd (getMovement hw s))))) in
  lastPressDuration s' = lastPressDuration s /\
  lastButtonState s' = lastButtonState s /\
  pressStartTime s' = pressStartTime s.
Proof.
  cbv zeta. unfold getMovement. enc_fields s hw.
  destruct lvl, act, mp, cp, lp; enc_red; auto.
Qed.

Lemma update_press hw s :
  let s' := update cfg hw s in
  let edge := negb (Bool.eqb (pin hw) (lastButtonState s)) in
  lastButtonState s' = pin hw /\
  lastPressDuration s' =
    (if edge && pin hw then wrap32u (millis hw - pressStartTime s)
     else lastPressDuration s) /\
  pressStartTime s' =
    (if edge && negb (pin hw) then millis hw else pressStartTime s).
Proof.
  cbv zeta. enc_fields s hw. destruct lvl, lb; enc_update; auto.
Qed.

(** One iteration of the UI task, by the level its [update()] samples and
    what [getPressTime()] reads afterwards. *)
Lemma uiIteration_sample reads c enc :
  encoder c = Some enc ->
  let hw := atUpdate reads in
  let again := atGetPressTime reads in
  let edge := negb (Bool.eqb (pin hw) (lastButtonState enc)) in
  let start := if edge && negb (pin hw) then millis hw
               else pressStartTime enc in
  let time := if pin again then 0 else wrap32u (millis again - start) in
  let held := if edge && pin hw
              then wrap32u (millis hw - pressStartTime enc)
              else lastPressDuration enc in
  0 <= time < 2 ^ 31 -> 0 <= held < 2 ^ 31 ->
  let c' := uiIteration cfg reads c in
  (exists enc', encoder c' = Some enc' /\ lastButtonState enc' = pin hw /\
                pressStartTime enc' = start /\ lastPressDuration enc' = 0) /\
  releases c' = releases c ++ (if held =? 0 then [] else [held]) /\
  pressTimes c' = pressTimes c ++ (if time =? 0 then [] else [time]).
Proof.
  intros He hw again edge start time held Ht Hh. cbv zeta.
  unfold uiIteration. rewrite He.
  destruct (pollEncoder_side cfg reads enc c) as (_ & E & R & P).
  destruct (displayUpdate_side (pollEncoder cfg reads enc c))
    as (_ & E' & V').
  cbv zeta in *. unfold releases, pressTimes in *.
  rewrite E', !V', E, R, P. clear E E' R P V'.
  fold hw. fold again.
  destruct (update_press hw enc) as (B1 & D1 & S1).
  destruct (getters_keep_press (atGetMovement reads) (update cfg hw enc))
    as (D2 & B2 & S2).
  cbv zeta in *. fold edge in D1, S1. fold start in S1. fold held in D1.
  set (enc4 := snd (getLongPressed _)) in *. clearbody enc4.
  rewrite <- D2 in D1. rewrite <- B2 in B1. rewrite <- S2 in S1.
  assert (Et : getPressTime again enc4 = time).
  { unfold getPressTime, getCurrentPressTime, digitalRead. rewrite S1.
    subst time. destruct (pin again); cbn [Bool.eqb]; [reflexivity|].
    unfold wrap32s. rewrite Z.mod_small by lia. lia. }
  assert (Eh : getLastPressDuration enc4 = held).
  { unfold getLastPressDuration. rewrite D1.
    unfold wrap32s. rewrite Z.mod_small by lia. lia. }
  rewrite Et, Eh.
  destruct (Z.eqb_spec held 0) as [Z|NZ], (Z.eqb_spec time 0) as [Z'|NZ'];
    cbn [negb]; (split; [|split; reflexivity]).
  1,2: exists enc4; repeat split; congruence.
  all: eexists; (split; [reflexivity|]);
    unfold resetLastPressDuration; rewrite D1;
    (destruct (Z.ltb_spec 0 held); [|lia]);
    destruct enc4; cbn in *; repeat split; congruence.
Qed.

(** Iterations whose [update()] samples the level of the one before. *)
Lemma uiTask_settled level t0 run : forall c,
  Settled level t0 c -> allLevel level (map atUpdate run) ->
  Forall (fun reads => 0 <= clock (atGetPressTime reads) - t0 < 2 ^ 31)
    run ->
  let c' := uiTask cfg run c in
  Settled level t0 c' /\ releases c' = releases c /\
  pressTimes c' =
    pressTimes c
    ++ filter (fun v => negb (v =? 0)) (map (reportedPressTime t0) run).
Proof.
  induction run as [|h run IH]; intros c HS Hlevel Hlap; cbv zeta.
  - cbn. rewrite app_nil_r. auto.
  - unfold uiTask. cbn [fold_left map filter].
    destruct HS as (enc & E & B & S & D).
    cbn [map] in Hlevel.
    pose proof (Forall_inv Hlevel) as Hp. pose proof (Forall_inv Hlap) as Ht.
    cbv beta in Hp, Ht. apply Forall_inv_tail in Hlevel, Hlap.
    pose proof (elapsed_exact t0 (clock (atGetPressTime h))) as X.
    destruct (uiIteration_sample h c enc E)
      as ((enc' & E' & B' & S' & D') & R & P).
    { rewrite Hp, B, S, eqb_reflx. cbn [negb andb]. unfold millis.
      destruct (pin (atGetPressTime h)); [lia|]. rewrite X; lia. }
    { rewrite Hp, B, eqb_reflx. cbn [negb andb]. rewrite D. lia. }
    cbv zeta in *. rewrite Hp, B, S, eqb_reflx in *.
    cbn [negb andb] in R, P, S'.
    rewrite D in R. cbn in R. rewrite app_nil_r in R.
    destruct (IH (uiIteration cfg h c)) as (HS' & R' & P');
      try assumption.
    { exists enc'. auto. }
    cbv zeta in *. unfold uiTask in *. split; [exact HS'|].
    split; [congruence|]. rewrite P', P, <- app_assoc. f_equal.
    unfold reportedPressTime, millis.
    destruct (pin (atGetPressTime h)); [reflexivity|].
    rewrite X by lia. cbn [app].
    destruct (clock (atGetPressTime h) - t0 =? 0); reflexivity.
Qed.

End Released.

(** X10.  In every iteration [getPressTime()] reads the switch and the
    clock for itself, after [update()]: the UI task sends the main task a
    press-time event whenever that reading shows the switch down, carrying
    the time from the [update()] sample that showed the press to that
    reading of the clock, and none when that time is 0.  So the iteration
    that samples the press reports the milliseconds gone by since its own
    [update()], and none only if the counter has not moved; and an
    iteration whose [update()] saw the switch up still reports a press
    time if the switch is down when [getPressTime()] reads it.  The
    iteration whose [update()] samples the release sends one
    button-released event, carrying the time between the two [update()]
    samples, and clears the latch; no other iteration sends one.  A
    release sampled in the millisecond of the press sends none. *)
Theorem press_and_release_reported cfg c enc p holds r idle :
  encoder c = Some enc ->
  EncoderManager.lastButtonState enc = HIGH ->
  EncoderManager.lastPressDuration enc = 0 ->
  EncoderManager.pin (atUpdate p) = LOW ->
  Client.allLevel LOW (map atUpdate holds) ->
  EncoderManager.pin (atUpdate r) = HIGH ->
  Client.allLevel HIGH (map atUpdate idle) ->
  let t0 := EncoderManager.clock (atUpdate p) in
  0 <= EncoderManager.clock (atUpdate r) - t0 < 2 ^ 31 ->
  Forall (fun reads =>
            0 <= EncoderManager.clock (atGetPressTime reads) - t0 < 2 ^ 31)
    (p :: holds ++ r :: idle) ->
  let held := EncoderManager.clock (atUpdate r) - t0 in
  let c' := uiTask cfg (p :: holds ++ r :: idle) c in
  pressTimes c' =
    pressTimes c
    ++ filter (fun v => negb (v =? 0))
         (map (reportedPressTime t0) (p :: holds ++ r :: idle)) /\
  releases c' = releases c ++ (if held =? 0 then [] else [held]).
Proof.
  intros He Hb Hd Hp Hlow Hr Hidle t0 Hheld Hlap. cbv zeta.
  pose proof (Forall_inv Hlap) as Hlp. apply Forall_inv_tail in Hlap.
  apply Forall_app in Hlap. destruct Hlap as [Hlh Hlap].
  pose proof (Forall_inv Hlap) as Hlr. apply Forall_inv_tail in Hlap.
  cbv beta in Hlp, Hlr.
  unfold uiTask. cbn [fold_left]. rewrite fold_left_app. cbn [fold_left].
  fold (uiTask cfg holds (uiIteration cfg p c)).
  set (c2 := uiTask cfg holds (uiIteration cfg p c)).
  fold (uiTask cfg idle (uiIteration cfg r c2)).
  cbn [map filter]. rewrite map_app, filter_app. cbn [map filter].
  (* the press *)
  pose proof (elapsed_exact t0 (EncoderManager.clock (atGetPressTime p)))
    as Xp.
  destruct (uiIteration_sample cfg p c enc He)
    as ((enc1 & E1 & B1 & S1 & D1) & R1 & P1).
  { rewrite Hp, Hb. cbn [negb Bool.eqb andb]. unfold EncoderManager.millis.
    destruct (EncoderManager.pin (atGetPressTime p)); [lia|].
    fold t0. rewrite Xp; lia. }
  { rewrite Hp, Hb, Hd. cbn [negb Bool.eqb andb]. lia. }
  cbv zeta in *. rewrite Hp, Hb, Hd in *.
  cbn [negb Bool.eqb andb] in R1, P1, S1.
  unfold EncoderManager.millis in P1, S1. fold t0 in P1, S1.
  cbn [Z.eqb] in R1. rewrite app_nil_r in R1.
  assert (P1' : pressTimes (uiIteration cfg p c) =
                pressTimes c
                ++ (if negb (reportedPressTime t0 p =? 0)
                    then [reportedPressTime t0 p] else [])).
  { rewrite P1. unfold reportedPressTime.
    destruct (EncoderManager.pin (atGetPressTime p)); [reflexivity|].
    rewrite Xp by lia.
    destruct (EncoderManager.clock (atGetPressTime p) - t0 =? 0);
      reflexivity. }
  clear P1.
  (* the hold *)
  destruct (uiTask_settled cfg LOW t0 holds (uiIteration cfg p c))
    as ((enc2 & E2 & B2 & S2 & D2) & R2 & P2); try assumption.
  { exists enc1. auto. }
  cbv zeta in *. fold c2 in E2, R2, P2.
  (* the release *)
  pose proof (elapsed_exact t0 (EncoderManager.clock (atUpdate r))) as X.
  pose proof (elapsed_exact t0 (EncoderManager.clock (atGetPressTime r)))
    as Xr.
  destruct (uiIteration_sample cfg r c2 enc2 E2)
    as ((enc3 & E3 & B3 & S3 & D3) & R3 & P3).
  { rewrite Hr, B2, S2. cbn [negb Bool.eqb andb].
    unfold EncoderManager.millis.
    destruct (EncoderManager.pin (atGetPressTime r)); [lia|].
    rewrite Xr; lia. }
  { rewrite Hr, B2, S2. cbn [negb Bool.eqb andb].
    unfold EncoderManager.millis. rewrite X; lia. }
  cbv zeta in *. rewrite Hr, B2, S2 in *.
  cbn [negb Bool.eqb andb] in R3, P3, S3.
  unfold EncoderManager.millis in R3, P3. rewrite X in R3 by lia.
  assert (P3' : pressTimes (uiIteration cfg r c2) =
                pressTimes c2
                ++ (if negb (reportedPressTime t0 r =? 0)
                    then [reportedPressTime t0 r] else [])).
  { rewrite P3. unfold reportedPressTime.
    destruct (EncoderManager.pin (atGetPressTime r)); [reflexivity|].
    rewrite Xr by lia.
    destruct (EncoderManager.clock (atGetPressTime r) - t0 =? 0);
      reflexivity. }
  clear P3.
  (* afterwards *)
  destruct (uiTask_settled cfg HIGH t0 idle (uiIteration cfg r c2))
    as (_ & R4 & P4); try assumption.
  { exists enc3. auto. }
  cbv zeta in *. split.
  - rewrite P4, P3', P2, P1', <- !app_assoc.
    destruct (negb (reportedPressTime t0 p =? 0)),
      (negb (reportedPressTime t0 r =? 0)); reflexivity.
  - rewrite R4, R3, R2, R1. reflexivity.
Qed.

(** X10 at a press whose iteration reads the clock 1 ms on in
    [getPressTime()], and a release during which the switch bounces. *)
Lemma press_and_release_reported_witness :
  let quick pin t := steady (EncoderManager.mkHw 0 pin t) in
  let c :=
    uiTask Client.documented
      [mkReads (EncoderManager.mkHw 0 LOW 100) (EncoderManager.mkHw 0 LOW 100)
         (EncoderManager.mkHw 0 LOW 101);
       quick LOW 133; quick LOW 166;
       mkReads (EncoderManager.mkHw 0 HIGH 350)
         (EncoderManager.mkHw 0 HIGH 350) (EncoderManager.mkHw 0 LOW 350);
       quick HIGH 383] initial in
  pressTimes c = [1; 33; 66; 250] /\ releases c = [250].
Proof.
  exact (press_and_release_reported Client.documented initial Client.booted
           (mkReads (EncoderManager.mkHw 0 LOW 100)
              (EncoderManager.mkHw 0 LOW 100)
              (EncoderManager.mkHw 0 LOW 101))
           [steady (EncoderManager.mkHw 0 LOW 133);
            steady (EncoderManager.mkHw 0 LOW 166)]
           (mkReads (EncoderManager.mkHw 0 HIGH 350)
              (EncoderManager.mkHw 0 HIGH 350)
              (EncoderManager.mkHw 0 LOW 350))
           [steady (EncoderManager.mkHw 0 HIGH 383)]
           eq_refl eq_refl eq_refl eq_refl
           ltac:(repeat constructor) eq_refl ltac:(repeat constructor)
           ltac:(cbn; lia)
           ltac:(repeat constructor; cbn; lia)).
Defined.

End UITaskFacts.

(** ** The coordinator over passes *)

Module CoordinatorFacts.
Import Machine Core Tactics MachineFacts CoreFacts PassFacts UITaskFacts.

(** *** Event processing *)

(** X11.  [processEvents] hands every event waiting on the queue to the
    application, when one is attached, and sends the UI task the
    rotation, click and long-press events among them; both in the order
    of the queue, each event once, and no other event.  An event of any
    other kind is counted and handed to the application, and is not an
    error.  [eventsProcessed] grows by the number of events, modulo
    2^32. *)
Theorem events_dispatched_in_order env : forall c,
  let c' := processEvents env c in
  handedToApp (effects c') =
    handedToApp (effects c)
    ++ (if appOrchestrator c then inbound env else []) /\
  sentToUI (effects c') =
    sentToUI (effects c) ++ filter forwarded (inbound env) /\
  sentToMain (effects c') = sentToMain (effects c) /\
  wrap32u (eventsProcessed c') =
    wrap32u (eventsProcessed c + Z.of_nat (List.length (inbound env))) /\
  currentState c' = currentState c.
Proof.
  intros c. cbv zeta.
  destruct (processEvents_quiet env c) as (_ & (U & _) & _ & E).
  destruct (processEvents_frame env c) as (_ & S & _).
  cbv zeta in *.
  split; [|split; [|split; [|split; [exact E|exact S]]]].
  - clear. unfold processEvents. revert c.
    induction (inbound env) as [|e rest IH]; intros c.
    + cbn. destruct (appOrchestrator c); rewrite app_nil_r; reflexivity.
    + cbn [fold_left]. rewrite IH.
      destruct (dispatch_quiet e c)
        as ((_ & _ & _ & _ & _ & A) & _ & _ & _ & H & _).
      cbv zeta in *. rewrite H, A, <- app_assoc.
      destruct (appOrchestrator c); reflexivity.
  - clear. unfold processEvents. revert c.
    induction (inbound env) as [|e rest IH]; intros c.
    + cbn. rewrite app_nil_r. reflexivity.
    + cbn [fold_left filter]. rewrite IH.
      destruct (dispatch_quiet e c) as (_ & _ & _ & _ & _ & H).
      cbv zeta in *. rewrite H, <- app_assoc.
      destruct (forwarded e); reflexivity.
  - clear - U. unfold uiCalls in U.
    assert (F : forall es,
              sentToMain es = sentToMain (filter uiSide es)).
    { unfold sentToMain.
      induction es as [|[] es IH]; cbn [flat_map filter uiSide app];
        congruence. }
    rewrite F, U, <- F. reflexivity.
Qed.

(** *** The WiFi connection handler *)

Lemma set_clientWasConnected_same c :
  set_clientWasConnected (clientWasConnected c) c = c.
Proof. destruct c. reflexivity. Qed.

(** X12.  [handleWiFiConnection] reacts to changes only: with the network
    manager reporting the state it reported at the previous call and no
    access point up, the call changes nothing and calls nothing; and
    calling it a second time with the same report and the same client
    reading repeats none of the reactions of the first call. *)
Theorem wifi_handler_reacts_to_changes_only env c :
  wifi c = true ->
  (wifiState env = lastWiFiState c -> wifiState env <> WS_AP_MODE ->
   handleWiFiConnection env c = c) /\
  handleWiFiConnection env (handleWiFiConnection env c)
    = handleWiFiConnection env c.
Proof.
  intros _.
  assert (Hsame : forall c0,
            wifiState env = lastWiFiState c0 ->
            (WiFiState_eqb (wifiState env) WS_AP_MODE && wifi c0 = true ->
             clientWasConnected c0 = hasAPClient env) ->
            handleWiFiConnection env c0 = c0).
  { intros c0 E K. unfold handleWiFiConnection. cbv zeta.
    destruct (WiFiState_eqb_spec (wifiState env) (lastWiFiState c0));
      [|contradiction].
    cbn [negb]. unfold monitorAPClients.
    destruct (WiFiState_eqb (wifiState env) WS_AP_MODE && wifi c0);
      [|reflexivity].
    rewrite (K eq_refl). cbv zeta.
    destruct (hasAPClient env); cbn [andb negb];
      rewrite <- (K eq_refl) at 1; apply set_clientWasConnected_same. }
  split.
  - intros E N. apply Hsame; [exact E|].
    destruct (WiFiState_eqb_spec (wifiState env) WS_AP_MODE);
      [contradiction|discriminate].
  - apply Hsame.
    + unfold handleWiFiConnection. cbv zeta.
      destruct (monitorAPClients_frame env
        (if negb (WiFiState_eqb (wifiState env) (lastWiFiState c))
         then onWiFiChange env (set_lastWiFiState (wifiState env) c)
         else c)) as (_ & _ & _ & L & _).
      cbv zeta in L. rewrite L.
      destruct (WiFiState_eqb_spec (wifiState env) (lastWiFiState c))
        as [E|N]; cbn [negb]; [exact E|].
      destruct (onWiFiChange_frame env (set_lastWiFiState (wifiState env) c))
        as (_ & _ & _ & L' & _).
      cbv zeta in L'. rewrite L'. destruct c. reflexivity.
    + unfold handleWiFiConnection. cbv zeta.
      set (c1 := if negb (WiFiState_eqb (wifiState env) (lastWiFiState c))
                 then onWiFiChange env (set_lastWiFiState (wifiState env) c)
                 else c).
      destruct (monitorAPClients_frame env c1) as ((W & _) & _).
      destruct (monitorAPClients_quiet env c1) as (_ & _ & _ & _ & K).
      cbv zeta in *. rewrite W, K. intros ->. reflexivity.
Qed.


Lemma wifi_handler_reacts_to_changes_only_witness :
  let env := pass 5000 WS_CONNECTING [] in
  let c := handleWiFiConnection env initial in
  currentState c = WIFI_CONNECTING /\ handleWiFiConnection env c = c.
Proof.
  split; [reflexivity|].
  exact (proj2 (wifi_handler_reacts_to_changes_only
                  (pass 5000 WS_CONNECTING []) initial eq_refl)).
Defined.

(** *** The two tasks *)

(** X13.  The two tasks keep to their own side.  A pass of the
    coordination loop neither touches the encoder or the display nor
    sends on the queue to the main task; an iteration of the UI task
    changes no member of the coordinator but the encoder, and calls
    nothing but the encoder, the display and the send to the main
    task. *)
Theorem tasks_keep_apart WIFI_REQUIRED cfg env reads c :
  (forall c', coordinationLoop WIFI_REQUIRED env c = Some c' ->
     encoder c' = encoder c /\ display c' = display c /\
     uiCalls c' = uiCalls c) /\
  (let c' := uiIteration cfg reads c in
   currentState c' = currentState c /\
   stateStartTime c' = stateStartTime c /\
   coordinationCycles c' = coordinationCycles c /\
   eventsProcessed c' = eventsProcessed c /\
   lastHealthCheck c' = lastHealthCheck c /\
   lastWiFiState c' = lastWiFiState c /\
   clientWasConnected c' = clientWasConnected c /\
   mainCalls c' = mainCalls c).
Proof.
  split.
  - intros c' E. exact (proj1 (pass_quiet WIFI_REQUIRED env c c' E)).
  - destruct (uiIteration_quiet cfg reads c)
      as (A1 & A2 & A3 & A4 & A5 & A6 & A7 & _ & _ & M).
    cbv zeta in *. auto 10.
Qed.

(** *** Health monitoring *)

Section Runs.
Variable WIFI_REQUIRED : bool.


End Runs.



(** *** Access-point clients *)

(** X15.  While the network manager reports its access point up, the
    setup-URL event is sent to the UI task once for every time a client
    appears: on the pass that first sees a client after a pass that saw
    none (or after the start), and on no other pass, however long the
    client stays. *)
Theorem setup_url_once_per_client WIFI_REQUIRED envs : forall c,
  wifi c = true -> ledManager c = true ->
  Forall (fun env => wifiState env = WS_AP_MODE) envs ->
  exists c',
    coordinate WIFI_REQUIRED envs c = Some c' /\
    setupURLs c' =
      (setupURLs c
       + risingEdges (clientWasConnected c) (map hasAPClient envs))%nat /\
    clientWasConnected c' =
      last (map hasAPClient envs) (clientWasConnected c).
Proof.
  induction envs as [|env envs IH]; intros c W L F.
  - exists c. cbn. auto.
  - pose proof (Forall_inv F) as Hap. cbv beta in Hap.
    apply Forall_inv_tail in F.
    destruct (pass_total WIFI_REQUIRED env c L) as (c1 & E).
    cbn [coordinate]. rewrite E.
    destruct (pass_quiet WIFI_REQUIRED env c c1 E)
      as (_ & _ & (S & K) & _).
    destruct (pass_frame WIFI_REQUIRED env c c1 E)
      as ((W1 & _ & L1 & _) & _).
    cbv zeta in *. rewrite Hap, W in S, K. cbn [WiFiState_eqb andb] in S, K.
    destruct (IH c1) as (c' & E' & S' & K'); try congruence; try assumption.
    exists c'. split; [exact E'|]. split.
    + rewrite S', S, K. cbn [map risingEdges]. lia.
    + rewrite K', K. cbn [map]. symmetry.
      clear. generalize (hasAPClient env), (clientWasConnected c).
      induction (map hasAPClient envs) as [|b l IHl]; intros a d;
        [reflexivity|].
      change (last (a :: b :: l) d) with (last (b :: l) d).
      rewrite (IHl b d), (IHl b a). reflexivity.
Qed.

Lemma setup_url_once_per_client_witness :
  let ap (t : Z) (client : bool) :=
    mkEnv t WS_AP_MODE WS_AP_MODE "CloudMouse-12a3f4e2" EmptyString
      "192.168.4.1" client [] in
  exists c,
    coordinate true
      [ap 9000 false; ap 9050 true; ap 9100 true; ap 9150 false;
       ap 9200 true] initial = Some c /\
    setupURLs c = 2%nat.
Proof.
  cbv zeta.
  destruct (setup_url_once_per_client true
              (map (fun tc : Z * bool =>
                      mkEnv (fst tc) WS_AP_MODE WS_AP_MODE
                        "CloudMouse-12a3f4e2" EmptyString "192.168.4.1"
                        (snd tc) [])
                 [(9000, false); (9050, true); (9100, true); (9150, false);
                  (9200, true)]) initial)
    as (c & E & S & _).
  - reflexivity.
  - reflexivity.
  - repeat constructor.
  - exists c. split; [exact E|exact S].
Defined.

(** *** Connecting *)

Section Connected.
Variable WIFI_REQUIRED : bool.

Lemma pass_steady env c c' :
  coordinationLoop WIFI_REQUIRED env c = Some c' ->
  currentState c <> BOOTING -> currentState c <> READY ->
  wifiState env = lastWiFiState c ->
  currentState c' = currentState c /\ starts c' = starts c.
Proof.
  unfold coordinationLoop. intros E NB NR U.
  destruct (bootSequence_frame WIFI_REQUIRED env c)
    as (_ & _ & _ & N1 & _).
  cbv zeta in N1. rewrite (N1 NB) in E.
  destruct (wifiManagement_frame env c) as (_ & S2 & _ & _ & U2 & _).
  cbv zeta in *. destruct (U2 U) as [C2 _].
  destruct (webServerUpdates_frame env (wifiManagement env c))
    as (_ & S3 & _ & C3 & _).
  set (c3 := webServerUpdates env (wifiManagement env c)) in *.
  destruct (autoTransition env c3) as [c4|] eqn:E4; [|discriminate].
  injection E as <-.
  destruct (autoTransition_frame env c3 c4 E4) as (_ & _ & _ & _ & Hcase).
  destruct (housekeeping_frame env c4) as (_ & C5 & _ & S5 & _).
  cbv zeta in *.
  destruct Hcase as [(_ & ->)|(R & _)]; [|congruence].
  split; congruence.
Qed.

Lemma coordinate_connected rest : forall c,
  wifi c = true -> ledManager c = true ->
  currentState c = RUNNING -> lastWiFiState c = WS_CONNECTED ->
  Forall (fun env => wifiState env = WS_CONNECTED /\ inboundFromUI env)
    rest ->
  exists c', coordinate WIFI_REQUIRED rest c = Some c' /\
    currentState c' = RUNNING /\ starts c' = starts c /\
    wifiConnecteds c' = wifiConnecteds c.
Proof.
  induction rest as [|env rest IH]; intros c W L R K F.
  - exists c. cbn. auto.
  - pose proof (Forall_inv F) as [Hc Hin]. apply Forall_inv_tail in F.
    destruct (pass_total WIFI_REQUIRED env c L) as (c1 & E).
    cbn [coordinate]. rewrite E.
    destruct (pass_steady env c c1 E) as (R1 & S1); try congruence.
    destruct (pass_quiet WIFI_REQUIRED env c c1 E)
      as (_ & _ & _ & K1 & C1).
    destruct (pass_frame WIFI_REQUIRED env c c1 E)
      as ((W1 & _ & L1 & _) & _).
    cbv zeta in *. specialize (C1 Hin).
    rewrite W, Hc, K in C1. cbn [WiFiState_eqb negb andb] in C1.
    destruct (IH c1) as (c' & E' & R' & S' & C'); try congruence;
      try assumption.
    { rewrite K1 by exact W. exact Hc. }
    exists c'. repeat split; try congruence. lia.
Qed.

End Connected.

(** X16.  On the pass on which the network manager first reports
    CONNECTED the coordinator enters READY and, before the pass ends,
    calls [start()] and is RUNNING.  For as long as CONNECTED keeps being
    reported, the following passes stay RUNNING: over the whole run the
    application is handed exactly one wifi-connected event and [start()]
    goes through exactly once. *)
Theorem connected_runs_once WIFI_REQUIRED c env rest :
  wifi c = true -> ledManager c = true -> appOrchestrator c = true ->
  lastWiFiState c <> WS_CONNECTED ->
  Forall (fun env => wifiState env = WS_CONNECTED /\ inboundFromUI env)
    (env :: rest) ->
  exists c1 c2,
    coordinationLoop WIFI_REQUIRED env c = Some c1 /\
    currentState c1 = RUNNING /\
    coordinate WIFI_REQUIRED (env :: rest) c = Some c2 /\
    currentState c2 = RUNNING /\
    wifiConnecteds c2 = (wifiConnecteds c + 1)%nat /\
    starts c2 = (starts c + 1)%nat.
Proof.
  intros W L A N F.
  pose proof (Forall_inv F) as [Hc Hin]. apply Forall_inv_tail in F.
  destruct (pass_total WIFI_REQUIRED env c L) as (c1 & E).
  destruct (pass_frame WIFI_REQUIRED env c c1 E)
    as ((W1 & _ & L1 & _) & _ & _ & _ & _ & Hq & _).
  destruct (Hq W Hc N) as (R1 & S1).
  destruct (pass_quiet WIFI_REQUIRED env c c1 E) as (_ & _ & _ & K1 & C1).
  cbv zeta in *. specialize (C1 Hin). specialize (K1 W).
  rewrite W, A, Hc in C1.
  destruct (WiFiState_eqb_spec WS_CONNECTED (lastWiFiState c)) as [X|_];
    [congruence|].
  cbn [WiFiState_eqb negb andb Nat.b2n] in C1.
  destruct (coordinate_connected WIFI_REQUIRED rest c1)
    as (c2 & E2 & R2 & S2 & C2); try congruence; try assumption.
  exists c1, c2. split; [exact E|]. split; [exact R1|].
  cbn [coordinate]. rewrite E. split; [exact E2|].
  split; [exact R2|]. split; congruence.
Qed.

Lemma connected_runs_once_witness :
  exists c,
    coordinate true
      [pass 4100 WS_CONNECTED []; pass 4200 WS_CONNECTED [];
       pass 4300 WS_CONNECTED [Event1 ENCODER_CLICK]] initial = Some c /\
    currentState c = RUNNING /\ wifiConnecteds c = 1%nat /\
    starts c = 1%nat.
Proof.
  destruct (connected_runs_once true initial (pass 4100 WS_CONNECTED [])
              [pass 4200 WS_CONNECTED [];
               pass 4300 WS_CONNECTED [Event1 ENCODER_CLICK]])
    as (c1 & c2 & _ & _ & E & R & C & S).
  - reflexivity.
  - reflexivity.
  - reflexivity.
  - discriminate.
  - repeat constructor.
  - exists c2. auto.
Defined.

(** *** The states a pass can end in *)




End CoordinatorFacts.

(** ** The serial console *)

Module SerialFacts.
Import Arduino Core DeviceIDFacts.

Lemma processSerialCommands_app a : forall b commandBuffer,
  processSerialCommands (a ++ b) commandBuffer =
  match processSerialCommands a commandBuffer with
  | (commands, Some buffer) =>
      let '(more, final) := processSerialCommands b buffer in
      (commands ++ more, final)
  | (commands, None) => (commands, None)
  end.
Proof.
  induction a as [|c a IH]; intros b buf.
  - cbn. destruct (processSerialCommands b buf). reflexivity.
  - cbn [app processSerialCommands].
    destruct (isLineEnd c).
    + destruct (0 <? String.length buf)%nat.
      * cbv zeta.
        destruct (restarts (parseCommand (toLowerCase (trim buf))));
          [reflexivity|].
        rewrite IH. destruct (processSerialCommands a EmptyString)
          as [cmds [buf'|]]; [|reflexivity].
        destruct (processSerialCommands b buf'). reflexivity.
      * apply IH.
    + apply IH.
Qed.

(** X18.  The commands the serial console runs depend on the characters
    received, not on how their arrival is spread over the passes: the
    text of a command may arrive in any number of pieces, since the
    buffer outlives the call. *)
Theorem serial_commands_ignore_chunking arrivals : forall commandBuffer,
  serialPasses arrivals commandBuffer =
  processSerialCommands (List.concat arrivals) commandBuffer.
Proof.
  induction arrivals as [|a later IH]; intros buf; [reflexivity|].
  cbn [serialPasses List.concat]. rewrite processSerialCommands_app.
  destruct (processSerialCommands a buf) as [cmds [buf'|]]; [|reflexivity].
  rewrite IH. reflexivity.
Qed.






Example serial_examples :
  processSerialCommands (list_ascii_of_string "   ") "x"%string
    = ([], Some "x   "%string) /\
  fst (processSerialCommands
         (list_ascii_of_string "  " ++ ["010"%char]) EmptyString)
    = [Unknown EmptyString] /\
  processSerialCommands
    (list_ascii_of_string "REBOOT" ++ ["010"%char]
     ++ list_ascii_of_string "help" ++ ["010"%char]) EmptyString
    = ([Reboot], None) /\
  processSerialCommands
    (list_ascii_of_string "reboot" ++ ["000"; "x"; "010"]%char
     ++ list_ascii_of_string "help" ++ ["010"%char]) EmptyString
    = ([Reboot], None) /\
  fst (processSerialCommands
         (list_ascii_of_string "led" ++ ["000"; "O"; "N"; "010"]%char)
         EmptyString)
    = [Unknown "led"].
Proof. vm_compute. auto 10. Qed.

End SerialFacts.

(** ** Device identity, further *)

Module IdentityFacts.
Import Machine Arduino DeviceID MachineFacts DeviceIDFacts.

Lemma hexWidth_bound n : 0 <= n -> n < 16 ^ Z.of_nat (hexWidth n).
Proof.
  intros H0. unfold hexWidth.
  pose proof (Z.log2_nonneg n) as Hl.
  assert (Hq : 0 <= Z.log2 n / 4) by (apply Z.div_pos; lia).
  rewrite Z2Nat.id by lia.
  change 16 with (2 ^ 4). rewrite <- Z.pow_mul_r by lia.
  destruct (Z.eq_dec n 0) as [->|Hn].
  - apply Z.pow_pos_nonneg; lia.
  - destruct (Z.log2_spec n) as [_ Hlt]; [lia|].
    eapply Z.lt_le_trans; [exact Hlt|].
    apply Z.pow_le_mono_r; [lia|].
    pose proof (Z.mod_pos_bound (Z.log2 n) 4).
    pose proof (Z.div_mod (Z.log2 n) 4). lia.
Qed.

Lemma hexWidth_le k n :
  (0 < k)%nat -> 0 <= n < 16 ^ Z.of_nat k -> (hexWidth n <= k)%nat.
Proof.
  intros Hk [H0 H1]. unfold hexWidth.
  pose proof (Z.log2_nonneg n) as Hl.
  assert (Z.log2 n < 4 * Z.of_nat k).
  { destruct (Z.eq_dec n 0) as [->|Hn]; [change (Z.log2 0) with 0; lia|].
    apply Z.log2_lt_pow2; [lia|].
    rewrite Z.pow_mul_r by lia. exact H1. }
  assert (Z.log2 n / 4 < Z.of_nat k) by (apply Z.div_lt_upper_bound; lia).
  lia.
Qed.

(** A zero-padded conversion prints one digit per position, leading zeros
    included. *)
Lemma padded_digits (digit : Z -> ascii) k n :
  digit 0 = "0"%char -> (0 < k)%nat -> 0 <= n < 16 ^ Z.of_nat k ->
  repeat "0"%char (k - hexWidth n)
  ++ map (fun i => digit ((n / 16 ^ Z.of_nat i) mod 16))
       (rev (seq 0 (hexWidth n)))
  = map (fun i => digit ((n / 16 ^ Z.of_nat i) mod 16)) (rev (seq 0 k)).
Proof.
  intros H0 Hk Hn.
  pose proof (hexWidth_le k n Hk Hn) as Hw.
  pose proof (hexWidth_bound n (proj1 Hn)) as Hb.
  set (w := hexWidth n) in *.
  replace k with (w + (k - w))%nat at 2 by lia.
  rewrite seq_app, rev_app_distr, map_app. f_equal.
  transitivity (map (fun _ : nat => "0"%char) (rev (seq (0 + w) (k - w)))).
  { rewrite map_const, length_rev, length_seq. reflexivity. }
  apply map_ext_in. intros i Hi. apply in_rev, in_seq in Hi.
  rewrite Z.div_small; [symmetry; exact H0|].
  split; [lia|]. eapply Z.lt_le_trans; [exact Hb|].
  apply Z.pow_le_mono_r; lia.
Qed.

Lemma format_08x_digits n :
  0 <= n < 2 ^ 32 ->
  format_08x n =
  map (fun i => hexDigit ((n / 16 ^ Z.of_nat i) mod 16)) (rev (seq 0 8)).
Proof.
  intros H. unfold format_08x. rewrite hexDigits_length.
  unfold hexDigits. apply padded_digits; [reflexivity|lia|].
  change (16 ^ Z.of_nat 8) with (2 ^ 32). exact H.
Qed.

Lemma format_02x_byte n :
  0 <= n < 256 -> format_02x n = [hexDigit (n / 16); hexDigit (n mod 16)].
Proof.
  intros H. unfold format_02x. rewrite hexDigits_length.
  unfold hexDigits. rewrite padded_digits; [|reflexivity|lia|exact H].
  cbn [seq rev app map Z.of_nat]. change (16 ^ 0) with 1.
  change (16 ^ Z.pos 1) with 16.
  rewrite Z.div_1_r. f_equal. f_equal.
  apply Z.mod_small. split; [apply Z.div_pos; lia|].
  apply Z.div_lt_upper_bound; lia.
Qed.

Lemma format_02X_byte n :
  0 <= n < 256 ->
  format_02X n = [hexDigitUpper (n / 16); hexDigitUpper (n mod 16)].
Proof.
  intros H. unfold format_02X.
  assert (E : List.length (hexDigitsUpper n) = hexWidth n).
  { unfold hexDigitsUpper. rewrite length_map, length_rev, length_seq.
    reflexivity. }
  rewrite E. unfold hexDigitsUpper.
  rewrite padded_digits; [|reflexivity|lia|exact H].
  cbn [seq rev app map Z.of_nat]. change (16 ^ 0) with 1.
  change (16 ^ Z.pos 1) with 16.
  rewrite Z.div_1_r. f_equal. f_equal.
  apply Z.mod_small. split; [apply Z.div_pos; lia|].
  apply Z.div_lt_upper_bound; lia.
Qed.

Lemma macBytes_mod mac i :
  0 <= i -> macBytes mac i = (mac / 2 ^ (8 * i)) mod 256.
Proof.
  intros Hi. unfold macBytes. rewrite Z.shiftr_div_pow2 by lia.
  change 255 with (Z.ones 8). rewrite Z.land_ones by lia. reflexivity.
Qed.

Lemma macBytes_range mac i : 0 <= i -> 0 <= macBytes mac i < 256.
Proof.
  intros Hi. rewrite macBytes_mod by exact Hi. apply Z.mod_pos_bound. lia.
Qed.

Lemma lxor_byte a b : 0 <= a < 256 -> 0 <= b < 256 -> 0 <= Z.lxor a b < 256.
Proof.
  intros Ha Hb. split; [apply Z.lxor_nonneg; lia|].
  destruct (Z.eq_dec (Z.lxor a b) 0) as [->|Hn]; [lia|].
  assert (Hp : 0 < Z.lxor a b).
  { assert (0 <= Z.lxor a b) by (apply Z.lxor_nonneg; lia). lia. }
  apply Z.log2_lt_pow2 with (b := 8) in Hp. apply Hp.
  eapply Z.le_lt_trans; [apply Z.log2_lxor; lia|].
  apply Z.max_lub_lt.
  - destruct (Z.eq_dec a 0) as [->|]; [cbn; lia|].
    apply Z.log2_lt_pow2; lia.
  - destruct (Z.eq_dec b 0) as [->|]; [cbn; lia|].
    apply Z.log2_lt_pow2; lia.
Qed.


Lemma low32 a : wrap32u (wrap64u a) = a mod 2 ^ 32.
Proof.
  unfold wrap32u, wrap64u. apply Z.mod_mod_divide.
  exists (2 ^ 32). reflexivity.
Qed.

Lemma tolower_hexDigitUpper d : tolower (hexDigitUpper d) = hexDigit d.
Proof.
  destruct d as [|p|p]; try reflexivity.
  do 4 (destruct p as [p|p|]; try reflexivity).
Qed.

Lemma digitValue_hexDigit d : 0 <= d < 16 -> digitValue (hexDigit d) = d.
Proof.
  intros H.
  assert (C : d = 0 \/ d = 1 \/ d = 2 \/ d = 3 \/ d = 4 \/ d = 5 \/ d = 6 \/
              d = 7 \/ d = 8 \/ d = 9 \/ d = 10 \/ d = 11 \/ d = 12 \/
              d = 13 \/ d = 14 \/ d = 15) by lia.
  repeat (destruct C as [->|C]; [reflexivity|]). subst d. reflexivity.
Qed.

Lemma digit_split n i :
  0 <= n -> 0 <= i ->
  n mod 16 ^ (i + 1) = 16 ^ i * ((n / 16 ^ i) mod 16) + n mod 16 ^ i.
Proof.
  intros Hn Hi. rewrite Z.pow_add_r by lia. change (16 ^ 1) with 16.
  rewrite Z.rem_mul_r by lia. lia.
Qed.

(** The eight digits of a 32-bit value determine it. *)
Lemma digits_value n :
  0 <= n < 2 ^ 32 ->
  fold_left (fun acc c => 16 * acc + digitValue c) (format_08x n) 0 = n.
Proof.
  intros H. rewrite format_08x_digits by exact H.
  cbn [seq rev app map fold_left Z.of_nat].
  assert (D : forall i, 0 <= (n / 16 ^ i) mod 16 < 16)
    by (intros i; apply Z.mod_pos_bound; lia).
  rewrite !digitValue_hexDigit by apply D.
  pose proof (digit_split n 0 (proj1 H) ltac:(lia)) as E0.
  pose proof (digit_split n 1 (proj1 H) ltac:(lia)) as E1.
  pose proof (digit_split n 2 (proj1 H) ltac:(lia)) as E2.
  pose proof (digit_split n 3 (proj1 H) ltac:(lia)) as E3.
  pose proof (digit_split n 4 (proj1 H) ltac:(lia)) as E4.
  pose proof (digit_split n 5 (proj1 H) ltac:(lia)) as E5.
  pose proof (digit_split n 6 (proj1 H) ltac:(lia)) as E6.
  pose proof (digit_split n 7 (proj1 H) ltac:(lia)) as E7.
  cbn [Z.add Pos.add Pos.succ Z.of_nat Pos.of_succ_nat] in *.
  change (16 ^ 0) with 1 in *. rewrite Z.mod_1_r in E0.
  change (n mod 16 ^ 8) with (n mod 2 ^ 32) in E7.
  rewrite (Z.mod_small n (2 ^ 32)) in E7 by exact H.
  change (16 ^ 1) with 16 in *. change (16 ^ 2) with 256 in *.
  change (16 ^ 3) with 4096 in *. change (16 ^ 4) with 65536 in *.
  change (16 ^ 5) with 1048576 in *. change (16 ^ 6) with 16777216 in *.
  change (16 ^ 7) with 268435456 in *.
  lia.
Qed.


Lemma prefix_injective p a b : String.append p a = String.append p b -> a = b.
Proof. induction p; cbn; intros H; [exact H|]. injection H. exact IHp. Qed.

Lemma substring_whole_id m : getAPPassword m = getDeviceID m.
Proof.
  pose proof (getDeviceID_length m) as Hlen.
  unfold getAPPassword, substring. cbv zeta. rewrite Hlen.
  cbn [Nat.min Nat.max Nat.leb Nat.sub].
  rewrite <- (substring_all (getDeviceID m)) at 2.
  rewrite Hlen. reflexivity.
Qed.

(** X20.  Two devices get the same device ID exactly when their eFuse MACs
    agree in the low 32 bits; the same holds for the access-point SSID,
    the access-point password and the mDNS hostname, which carry nothing
    else of the MAC. *)
Theorem device_id_injective a b :
  (getDeviceID a = getDeviceID b <-> a mod 2 ^ 32 = b mod 2 ^ 32) /\
  (getAPSSID a = getAPSSID b <-> getDeviceID a = getDeviceID b) /\
  (getMDNSHostname a = getMDNSHostname b <->
   getDeviceID a = getDeviceID b) /\
  (getAPPassword a = getAPPassword b <-> getDeviceID a = getDeviceID b).
Proof.
  split; [|split; [|split]].
  - split; intros H.
    + apply (f_equal list_ascii_of_string) in H.
      rewrite !getDeviceID_chars in H.
      rewrite <- !low32.
      rewrite <- (digits_value (wrap32u (wrap64u a)))
        by apply wrap32u_range.
      rewrite <- (digits_value (wrap32u (wrap64u b)))
        by apply wrap32u_range.
      rewrite H. reflexivity.
    + unfold getDeviceID. cbv zeta. rewrite !low32, H. reflexivity.
  - split; intros H.
    + exact (prefix_injective _ _ _ H).
    + unfold getAPSSID. rewrite H. reflexivity.
  - split; intros H.
    + exact (prefix_injective _ _ _ H).
    + unfold getMDNSHostname. rewrite H. reflexivity.
  - rewrite !substring_whole_id. reflexivity.
Qed.


Lemma hexDigitUpper_not_nul d : Ascii.eqb (hexDigitUpper d) zero = false.
Proof.
  destruct d as [|p|p]; try reflexivity.
  do 4 (destruct p as [p|p|]; try reflexivity).
Qed.

Lemma hexDigitUpper_isUpper d : isUpperHexChar (hexDigitUpper d) = true.
Proof.
  destruct d as [|p|p]; try reflexivity.
  do 4 (destruct p as [p|p|]; try reflexivity).
Qed.

(** X21.  The "secure" access-point password is ten lower-case hexadecimal
    characters of which the last four repeat the first four: the fourth
    and fifth byte printed are the first and second again (exclusive-or
    is commutative), so that the password is determined by three bytes. *)
Theorem secure_password_repeats efuseMac :
  let p := getAPPasswordSecure efuseMac in
  String.length p = 10%nat /\
  forallb isHexChar (list_ascii_of_string p) = true /\
  substring 6 10 p = substring 0 4 p.
Proof.
  cbv zeta. unfold getAPPasswordSecure. cbv zeta.
  set (mac := wrap64u efuseMac).
  rewrite (Z.lxor_comm (macBytes mac 3)), (Z.lxor_comm (macBytes mac 4)).
  assert (R : forall i j, 0 <= i -> 0 <= j ->
            0 <= Z.lxor (macBytes mac i) (macBytes mac j) < 256).
  { intros i j Hi Hj. apply lxor_byte; apply macBytes_range; assumption. }
  rewrite !format_02x_byte by (apply R; lia).
  unfold snprintf. cbn [app firstn Nat.sub].
  split; [reflexivity|]. split; [|reflexivity].
  cbn [list_ascii_of_string string_of_list_ascii forallb].
  rewrite !hexDigit_isHex. reflexivity.
Qed.

Lemma octet_digits m :
  0 <= m ->
  let low := m mod 2 ^ 32 in
  let digit i := (low / 16 ^ Z.of_nat i) mod 16 in
  let byte i := (m / 2 ^ (8 * i)) mod 256 in
  digit 7%nat = byte 3 / 16 /\ digit 6%nat = byte 3 mod 16 /\
  digit 5%nat = byte 2 / 16 /\ digit 4%nat = byte 2 mod 16 /\
  digit 3%nat = byte 1 / 16 /\ digit 2%nat = byte 1 mod 16 /\
  digit 1%nat = byte 0 / 16 /\ digit 0%nat = byte 0 mod 16.
Proof.
  intros Hm. cbv zeta.
  cbn [Z.of_nat Pos.of_succ_nat Pos.succ Z.mul Pos.mul].
  change (16 ^ 0) with 1. change (2 ^ 0) with 1.
  change (16 ^ 1) with 16. change (16 ^ 2) with 256.
  change (16 ^ 3) with 4096. change (16 ^ 4) with 65536.
  change (16 ^ 5) with 1048576. change (16 ^ 6) with 16777216.
  change (16 ^ 7) with 268435456. change (2 ^ 8) with 256.
  change (2 ^ 16) with 65536. change (2 ^ 24) with 16777216.
  change (2 ^ 32) with 4294967296.
  repeat split; Z.div_mod_to_equations; lia.
Qed.

(** X22.  The MAC address is printed as six groups of two upper-case
    hexadecimal digits separated by colons, seventeen characters in all;
    and the device ID is the first four of these groups in reverse order,
    in lower case.  The last two groups enter neither the device ID nor
    what is built from it. *)
Theorem device_id_from_mac_octets efuseMac :
  let mac := getMACAddress efuseMac in
  let octet i := substring (3 * i) (3 * i + 2) mac in
  String.length mac = 17%nat /\
  map (fun i => String.get i mac) [2; 5; 8; 11; 14]%nat
    = repeat (Some ":"%char) 5 /\
  forallb (fun i => forallb isUpperHexChar (list_ascii_of_string (octet i)))
    [0; 1; 2; 3; 4; 5]%nat = true /\
  getDeviceID efuseMac =
    toLowerCase
      (String.append (octet 3%nat)
         (String.append (octet 2%nat)
            (String.append (octet 1%nat) (octet 0%nat)))).
Proof.
  cbv zeta. unfold getMACAddress. cbv zeta.
  set (m := wrap64u efuseMac).
  assert (Hm : 0 <= m) by (apply Z.mod_pos_bound; lia).
  rewrite !format_02X_byte by (apply macBytes_range; lia).
  unfold snprintf. cbn [app firstn Nat.sub].
  split; [reflexivity|]. split; [reflexivity|]. split.
  - cbn -[isUpperHexChar hexDigitUpper Z.div Z.modulo].
    rewrite !hexDigitUpper_isUpper. reflexivity.
  - rewrite <- (string_of_list_ascii_of_string (getDeviceID efuseMac)).
    rewrite getDeviceID_chars, low32.
    rewrite format_08x_digits by (apply Z.mod_pos_bound; lia).
    cbn [seq rev app map].
    unfold toLowerCase.
    cbn -[tolower hexDigit hexDigitUpper Z.div Z.modulo Z.pow Z.of_nat
          Ascii.eqb].
    rewrite !hexDigitUpper_not_nul.
    rewrite !tolower_hexDigitUpper.
    rewrite !macBytes_mod by lia.
    destruct (octet_digits m Hm) as (E7 & E6 & E5 & E4 & E3 & E2 & E1 & E0).
    cbv zeta in *.
    assert (L : efuseMac mod 2 ^ 32 = m mod 2 ^ 32).
    { subst m. rewrite <- low32. unfold wrap32u. reflexivity. }
    rewrite L.
    change (8 * 0) with 0 in *. change (8 * 1) with 8 in *.
    change (8 * 2) with 16 in *. change (8 * 3) with 24 in *.
    cbn [Z.of_nat Pos.of_succ_nat Pos.succ] in *.
    rewrite E7, E6, E5, E4, E3, E2, E1, E0. reflexivity.
Qed.


Example mac_address_example :
  getMACAddress 0xaabb12a3f4e2 = "E2:F4:A3:12:BB:AA"%string /\
  getDeviceID 0xaabb12a3f4e2 = "12a3f4e2"%string /\
  getAPPasswordSecure 0xaabb12a3f4e2 = "f04f09f04f"%string.
Proof. vm_compute. auto. Qed.

Lemma below_cases (P : Z -> Prop) (k : nat) :
  Forall P (map Z.of_nat (seq 0 k)) ->
  forall x, 0 <= x < Z.of_nat k -> P x.
Proof.
  intros F x Hx. rewrite Forall_forall in F. apply F.
  apply in_map_iff. exists (Z.to_nat x). split; [lia|].
  apply in_seq. lia.
Qed.

Lemma version_nibble h :
  0 <= h < 256 ->
  let b := Z.lor (Z.land h 0x0F) 0x50 in
  0 <= b < 256 /\ b / 16 = 5.
Proof.
  intros H. cbv zeta. change 0x0F with (Z.ones 4).
  rewrite Z.land_ones by lia.
  assert (Hx : 0 <= h mod 2 ^ 4 < Z.of_nat 16)
    by (apply Z.mod_pos_bound; lia).
  revert Hx. generalize (h mod 2 ^ 4). apply below_cases.
  cbn [seq map].
  repeat (apply Forall_cons; [cbv; repeat split; congruence|]).
  apply Forall_nil.
Qed.

Lemma variant_bits h :
  0 <= h < 256 ->
  let b := Z.lor (Z.land h 0x3F) 0x80 in
  0 <= b < 256 /\ 8 <= b / 16 <= 11.
Proof.
  intros H. cbv zeta. change 0x3F with (Z.ones 6).
  rewrite Z.land_ones by lia.
  assert (Hx : 0 <= h mod 2 ^ 6 < Z.of_nat 64)
    by (apply Z.mod_pos_bound; lia).
  revert Hx. generalize (h mod 2 ^ 6). apply below_cases.
  cbn [seq map].
  repeat (apply Forall_cons; [cbv; repeat split; congruence|]).
  apply Forall_nil.
Qed.

(** X23.  Whatever the digest is, the UUID is printed as 36 characters:
    lower-case hexadecimal digits in groups of 8, 4, 4, 4 and 12 separated
    by hyphens, with the version digit (the first of the third group) 5
    and the variant digit (the first of the fourth group) one of 8, 9, a
    and b. *)
Theorem uuid_layout (mbedtls_sha1 : list Z -> list Z) efuseMac :
  let uuid := getDeviceUUID mbedtls_sha1 efuseMac in
  String.length uuid = 36%nat /\
  map (fun i => String.get i uuid) [8; 13; 18; 23]%nat
    = repeat (Some "-"%char) 4 /\
  String.get 14 uuid = Some "5"%char /\
  (exists c, String.get 19 uuid = Some c /\
             In c ["8"; "9"; "a"; "b"]%char) /\
  forallb (fun c => isHexChar c || Ascii.eqb c "-")
    (list_ascii_of_string uuid) = true.
Proof.
  cbv zeta. unfold getDeviceUUID. cbv zeta.
  set (output := mbedtls_sha1 _).
  assert (R : forall i, 0 <= nth i output 0 mod 256 < 256)
    by (intros i; apply Z.mod_pos_bound; lia).
  destruct (version_nibble _ (R 6%nat)) as [R6 V].
  destruct (variant_bits _ (R 8%nat)) as [R8 W]. cbv zeta in *.
  rewrite !format_02x_byte by (exact R6 || exact R8 || apply R).
  rewrite V.
  unfold snprintf. cbn [app firstn Nat.sub].
  split; [reflexivity|]. split; [reflexivity|]. split; [reflexivity|].
  split.
  - eexists. split; [reflexivity|].
    clear V. set (v := Z.lor _ _ / 16) in *.
    assert (C : v = 8 \/ v = 9 \/ v = 10 \/ v = 11) by lia.
    destruct C as [-> | [-> | [-> | ->]]]; cbn; auto.
  - cbn [list_ascii_of_string string_of_list_ascii forallb].
    rewrite !hexDigit_isHex. reflexivity.
Qed.

End IdentityFacts.
